(** * setup_inbound.py: inbound trunk and dispatch rule reconciliation

    A shallow embedding of [src/setup_inbound.py].  The script talks to
    the LiveKit control plane through one API client; here every
    interaction with that client (constructing it, each awaited SIP
    method, [aclose]) is a call served by a [Remote] value that holds
    the stored trunks and dispatch rules, the history of calls, and a
    script saying which call raises, whether a call that raised took
    effect all the same, and which identifier a create call assigns.
    [main] is written in a small state-and-exception monad. *)

From Stdlib Require Import List String Ascii Bool Arith Lia.
Import ListNotations.
Local Open Scope string_scope.
Local Open Scope list_scope.

Set Implicit Arguments.

(** ** Python strings and lists *)

Module Py.

(** [x in xs] for a sequence of strings. *)
Definition contains (xs : list string) (x : string) : bool :=
  existsb (String.eqb x) xs.

(** Truth value of a sequence: non-empty. *)
Definition truthy {A} (xs : list A) : bool :=
  match xs with [] => false | _ :: _ => true end.

(** [any(f(x) for x in xs)]. *)
Definition any {A} (f : A -> bool) (xs : list A) : bool := existsb f xs.

(** [s * n]. *)
Fixpoint times (s : string) (n : nat) : string :=
  match n with O => "" | S k => s ++ times s k end.

(** [s.replace(old, new)] for a non-empty [old]: occurrences are
    replaced left to right without overlap.  [skip] counts the
    characters of a matched occurrence still to be dropped. *)
Fixpoint replace_from (old new : string) (skip : nat) (s : string) : string :=
  match s with
  | EmptyString => EmptyString
  | String c s' =>
      match skip with
      | S k => replace_from old new k s'
      | O =>
          if String.prefix old s
          then new ++ replace_from old new (String.length old - 1) s'
          else String c (replace_from old new 0 s')
      end
  end.

Definition replace (s old new : string) : string := replace_from old new 0 s.

(** [s.split(sep)] for a non-empty [sep]. *)
Fixpoint split_from (sep : string) (skip : nat) (s : string) : list string :=
  match s with
  | EmptyString => [EmptyString]
  | String c s' =>
      match skip with
      | S k => split_from sep k s'
      | O =>
          if String.prefix sep s
          then EmptyString :: split_from sep (String.length sep - 1) s'
          else match split_from sep 0 s' with
               | x :: xs => String c x :: xs
               | [] => [String c EmptyString]
               end
      end
  end.

Definition split (s sep : string) : list string := split_from sep 0 s.

Definition newline : string := String (ascii_of_nat 10) EmptyString.

End Py.

(** ** Protocol messages (the fields the script reads or sets) *)

Record SIPInboundTrunkInfo := {
  sip_trunk_id : string;
  name : string;
  numbers : list string;
  allowed_addresses : list string;
  krisp_enabled : bool
}.

Record SIPDispatchRuleIndividual := { room_prefix : string }.

(** The [rule] oneof: the script only ever builds the individual
    variant; rules already stored may carry another one. *)
Inductive SIPDispatchRule :=
| dispatch_rule_individual (i : SIPDispatchRuleIndividual)
| dispatch_rule_other (variant : string).

Record RoomAgentDispatch := { agent_name : string }.

Record RoomConfiguration := { agents : list RoomAgentDispatch }.

(** [rule_name] is the message's [name] field. *)
Record SIPDispatchRuleInfo := {
  sip_dispatch_rule_id : string;
  rule_name : string;
  trunk_ids : list string;
  rule : SIPDispatchRule;
  room_config : RoomConfiguration
}.

(** ** Calls on the API client *)

Inductive Call :=
| LiveKitAPI_init
| ListSIPInboundTrunkRequest
| ListSIPDispatchRuleRequest
| DeleteSIPDispatchRuleRequest (id : string)
| DeleteSIPTrunkRequest (id : string)
| CreateSIPInboundTrunkRequest (trunk : SIPInboundTrunkInfo)
| CreateSIPDispatchRuleRequest (dispatch_rule : SIPDispatchRuleInfo)
| Aclose.

Inductive Reply :=
| Fault
| Done
| TrunkItems (items : list SIPInboundTrunkInfo)
| RuleItems (items : list SIPDispatchRuleInfo)
| TrunkCreated (t : SIPInboundTrunkInfo)
| RuleCreated (r : SIPDispatchRuleInfo).

Record Event := { ev_call : Call; ev_reply : Reply }.

(** ** The remote side

    [history] lists the calls served so far, oldest first.  The call
    number [n] (the length of the history when the call arrives) raises
    when [faults n] holds; a call that raises may have left the stores
    alone or may have been carried out before the error reached the
    client, and [applied n] says which.  A create call served as number
    [n] stores its message under the identifier [assigned n]. *)

Record Remote := {
  inbound_trunks : list SIPInboundTrunkInfo;
  dispatch_rules : list SIPDispatchRuleInfo;
  history : list Event;
  faults : nat -> bool;
  applied : nat -> bool;
  assigned : nat -> string
}.

Definition with_trunk_id (id : string) (t : SIPInboundTrunkInfo) :=
  {| sip_trunk_id := id; name := name t; numbers := numbers t;
     allowed_addresses := allowed_addresses t;
     krisp_enabled := krisp_enabled t |}.

Definition with_rule_id (id : string) (r : SIPDispatchRuleInfo) :=
  {| sip_dispatch_rule_id := id; rule_name := rule_name r;
     trunk_ids := trunk_ids r; rule := rule r; room_config := room_config r |}.

(** What a call that does not raise answers. *)
Definition answer (c : Call) (R : Remote) : Reply :=
  match c with
  | LiveKitAPI_init | Aclose => Done
  | ListSIPInboundTrunkRequest => TrunkItems (inbound_trunks R)
  | ListSIPDispatchRuleRequest => RuleItems (dispatch_rules R)
  | DeleteSIPDispatchRuleRequest _ | DeleteSIPTrunkRequest _ => Done
  | CreateSIPInboundTrunkRequest t =>
      TrunkCreated (with_trunk_id (assigned R (List.length (history R))) t)
  | CreateSIPDispatchRuleRequest r =>
      RuleCreated (with_rule_id (assigned R (List.length (history R))) r)
  end.

Definition trunks_after (c : Call) (R : Remote) : list SIPInboundTrunkInfo :=
  match c with
  | DeleteSIPTrunkRequest id =>
      filter (fun t => negb (String.eqb id (sip_trunk_id t))) (inbound_trunks R)
  | CreateSIPInboundTrunkRequest t =>
      inbound_trunks R ++ [with_trunk_id (assigned R (List.length (history R))) t]
  | _ => inbound_trunks R
  end.

Definition rules_after (c : Call) (R : Remote) : list SIPDispatchRuleInfo :=
  match c with
  | DeleteSIPDispatchRuleRequest id =>
      filter (fun r => negb (String.eqb id (sip_dispatch_rule_id r)))
             (dispatch_rules R)
  | CreateSIPDispatchRuleRequest r =>
      dispatch_rules R ++ [with_rule_id (assigned R (List.length (history R))) r]
  | _ => dispatch_rules R
  end.

Definition serve (c : Call) (R : Remote) : Reply * Remote :=
  if faults R (List.length (history R))
  then (Fault,
        {| inbound_trunks :=
             if applied R (List.length (history R))
             then trunks_after c R else inbound_trunks R;
           dispatch_rules :=
             if applied R (List.length (history R))
             then rules_after c R else dispatch_rules R;
           history := history R ++ [{| ev_call := c; ev_reply := Fault |}];
           faults := faults R; applied := applied R; assigned := assigned R |})
  else (answer c R,
        {| inbound_trunks := trunks_after c R;
           dispatch_rules := rules_after c R;
           history := history R ++ [{| ev_call := c; ev_reply := answer c R |}];
           faults := faults R; applied := applied R; assigned := assigned R |}).

(** A call the client library turns down by itself: it raises and
    nothing is sent. *)
Definition refused (c : Call) (R : Remote) : Remote :=
  {| inbound_trunks := inbound_trunks R;
     dispatch_rules := dispatch_rules R;
     history := history R ++ [{| ev_call := c; ev_reply := Fault |}];
     faults := faults R; applied := applied R; assigned := assigned R |}.

(** ** The process: remote side plus standard output *)

Record World := { remote : Remote; stdout : list string }.

Inductive exn :=
| AttributeError
| IndexError
| ValueError
| ClientError.

Inductive Result (A : Type) :=
| Ok (a : A)
| Raise (e : exn).
Arguments Ok {A} a.
Arguments Raise {A} e.

Definition M (A : Type) : Type := World -> Result A * World.

Definition ret {A} (a : A) : M A := fun w => (Ok a, w).

Definition raise {A} (e : exn) : M A := fun w => (Raise e, w).

Definition bind {A B} (m : M A) (k : A -> M B) : M B :=
  fun w => match m w with
           | (Ok a, w') => k a w'
           | (Raise e, w') => (Raise e, w')
           end.

Declare Scope py_scope.
Delimit Scope py_scope with py.
Notation "x <- m ;; k" := (bind m (fun x => k))
  (at level 61, m at next level, right associativity) : py_scope.
Notation "m ;; k" := (bind m (fun _ => k))
  (at level 61, right associativity) : py_scope.
Local Open Scope py_scope.

(** [try: body finally: fin]: [fin] runs on both outcomes of [body];
    an exception of [fin] replaces the outcome. *)
Definition try_finally {A} (body : M A) (fin : M unit) : M A :=
  fun w => match body w with
           | (res, w') =>
               match fin w' with
               | (Ok _, w'') => (res, w'')
               | (Raise e, w'') => (Raise e, w'')
               end
           end.

(** [for x in xs: body], with the loop-carried variable [s]. *)
Fixpoint for_in {A S} (xs : list A) (body : A -> S -> M S) (s : S) : M S :=
  match xs with
  | [] => ret s
  | x :: xs' => s' <- body x s ;; for_in xs' body s'
  end.

Definition print (line : string) : M unit :=
  fun w => (Ok tt, {| remote := remote w; stdout := stdout w ++ [line] |}).

(** An awaited call on the client: the reply, or the raised error. *)
Definition await (c : Call) : M Reply :=
  fun w => match serve c (remote w) with
           | (Fault, R') => (Raise ClientError, {| remote := R'; stdout := stdout w |})
           | (rep, R') => (Ok rep, {| remote := R'; stdout := stdout w |})
           end.

(** [api.LiveKitAPI()], called with no argument as on line 18: the
    client then takes its URL from the environment variable
    [LIVEKIT_URL], the one line 13 read (nothing changes the environment
    in between), and raises [ValueError] when it is unset.  Any other
    failure of the construction (an empty URL, a missing key or secret)
    is left to the script. *)
Definition LiveKitAPI (url : option string) : M unit :=
  match url with
  | None =>
      fun w => (Raise ValueError,
                {| remote := refused LiveKitAPI_init (remote w);
                   stdout := stdout w |})
  | Some _ => await LiveKitAPI_init ;; ret tt
  end.

Definition list_sip_inbound_trunk : M (list SIPInboundTrunkInfo) :=
  rep <- await ListSIPInboundTrunkRequest ;;
  match rep with TrunkItems items => ret items | _ => raise ClientError end.

Definition list_sip_dispatch_rule : M (list SIPDispatchRuleInfo) :=
  rep <- await ListSIPDispatchRuleRequest ;;
  match rep with RuleItems items => ret items | _ => raise ClientError end.

Definition delete_sip_dispatch_rule (id : string) : M unit :=
  await (DeleteSIPDispatchRuleRequest id) ;; ret tt.

Definition delete_sip_trunk (id : string) : M unit :=
  await (DeleteSIPTrunkRequest id) ;; ret tt.

Definition create_sip_inbound_trunk (t : SIPInboundTrunkInfo) : M SIPInboundTrunkInfo :=
  rep <- await (CreateSIPInboundTrunkRequest t) ;;
  match rep with TrunkCreated t' => ret t' | _ => raise ClientError end.

Definition create_sip_dispatch_rule (r : SIPDispatchRuleInfo) : M SIPDispatchRuleInfo :=
  rep <- await (CreateSIPDispatchRuleRequest r) ;;
  match rep with RuleCreated r' => ret r' | _ => raise ClientError end.

Definition aclose : M unit := await Aclose ;; ret tt.

(** ** Module globals (lines 13-15)

    [environ] is the process environment after [load_dotenv]. *)

Definition environ := list (string * string).

Fixpoint getenv (env : environ) (key : string) : option string :=
  match env with
  | [] => None
  | (k, v) :: env' => if String.eqb k key then Some v else getenv env' key
  end.

Definition getenv_default (env : environ) (key default : string) : string :=
  match getenv env key with Some v => v | None => default end.

Record Globals := {
  LIVEKIT_URL : option string;
  VOBIZ_INBOUND_NUMBER : string
}.

Definition AGENT_NAME : string := "voice-assistant".

Definition load_globals (env : environ) : Globals :=
  {| LIVEKIT_URL := getenv env "LIVEKIT_URL";
     VOBIZ_INBOUND_NUMBER :=
       getenv_default env "VOBIZ_INBOUND_NUMBER" "+912271264190" |}.

(** ** [main], block by block *)

(** Line 20: [LIVEKIT_URL.replace("wss://", "").replace("ws://", "").split(".")[0]].
    [None] has no [replace] attribute. *)
Definition derive_project_id (url : option string) : M string :=
  match url with
  | None => raise AttributeError
  | Some u =>
      match Py.split (Py.replace (Py.replace u "wss://" "") "ws://" "") "." with
      | x :: _ => ret x
      | [] => raise IndexError
      end
  end.

(** Line 39: [t.numbers and VOBIZ_INBOUND_NUMBER in t.numbers]. *)
Definition uses_number (number : string) (t : SIPInboundTrunkInfo) : bool :=
  Py.truthy (numbers t) && Py.contains (numbers t) number.

(** Lines 35-41: the loop that fills [trunks_to_delete]. *)
Definition find_conflicts (number : string) (items : list SIPInboundTrunkInfo)
  : M (list string) :=
  for_in items
    (fun t trunks_to_delete =>
       if uses_number number t
       then print ("    Found conflicting trunk: " ++ sip_trunk_id t
                   ++ " (Name: " ++ name t ++ ")") ;;
            ret (trunks_to_delete ++ [sip_trunk_id t])
       else ret trunks_to_delete)
    [].

(** Line 50: [any(trunk_id in r.trunk_ids for trunk_id in trunks_to_delete)]. *)
Definition linked (trunks_to_delete : list string) (r : SIPDispatchRuleInfo) : bool :=
  Py.any (fun trunk_id => Py.contains (trunk_ids r) trunk_id) trunks_to_delete.

(** Lines 44-64. *)
Definition resolve_conflicts (trunks_to_delete : list string) : M unit :=
  if Py.truthy trunks_to_delete
  then
    print "    Resolving conflicts..." ;;
    rules <- list_sip_dispatch_rule ;;
    for_in rules
      (fun r _ =>
         if linked trunks_to_delete r
         then print ("    Deleting linked dispatch rule: " ++ sip_dispatch_rule_id r
                     ++ " (Name: " ++ rule_name r ++ ")") ;;
              delete_sip_dispatch_rule (sip_dispatch_rule_id r)
         else ret tt)
      tt ;;
    for_in trunks_to_delete
      (fun trunk_id _ =>
         print ("    Deleting conflicting trunk: " ++ trunk_id) ;;
         delete_sip_trunk trunk_id)
      tt ;;
    print "    Cleanup complete."
  else
    print "    No conflicting configuration found.".

(** Lines 70-75: the message of the create request; the identifier is
    left at its default. *)
Definition new_trunk (number : string) : SIPInboundTrunkInfo :=
  {| sip_trunk_id := "";
     name := "Vobiz Inbound";
     numbers := [number];
     allowed_addresses := ["0.0.0.0/0"];
     krisp_enabled := true |}.

(** Lines 83-96: the rule message, then [room_config.CopyFrom]. *)
Definition CopyFrom_room_config (c : RoomConfiguration) (r : SIPDispatchRuleInfo) :=
  {| sip_dispatch_rule_id := sip_dispatch_rule_id r; rule_name := rule_name r;
     trunk_ids := trunk_ids r; rule := rule r; room_config := c |}.

Definition new_dispatch_rule (trunk_id : string) : SIPDispatchRuleInfo :=
  let dispatch_rule :=
    {| sip_dispatch_rule_id := "";
       rule_name := "Inbound Agent Dispatch";
       trunk_ids := [trunk_id];
       rule := dispatch_rule_individual {| room_prefix := "call-" |};
       room_config := {| agents := [] |} |} in
  CopyFrom_room_config
    {| agents := [ {| agent_name := AGENT_NAME |} ] |} dispatch_rule.

(** Lines 30-116: the body of the [try]. *)
Definition reconcile (number sip_endpoint : string) : M unit :=
  print (Py.newline ++ "[1] Checking for existing configuration for "
         ++ number ++ "...") ;;
  trunks <- list_sip_inbound_trunk ;;
  trunks_to_delete <- find_conflicts number trunks ;;
  resolve_conflicts trunks_to_delete ;;
  print (Py.newline ++ "[2] Creating inbound trunk for " ++ number ++ "...") ;;
  trunk <- create_sip_inbound_trunk (new_trunk number) ;;
  let trunk_id := sip_trunk_id trunk in
  print ("    Created: " ++ trunk_id) ;;
  print (Py.newline ++ "[3] Creating dispatch rule for agent '"
         ++ AGENT_NAME ++ "'...") ;;
  result <- create_sip_dispatch_rule (new_dispatch_rule trunk_id) ;;
  print ("    Created: " ++ sip_dispatch_rule_id result) ;;
  print (Py.newline ++ Py.times "=" 60) ;;
  print "SETUP COMPLETE" ;;
  print (Py.times "=" 60) ;;
  print (Py.newline ++ "Inbound Trunk: " ++ trunk_id ++ Py.newline
         ++ "  Number: " ++ number ++ Py.newline
         ++ "  " ++ Py.newline
         ++ "Dispatch Rule: " ++ sip_dispatch_rule_id result ++ Py.newline
         ++ "  Agent: " ++ AGENT_NAME ++ Py.newline
         ++ Py.newline
         ++ "IMPORTANT - Set Vobiz Primary URI to:" ++ Py.newline
         ++ "  " ++ sip_endpoint ++ Py.newline).

(** Lines 17-119. *)
Definition main (g : Globals) : M unit :=
  LiveKitAPI (LIVEKIT_URL g) ;;
  project_id <- derive_project_id (LIVEKIT_URL g) ;;
  let sip_endpoint := (project_id ++ ".sip.livekit.cloud")%string in
  print (Py.times "=" 60) ;;
  print "LIVEKIT INBOUND SETUP" ;;
  print (Py.times "=" 60) ;;
  print (Py.newline ++ "Project: " ++ project_id) ;;
  print ("SIP Endpoint: " ++ sip_endpoint) ;;
  print ("Inbound Number: " ++ VOBIZ_INBOUND_NUMBER g) ;;
  try_finally
    (reconcile (VOBIZ_INBOUND_NUMBER g) sip_endpoint)
    aclose.

(** ** Sample runs *)

Module Sample.

Definition quiet (trunks : list SIPInboundTrunkInfo)
    (rules : list SIPDispatchRuleInfo) : World :=
  {| remote :=
       {| inbound_trunks := trunks; dispatch_rules := rules; history := [];
          faults := fun _ => false;
          applied := fun _ => false;
          assigned := fun n => ("NEW_" ++ Py.times "i" n)%string |};
     stdout := [] |}.

Definition failing_at (k : nat) (w : World) : World :=
  {| remote :=
       {| inbound_trunks := inbound_trunks (remote w);
          dispatch_rules := dispatch_rules (remote w);
          history := history (remote w);
          faults := Nat.eqb k;
          applied := applied (remote w);
          assigned := assigned (remote w) |};
     stdout := stdout w |}.

(** The call at position [k] raises although the service carried it
    out. *)
Definition landing_at (k : nat) (w : World) : World :=
  {| remote :=
       {| inbound_trunks := inbound_trunks (remote w);
          dispatch_rules := dispatch_rules (remote w);
          history := history (remote w);
          faults := Nat.eqb k;
          applied := Nat.eqb k;
          assigned := assigned (remote w) |};
     stdout := stdout w |}.

Definition g : Globals :=
  load_globals [("LIVEKIT_URL", "wss://demo-x1.livekit.cloud")].

Definition g_no_url : Globals := load_globals [].

Definition old_trunk : SIPInboundTrunkInfo :=
  {| sip_trunk_id := "ST_old"; name := "Old"; numbers := ["+912271264190"];
     allowed_addresses := []; krisp_enabled := false |}.

Definition other_trunk : SIPInboundTrunkInfo :=
  {| sip_trunk_id := "ST_other"; name := "Other"; numbers := ["+15550100"];
     allowed_addresses := []; krisp_enabled := false |}.

Definition a_rule (id : string) (tids : list string) : SIPDispatchRuleInfo :=
  {| sip_dispatch_rule_id := id; rule_name := "r"; trunk_ids := tids;
     rule := dispatch_rule_other "direct";
     room_config := {| agents := [] |} |}.

Definition calls (w : World) : list Call := map ev_call (history (remote w)).

End Sample.

(** ** Sequences of calls

    [exec cs R] serves the calls [cs] in order and stops at the first
    one that raises; the flag tells whether all of them returned. *)

Fixpoint exec (cs : list Call) (R : Remote) : bool * Remote :=
  match cs with
  | [] => (true, R)
  | c :: cs' =>
      if faults R (List.length (history R))
      then (false, snd (serve c R))
      else exec cs' (snd (serve c R))
  end.

(** The events [exec cs R] appends to the history. *)
Fixpoint events (cs : list Call) (R : Remote) : list Event :=
  match cs with
  | [] => []
  | c :: cs' =>
      {| ev_call := c; ev_reply := fst (serve c R) |}
        :: (if faults R (List.length (history R)) then []
            else events cs' (snd (serve c R)))
  end.

(** [runs m w cs v]: from [w], the computation [m] performs exactly the
    calls of [exec cs], returns [v] when all of them return and raises
    the client's error otherwise. *)
Definition runs {A} (m : M A) (w : World) (cs : list Call) (v : A) : Prop :=
  remote (snd (m w)) = snd (exec cs (remote w)) /\
  fst (m w) = if fst (exec cs (remote w)) then Ok v else Raise ClientError.

(** The events a run of [main] adds to the history. *)
Definition run_events (g : Globals) (w : World) : list Event :=
  skipn (List.length (history (remote w))) (history (remote (snd (main g w)))).

(** ** The calls a run is expected to make *)

(** The identifiers [find_conflicts] collects. *)
Definition conflicts (number : string) (items : list SIPInboundTrunkInfo)
  : list string :=
  map sip_trunk_id (filter (uses_number number) items).

(** The identifiers of the rules the cascade deletes. *)
Definition linked_rule_ids (trunks_to_delete : list string)
    (rules : list SIPDispatchRuleInfo) : list string :=
  map sip_dispatch_rule_id (filter (linked trunks_to_delete) rules).

Definition cleanup_calls (trunks_to_delete : list string)
    (rules : list SIPDispatchRuleInfo) : list Call :=
  if Py.truthy trunks_to_delete
  then ListSIPDispatchRuleRequest
         :: map DeleteSIPDispatchRuleRequest (linked_rule_ids trunks_to_delete rules)
         ++ map DeleteSIPTrunkRequest trunks_to_delete
  else [].

Definition discovery_calls (number : string) (R : Remote) : list Call :=
  ListSIPInboundTrunkRequest
    :: cleanup_calls (conflicts number (inbound_trunks R)) (dispatch_rules R).

(** The identifier the create-trunk call of a run from [R] is given. *)
Definition new_trunk_id (number : string) (R : Remote) : string :=
  assigned R (List.length (history R) + List.length (discovery_calls number R)).

Definition new_rule_id (number : string) (R : Remote) : string :=
  assigned R (S (List.length (history R) + List.length (discovery_calls number R))).

Definition creation_calls (number : string) (R : Remote) : list Call :=
  [ CreateSIPInboundTrunkRequest (new_trunk number);
    CreateSIPDispatchRuleRequest (new_dispatch_rule (new_trunk_id number R)) ].

Definition plan (number : string) (R : Remote) : list Call :=
  discovery_calls number R ++ creation_calls number R.

(** The remote side once the client has been constructed, and what
    the body of the [try] then does to it. *)
Definition connected (R : Remote) : Remote := snd (serve LiveKitAPI_init R).

Definition reconciled (number : string) (R : Remote) : bool * Remote :=
  exec (plan number (connected R)) (connected R).

Definition released (number : string) (R : Remote) : Remote :=
  snd (serve Aclose (snd (reconciled number R))).

(** No call faults from now on. *)
Definition quiet (R : Remote) : Prop := forall k, faults R k = false.

(** ** Vocabulary of the properties *)

Definition run_calls (g : Globals) (w : World) : list Call :=
  map ev_call (run_events g w).

(** The messages of the create requests among some calls. *)
Definition trunk_requests (cs : list Call) : list SIPInboundTrunkInfo :=
  flat_map (fun c => match c with
                     | CreateSIPInboundTrunkRequest t => [t]
                     | _ => []
                     end) cs.

Definition rule_requests (cs : list Call) : list SIPDispatchRuleInfo :=
  flat_map (fun c => match c with
                     | CreateSIPDispatchRuleRequest r => [r]
                     | _ => []
                     end) cs.

Definition is_deletion (c : Call) : bool :=
  match c with
  | DeleteSIPDispatchRuleRequest _ | DeleteSIPTrunkRequest _ => true
  | _ => false
  end.

(** A trunk carries a number; a rule routes a number when one of its
    trunk identifiers is that of a stored trunk carrying it. *)
Definition carries (number : string) (t : SIPInboundTrunkInfo) : bool :=
  if in_dec string_dec number (numbers t) then true else false.

Definition routes (number : string) (trunks : list SIPInboundTrunkInfo)
    (r : SIPDispatchRuleInfo) : bool :=
  existsb (fun t => carries number t
                    && (if in_dec string_dec (sip_trunk_id t) (trunk_ids r)
                        then true else false))
          trunks.

(** The text of the closing summary (lines 107-116). *)
Definition summary_text (trunk_id number rule_id sip_endpoint : string) : string :=
  Py.newline ++ "Inbound Trunk: " ++ trunk_id ++ Py.newline
  ++ "  Number: " ++ number ++ Py.newline
  ++ "  " ++ Py.newline
  ++ "Dispatch Rule: " ++ rule_id ++ Py.newline
  ++ "  Agent: " ++ AGENT_NAME ++ Py.newline
  ++ Py.newline
  ++ "IMPORTANT - Set Vobiz Primary URI to:" ++ Py.newline
  ++ "  " ++ sip_endpoint ++ Py.newline.

(** Output discipline: [says m] when [m] only appends lines other than
    the completion banner; [says_on_raise m] when that holds of the runs
    of [m] that raise. *)
Definition not_banner (line : string) : Prop := line <> "SETUP COMPLETE".

Definition says {A} (m : M A) : Prop :=
  forall w, exists lines,
    stdout (snd (m w)) = stdout w ++ lines /\ Forall not_banner lines.

Definition says_on_raise {A} (m : M A) : Prop :=
  forall w e, fst (m w) = Raise e ->
    exists lines,
      stdout (snd (m w)) = stdout w ++ lines /\ Forall not_banner lines.

(** The lines a run of [main] printed. *)
Definition run_output (g : Globals) (w : World) : list string :=
  skipn (List.length (stdout w)) (stdout (snd (main g w))).

(** A character occurs in a string. *)
Fixpoint occurs (c : ascii) (s : string) : bool :=
  match s with
  | EmptyString => false
  | String a s' => Ascii.eqb a c || occurs c s'
  end.

(** ** Facts about [serve] and [exec] *)

Lemma serve_faults c R : faults (snd (serve c R)) = faults R.
Proof. unfold serve. destruct (faults R _); reflexivity. Qed.

Lemma serve_assigned c R : assigned (snd (serve c R)) = assigned R.
Proof. unfold serve. destruct (faults R _); reflexivity. Qed.

Lemma serve_history c R :
  history (snd (serve c R))
  = history R ++ [{| ev_call := c; ev_reply := fst (serve c R) |}].
Proof. unfold serve. destruct (faults R _); reflexivity. Qed.

Lemma answer_not_Fault c R : answer c R <> Fault.
Proof. destruct c; discriminate. Qed.

Lemma serve_reply c R :
  fst (serve c R) = if faults R (List.length (history R)) then Fault else answer c R.
Proof. unfold serve. destruct (faults R _); reflexivity. Qed.

Lemma serve_applied c R : applied (snd (serve c R)) = applied R.
Proof. unfold serve. destruct (faults R _); reflexivity. Qed.

Lemma serve_trunks c R :
  inbound_trunks (snd (serve c R))
  = if faults R (List.length (history R))
    then if applied R (List.length (history R))
         then trunks_after c R else inbound_trunks R
    else trunks_after c R.
Proof. unfold serve. destruct (faults R _); reflexivity. Qed.

Lemma serve_rules c R :
  dispatch_rules (snd (serve c R))
  = if faults R (List.length (history R))
    then if applied R (List.length (history R))
         then rules_after c R else dispatch_rules R
    else rules_after c R.
Proof. unfold serve. destruct (faults R _); reflexivity. Qed.

(** Whether it raised or not, a call left each store alone or did to it
    what the call does. *)
Lemma serve_trunks_cases c R :
  inbound_trunks (snd (serve c R)) = inbound_trunks R \/
  inbound_trunks (snd (serve c R)) = trunks_after c R.
Proof.
  rewrite serve_trunks. destruct (faults R _); [destruct (applied R _)|]; auto.
Qed.

Lemma serve_rules_cases c R :
  dispatch_rules (snd (serve c R)) = dispatch_rules R \/
  dispatch_rules (snd (serve c R)) = rules_after c R.
Proof.
  rewrite serve_rules. destruct (faults R _); [destruct (applied R _)|]; auto.
Qed.

Lemma exec_app cs1 cs2 R :
  exec (cs1 ++ cs2) R
  = if fst (exec cs1 R) then exec cs2 (snd (exec cs1 R))
    else (false, snd (exec cs1 R)).
Proof.
  revert R. induction cs1 as [|c cs1 IH]; intros R; simpl.
  - reflexivity.
  - destruct (faults R _); simpl; [reflexivity | apply IH].
Qed.

Lemma exec_faults cs R : faults (snd (exec cs R)) = faults R.
Proof.
  revert R. induction cs as [|c cs IH]; intros R; simpl; [reflexivity|].
  destruct (faults R _) eqn:E; simpl.
  - apply serve_faults.
  - rewrite IH. apply serve_faults.
Qed.

Lemma exec_assigned cs R : assigned (snd (exec cs R)) = assigned R.
Proof.
  revert R. induction cs as [|c cs IH]; intros R; simpl; [reflexivity|].
  destruct (faults R _) eqn:E; simpl.
  - apply serve_assigned.
  - rewrite IH. apply serve_assigned.
Qed.

Lemma exec_history cs R :
  history (snd (exec cs R)) = history R ++ events cs R.
Proof.
  revert R. induction cs as [|c cs IH]; intros R; simpl.
  - now rewrite app_nil_r.
  - destruct (faults R _) eqn:E; simpl.
    + apply serve_history.
    + rewrite IH, serve_history, <- app_assoc. reflexivity.
Qed.

Lemma exec_ok_length cs R :
  fst (exec cs R) = true -> List.length (events cs R) = List.length cs.
Proof.
  revert R. induction cs as [|c cs IH]; intros R; simpl; [reflexivity|].
  destruct (faults R _); simpl; [discriminate|].
  intros H. now rewrite IH.
Qed.

(** When no call faults, every call of the sequence is served. *)
Lemma exec_quiet cs R :
  (forall k, faults R k = false) -> fst (exec cs R) = true.
Proof.
  revert R. induction cs as [|c cs IH]; intros R H; simpl; [reflexivity|].
  rewrite H. apply IH. intros k. now rewrite serve_faults.
Qed.

(** ** The monad and [runs] *)

Lemma runs_ret {A} (a : A) w : runs (ret a) w [] a.
Proof. split; reflexivity. Qed.

Lemma runs_print s w : runs (print s) w [] tt.
Proof. split; reflexivity. Qed.

Lemma runs_bind {A B} (m : M A) (k : A -> M B) w cs1 cs2 a b :
  runs m w cs1 a ->
  (fst (exec cs1 (remote w)) = true -> runs (k a) (snd (m w)) cs2 b) ->
  runs (bind m k) w (cs1 ++ cs2) b.
Proof.
  unfold runs, bind. intros [Hr Hv] Hk. rewrite exec_app.
  destruct (m w) as [res w1]; simpl in *.
  destruct (fst (exec cs1 (remote w))).
  - subst res. destruct (Hk eq_refl) as [Hr2 Hv2].
    rewrite <- Hr. split; assumption.
  - subst res. simpl. split; [assumption | reflexivity].
Qed.

Lemma await_remote c w : remote (snd (await c w)) = snd (serve c (remote w)).
Proof. unfold await. destruct (serve c (remote w)) as [[] R']; reflexivity. Qed.

Lemma await_stdout c w : stdout (snd (await c w)) = stdout w.
Proof. unfold await. destruct (serve c (remote w)) as [[] R']; reflexivity. Qed.

Lemma await_result c w :
  fst (await c w)
  = if faults (remote w) (List.length (history (remote w)))
    then Raise ClientError else Ok (answer c (remote w)).
Proof.
  unfold await, serve. destruct (faults _ _); [reflexivity|].
  pose proof (answer_not_Fault c (remote w)).
  destruct (answer c (remote w)); simpl; congruence.
Qed.

Lemma runs_await c w : runs (await c) w [c] (answer c (remote w)).
Proof.
  split; simpl.
  - rewrite await_remote. now destruct (faults _ _).
  - rewrite await_result. now destruct (faults _ _).
Qed.

Lemma runs_bind_silent {A B} (m : M A) (k : A -> M B) w cs a b :
  runs m w [] a ->
  runs (k a) (snd (m w)) cs b ->
  runs (bind m k) w cs b.
Proof.
  intros Hm Hk. change cs with ([] ++ cs). eapply runs_bind; eauto.
Qed.

Lemma runs_bind_call {A B} (m : M A) (k : A -> M B) w c cs a b :
  runs m w [c] a ->
  (faults (remote w) (List.length (history (remote w))) = false ->
   runs (k a) (snd (m w)) cs b) ->
  runs (bind m k) w (c :: cs) b.
Proof.
  intros Hm Hk. change (c :: cs) with ([c] ++ cs). eapply runs_bind; eauto.
  simpl. destruct (faults _ _); [discriminate | auto].
Qed.

Lemma runs_LiveKitAPI u w : runs (LiveKitAPI (Some u)) w [LiveKitAPI_init] tt.
Proof.
  unfold LiveKitAPI. eapply runs_bind_call; [apply runs_await|].
  intros _. apply runs_ret.
Qed.

Lemma runs_aclose w : runs aclose w [Aclose] tt.
Proof.
  unfold aclose. eapply runs_bind_call; [apply runs_await|].
  intros _. apply runs_ret.
Qed.

Lemma runs_list_sip_inbound_trunk w :
  runs list_sip_inbound_trunk w [ListSIPInboundTrunkRequest]
       (inbound_trunks (remote w)).
Proof.
  unfold list_sip_inbound_trunk. eapply runs_bind_call; [apply runs_await|].
  intros _. apply runs_ret.
Qed.

Lemma runs_list_sip_dispatch_rule w :
  runs list_sip_dispatch_rule w [ListSIPDispatchRuleRequest]
       (dispatch_rules (remote w)).
Proof.
  unfold list_sip_dispatch_rule. eapply runs_bind_call; [apply runs_await|].
  intros _. apply runs_ret.
Qed.

Lemma runs_delete_sip_dispatch_rule id w :
  runs (delete_sip_dispatch_rule id) w [DeleteSIPDispatchRuleRequest id] tt.
Proof.
  unfold delete_sip_dispatch_rule. eapply runs_bind_call; [apply runs_await|].
  intros _. apply runs_ret.
Qed.

Lemma runs_delete_sip_trunk id w :
  runs (delete_sip_trunk id) w [DeleteSIPTrunkRequest id] tt.
Proof.
  unfold delete_sip_trunk. eapply runs_bind_call; [apply runs_await|].
  intros _. apply runs_ret.
Qed.

Lemma runs_create_sip_inbound_trunk t w :
  runs (create_sip_inbound_trunk t) w [CreateSIPInboundTrunkRequest t]
       (with_trunk_id (assigned (remote w) (List.length (history (remote w)))) t).
Proof.
  unfold create_sip_inbound_trunk. eapply runs_bind_call; [apply runs_await|].
  intros _. apply runs_ret.
Qed.

Lemma runs_create_sip_dispatch_rule r w :
  runs (create_sip_dispatch_rule r) w [CreateSIPDispatchRuleRequest r]
       (with_rule_id (assigned (remote w) (List.length (history (remote w)))) r).
Proof.
  unfold create_sip_dispatch_rule. eapply runs_bind_call; [apply runs_await|].
  intros _. apply runs_ret.
Qed.

(** ** The loops *)

Lemma runs_find_conflicts_from number items acc w :
  runs (for_in items
          (fun t trunks_to_delete =>
             if uses_number number t
             then print ("    Found conflicting trunk: " ++ sip_trunk_id t
                         ++ " (Name: " ++ name t ++ ")") ;;
                  ret (trunks_to_delete ++ [sip_trunk_id t])
             else ret trunks_to_delete)
          acc)
       w [] (acc ++ conflicts number items).
Proof.
  revert acc w. induction items as [|t items IH]; intros acc w; simpl.
  - unfold conflicts. simpl. rewrite app_nil_r. apply runs_ret.
  - unfold conflicts. simpl. destruct (uses_number number t) eqn:E.
    + eapply runs_bind_silent.
      * eapply runs_bind_silent; [apply runs_print | apply runs_ret].
      * simpl map. replace (acc ++ sip_trunk_id t :: map sip_trunk_id (filter (uses_number number) items))
          with ((acc ++ [sip_trunk_id t]) ++ conflicts number items)
          by (now rewrite <- app_assoc).
        apply IH.
    + eapply runs_bind_silent; [apply runs_ret | apply IH].
Qed.

Lemma runs_find_conflicts number items w :
  runs (find_conflicts number items) w [] (conflicts number items).
Proof. apply (runs_find_conflicts_from number items [] w). Qed.

Lemma runs_delete_rules tds rules w :
  runs (for_in rules
          (fun r _ =>
             if linked tds r
             then print ("    Deleting linked dispatch rule: " ++ sip_dispatch_rule_id r
                         ++ " (Name: " ++ rule_name r ++ ")") ;;
                  delete_sip_dispatch_rule (sip_dispatch_rule_id r)
             else ret tt)
          tt)
       w (map DeleteSIPDispatchRuleRequest (linked_rule_ids tds rules)) tt.
Proof.
  revert w. induction rules as [|r rules IH]; intros w; simpl.
  - apply runs_ret.
  - unfold linked_rule_ids. simpl. destruct (linked tds r) eqn:E; simpl.
    + eapply runs_bind_call.
      * eapply runs_bind_silent; [apply runs_print|].
        apply runs_delete_sip_dispatch_rule.
      * intros _. apply IH.
    + eapply runs_bind_silent; [apply runs_ret | apply IH].
Qed.

Lemma runs_delete_trunks tds w :
  runs (for_in tds
          (fun trunk_id _ =>
             print ("    Deleting conflicting trunk: " ++ trunk_id) ;;
             delete_sip_trunk trunk_id)
          tt)
       w (map DeleteSIPTrunkRequest tds) tt.
Proof.
  revert w. induction tds as [|id tds IH]; intros w; simpl.
  - apply runs_ret.
  - eapply runs_bind_call.
    + eapply runs_bind_silent; [apply runs_print|].
      apply runs_delete_sip_trunk.
    + intros _. apply IH.
Qed.

Lemma runs_resolve_conflicts tds w :
  runs (resolve_conflicts tds) w
       (cleanup_calls tds (dispatch_rules (remote w))) tt.
Proof.
  unfold resolve_conflicts, cleanup_calls. destruct (Py.truthy tds).
  - eapply runs_bind_silent; [apply runs_print|].
    eapply runs_bind_call; [apply runs_list_sip_dispatch_rule|]. intros _.
    eapply runs_bind; [apply runs_delete_rules|]. intros _.
    rewrite <- (app_nil_r (map DeleteSIPTrunkRequest tds)).
    eapply runs_bind; [apply runs_delete_trunks|]. intros _.
    apply runs_print.
  - apply runs_print.
Qed.

Lemma runs_then {A B} (m : M A) (k : A -> M B) w cs1 cs2 a b :
  runs m w cs1 a ->
  (forall w', remote w' = snd (exec cs1 (remote w)) ->
              fst (exec cs1 (remote w)) = true ->
              runs (k a) w' cs2 b) ->
  runs (bind m k) w (cs1 ++ cs2) b.
Proof.
  intros Hm Hk. eapply runs_bind; [exact Hm|]. intros Hok.
  apply Hk; [apply Hm | exact Hok].
Qed.

Lemma runs_then_silent {A B} (m : M A) (k : A -> M B) w cs a b :
  runs m w [] a ->
  (forall w', remote w' = remote w -> runs (k a) w' cs b) ->
  runs (bind m k) w cs b.
Proof.
  intros Hm Hk. change cs with ([] ++ cs). eapply runs_then; [exact Hm|].
  intros w' Hw _. apply Hk. exact Hw.
Qed.

Lemma runs_then_call {A B} (m : M A) (k : A -> M B) w c cs a b :
  runs m w [c] a ->
  (forall w', remote w' = snd (serve c (remote w)) ->
              faults (remote w) (List.length (history (remote w))) = false ->
              runs (k a) w' cs b) ->
  runs (bind m k) w (c :: cs) b.
Proof.
  intros Hm Hk. change (c :: cs) with ([c] ++ cs). eapply runs_then; [exact Hm|].
  simpl. intros w' Hw Hok. destruct (faults _ _) eqn:E; [discriminate|].
  apply Hk; [exact Hw | reflexivity].
Qed.

Lemma serve_list_trunks_stores R :
  inbound_trunks (snd (serve ListSIPInboundTrunkRequest R)) = inbound_trunks R /\
  dispatch_rules (snd (serve ListSIPInboundTrunkRequest R)) = dispatch_rules R.
Proof.
  unfold serve. destruct (faults R _); [destruct (applied R _)|]; split; reflexivity.
Qed.

Lemma runs_reconcile number sip_endpoint w :
  runs (reconcile number sip_endpoint) w (plan number (remote w)) tt.
Proof.
  unfold reconcile, plan, discovery_calls.
  eapply runs_then_silent; [apply runs_print|]. intros w1 E1.
  rewrite <- E1.
  eapply runs_then_call; [apply runs_list_sip_inbound_trunk|]. intros w2 E2 F1.
  eapply runs_then_silent; [apply runs_find_conflicts|]. intros w3 E3.
  destruct (serve_list_trunks_stores (remote w1)) as [_ Hr].
  rewrite <- E2, <- E3 in Hr.
  pose proof (runs_resolve_conflicts (conflicts number (inbound_trunks (remote w1))) w3) as HR.
  rewrite Hr in HR.
  eapply runs_then; [exact HR|]. intros w4 E4 Ok4.
  assert (E : remote w4 = snd (exec (discovery_calls number (remote w1)) (remote w1))
              /\ fst (exec (discovery_calls number (remote w1)) (remote w1)) = true).
  { unfold discovery_calls. simpl. rewrite F1. rewrite <- E2, <- E3. auto. }
  destruct E as [E Eok].
  assert (Hlen : List.length (history (remote w4))
                 = List.length (history (remote w1))
                   + List.length (discovery_calls number (remote w1))).
  { rewrite E, exec_history, length_app, (exec_ok_length _ _ Eok). reflexivity. }
  assert (Hasg : assigned (remote w4) = assigned (remote w1)).
  { rewrite E. apply exec_assigned. }
  unfold creation_calls.
  eapply runs_then_silent; [apply runs_print|]. intros w5 E5.
  eapply runs_then_call; [apply runs_create_sip_inbound_trunk|]. intros w6 E6 F6.
  simpl sip_trunk_id. rewrite E5, Hasg, Hlen. fold (new_trunk_id number (remote w1)).
  eapply runs_then_silent; [apply runs_print|]. intros w7 E7.
  eapply runs_then_silent; [apply runs_print|]. intros w8 E8.
  eapply runs_then_call; [apply runs_create_sip_dispatch_rule|]. intros w9 E9 F9.
  eapply runs_then_silent; [apply runs_print|]. intros w10 E10.
  eapply runs_then_silent; [apply runs_print|]. intros w11 E11.
  eapply runs_then_silent; [apply runs_print|]. intros w12 E12.
  eapply runs_then_silent; [apply runs_print|]. intros w13 E13.
  apply runs_print.
Qed.

(** ** [main] as a sequence of calls *)

Lemma split_from_nonempty sep skip s : Py.split_from sep skip s <> [].
Proof.
  revert skip. induction s as [|c s IH]; intros skip; simpl.
  - discriminate.
  - destruct skip; [|apply IH].
    match goal with |- context [if ?b then _ else _] => destruct b end;
      [discriminate|].
    destruct (Py.split_from sep 0 s); discriminate.
Qed.

Lemma derive_project_id_some u w :
  exists project_id, derive_project_id (Some u) w = (Ok project_id, w).
Proof.
  unfold derive_project_id, Py.split.
  destruct (Py.split_from "." 0 _) as [|x xs] eqn:E.
  - now apply split_from_nonempty in E.
  - exists x. reflexivity.
Qed.

Lemma try_finally_runs (body fin : M unit) w cs c :
  runs body w cs tt ->
  (forall w', runs fin w' [c] tt) ->
  let R' := snd (exec cs (remote w)) in
  remote (snd (try_finally body fin w)) = snd (serve c R') /\
  fst (try_finally body fin w)
  = if fst (exec cs (remote w)) && negb (faults R' (List.length (history R')))
    then Ok tt else Raise ClientError.
Proof.
  intros [Hr Hv] Hfin. unfold try_finally. simpl.
  destruct (body w) as [res w1]. simpl in *.
  destruct (Hfin w1) as [Hr1 Hv1]. simpl in *.
  destruct (fin w1) as [res2 w2]. simpl in *. rewrite <- Hr.
  destruct (faults (remote w1) _); simpl in *; subst res2; simpl.
  - split; [assumption|]. now rewrite andb_false_r.
  - split; [assumption|]. rewrite andb_true_r.
    destruct (fst (exec cs (remote w))); subst res; reflexivity.
Qed.

Lemma bind_print {B} s (k : unit -> M B) w :
  bind (print s) k w = k tt {| remote := remote w; stdout := stdout w ++ [s] |}.
Proof. reflexivity. Qed.

Lemma main_without_client g w u :
  LIVEKIT_URL g = Some u ->
  faults (remote w) (List.length (history (remote w))) = true ->
  main g w = (Raise ClientError,
              {| remote := connected (remote w); stdout := stdout w |}).
Proof.
  intros U F. unfold main. rewrite U.
  unfold bind, LiveKitAPI, bind, await, connected, serve.
  rewrite F. reflexivity.
Qed.

Lemma main_without_url g w :
  LIVEKIT_URL g = None ->
  main g w = (Raise ValueError,
              {| remote := refused LiveKitAPI_init (remote w); stdout := stdout w |}).
Proof.
  intros U. unfold main. rewrite U. reflexivity.
Qed.

Lemma main_enters_try g w u :
  LIVEKIT_URL g = Some u ->
  faults (remote w) (List.length (history (remote w))) = false ->
  exists sip_endpoint w1,
    remote w1 = connected (remote w) /\
    main g w = try_finally (reconcile (VOBIZ_INBOUND_NUMBER g) sip_endpoint) aclose w1.
Proof.
  intros U F. unfold main. rewrite U. unfold bind at 1.
  destruct (runs_LiveKitAPI u w) as [Hr Hv].
  generalize dependent (LiveKitAPI (Some u) w). intros [res0 w0] Hr Hv.
  simpl in Hr, Hv. rewrite F in Hr, Hv. simpl in Hr, Hv. subst res0.
  unfold bind at 1.
  destruct (derive_project_id_some u w0) as [project_id Hd]. rewrite Hd.
  rewrite !bind_print.
  eexists _, _. split; [|reflexivity]. exact Hr.
Qed.

Lemma main_with_url g w u :
  LIVEKIT_URL g = Some u ->
  faults (remote w) (List.length (history (remote w))) = false ->
  let number := VOBIZ_INBOUND_NUMBER g in
  let R' := snd (reconciled number (remote w)) in
  remote (snd (main g w)) = released number (remote w) /\
  fst (main g w)
  = if fst (reconciled number (remote w))
       && negb (faults R' (List.length (history R')))
    then Ok tt else Raise ClientError.
Proof.
  intros U F number R'.
  destruct (main_enters_try g w U F) as (ep & w1 & Hw & ->).
  pose proof (try_finally_runs (w:=w1) (c:=Aclose)
                (runs_reconcile number ep w1) runs_aclose) as H.
  rewrite Hw in H. exact H.
Qed.

(** ** The events of a run *)

Lemma skipn_length_app {A} (l l' : list A) : skipn (List.length l) (l ++ l') = l'.
Proof. induction l; simpl; auto. Qed.

Lemma connected_history R :
  history (connected R)
  = history R ++ [{| ev_call := LiveKitAPI_init;
                     ev_reply := fst (serve LiveKitAPI_init R) |}].
Proof. apply serve_history. Qed.

Lemma connected_trunks R : inbound_trunks (connected R) = inbound_trunks R.
Proof. destruct (serve_trunks_cases LiveKitAPI_init R); assumption. Qed.

Lemma connected_rules R : dispatch_rules (connected R) = dispatch_rules R.
Proof. destruct (serve_rules_cases LiveKitAPI_init R); assumption. Qed.

Lemma run_events_without_client g w u :
  LIVEKIT_URL g = Some u ->
  faults (remote w) (List.length (history (remote w))) = true ->
  run_events g w = [{| ev_call := LiveKitAPI_init; ev_reply := Fault |}].
Proof.
  intros U F. unfold run_events. rewrite (main_without_client g w U F). simpl.
  rewrite connected_history, skipn_length_app, serve_reply, F. reflexivity.
Qed.

Lemma run_events_without_url g w :
  LIVEKIT_URL g = None ->
  run_events g w = [{| ev_call := LiveKitAPI_init; ev_reply := Fault |}].
Proof.
  intros U. unfold run_events. rewrite (main_without_url g w U). simpl.
  now rewrite skipn_length_app.
Qed.

Lemma run_events_with_url g w u :
  LIVEKIT_URL g = Some u ->
  faults (remote w) (List.length (history (remote w))) = false ->
  let number := VOBIZ_INBOUND_NUMBER g in
  let R1 := connected (remote w) in
  run_events g w
  = {| ev_call := LiveKitAPI_init; ev_reply := Done |}
      :: events (plan number R1) R1
      ++ [{| ev_call := Aclose;
             ev_reply := fst (serve Aclose (snd (reconciled number (remote w)))) |}].
Proof.
  intros U F number R1. unfold run_events.
  destruct (main_with_url g w U F) as [Hr _]. rewrite Hr.
  unfold released. rewrite serve_history. unfold reconciled.
  rewrite exec_history. fold R1. unfold R1 at 1. rewrite connected_history.
  rewrite <- !app_assoc, skipn_length_app, serve_reply, F. reflexivity.
Qed.

Lemma run_history g w :
  history (remote (snd (main g w))) = history (remote w) ++ run_events g w.
Proof.
  destruct (LIVEKIT_URL g) as [u|] eqn:U.
  - destruct (faults (remote w) (List.length (history (remote w)))) eqn:F.
    + rewrite (run_events_without_client g w U F), (main_without_client g w U F).
      simpl. now rewrite connected_history, serve_reply, F.
    + rewrite (run_events_with_url g w U F).
      destruct (main_with_url g w U F) as [Hr _]. rewrite Hr.
      unfold released. rewrite serve_history. unfold reconciled.
      rewrite exec_history, connected_history, serve_reply, F.
      now rewrite <- !app_assoc.
  - now rewrite (run_events_without_url g w U), (main_without_url g w U).
Qed.

(** ** Events of a call sequence *)

Lemma events_calls cs R :
  exists rest, cs = map ev_call (events cs R) ++ rest.
Proof.
  revert R. induction cs as [|c cs IH]; intros R; simpl.
  - now exists [].
  - destruct (faults R _).
    + now exists cs.
    + destruct (IH (snd (serve c R))) as [rest Hrest].
      exists rest. simpl. now rewrite <- Hrest.
Qed.

(** A call that raised is the last one served. *)
Lemma events_fault_last cs R pre e post :
  events cs R = pre ++ e :: post -> ev_reply e = Fault -> post = [].
Proof.
  revert R pre. induction cs as [|c cs IH]; intros R pre H E; simpl in H.
  - now destruct pre.
  - destruct pre as [|p pre]; simpl in H; injection H as H1 H2.
    + subst e. simpl in E. rewrite serve_reply in E.
      destruct (faults R _); [now symmetry|].
      now apply answer_not_Fault in E.
    + destruct (faults R _).
      * now destruct pre.
      * eapply IH; eauto.
Qed.

(** The reply recorded for a call is a fault or the call's answer. *)
Lemma events_reply cs R e :
  In e (events cs R) ->
  ev_reply e = Fault \/ exists R', ev_reply e = answer (ev_call e) R'.
Proof.
  revert R. induction cs as [|c cs IH]; intros R H; simpl in H; [easy|].
  destruct H as [<- | H].
  - simpl. rewrite serve_reply. destruct (faults R _); eauto.
  - destruct (faults R _); [easy | eauto].
Qed.

Lemma events_ok cs R :
  fst (exec cs R) = true ->
  map ev_call (events cs R) = cs /\
  Forall (fun e => ev_reply e <> Fault) (events cs R).
Proof.
  revert R. induction cs as [|c cs IH]; intros R H; simpl in *.
  - split; constructor.
  - destruct (faults R _) eqn:F; [discriminate|].
    destruct (IH _ H) as [H1 H2]. split.
    + now rewrite H1.
    + constructor; [|assumption]. simpl. rewrite serve_reply, F.
      apply answer_not_Fault.
Qed.

Lemma events_failed cs R :
  fst (exec cs R) = false ->
  exists pre c, events cs R = pre ++ [{| ev_call := c; ev_reply := Fault |}].
Proof.
  revert R. induction cs as [|c cs IH]; intros R H; simpl in *; [discriminate|].
  destruct (faults R _) eqn:F.
  - exists [], c. simpl. now rewrite serve_reply, F.
  - destruct (IH _ H) as (pre & c' & E). rewrite E.
    eexists (_ :: pre), c'. reflexivity.
Qed.

(** ** Membership tests *)

Lemma contains_In xs x : Py.contains xs x = true <-> In x xs.
Proof.
  unfold Py.contains. rewrite existsb_exists. split.
  - intros (y & Hy & E). apply String.eqb_eq in E. now subst.
  - intros H. exists x. split; [assumption | apply String.eqb_refl].
Qed.

Lemma contains_cons xs y x :
  Py.contains (y :: xs) x = (String.eqb y x || Py.contains xs x)%bool.
Proof. unfold Py.contains. simpl. now rewrite String.eqb_sym. Qed.

Lemma uses_number_In number t : uses_number number t = true <-> In number (numbers t).
Proof.
  unfold uses_number. rewrite andb_true_iff, contains_In. split.
  - now intros [_ H].
  - intros H. split; [|assumption]. now destruct (numbers t).
Qed.

Lemma linked_iff tds r :
  linked tds r = true <-> exists tid, In tid tds /\ In tid (trunk_ids r).
Proof.
  unfold linked, Py.any. rewrite existsb_exists.
  split; intros (tid & H1 & H2); exists tid; split; auto; now apply contains_In.
Qed.

Lemma conflicts_In number items id :
  In id (conflicts number items) <->
  exists t, In t items /\ sip_trunk_id t = id /\ In number (numbers t).
Proof.
  unfold conflicts. rewrite in_map_iff. split.
  - intros (t & E & H). apply filter_In in H. destruct H as [H1 H2].
    exists t. repeat split; auto. now apply uses_number_In.
  - intros (t & H1 & E & H2). exists t. split; [assumption|].
    apply filter_In. split; [assumption | now apply uses_number_In].
Qed.

Lemma linked_rule_ids_In tds rules id :
  In id (linked_rule_ids tds rules) <->
  exists r, In r rules /\ sip_dispatch_rule_id r = id /\ linked tds r = true.
Proof.
  unfold linked_rule_ids. rewrite in_map_iff. split.
  - intros (r & E & H). apply filter_In in H. destruct H. eauto.
  - intros (r & H1 & E & H2). exists r. split; [assumption|].
    now apply filter_In.
Qed.

(** ** Splitting a list at an element *)

Lemma split_in_left {A} (pre post l r : list A) x :
  pre ++ x :: post = l ++ r -> ~ In x r -> exists m, l = pre ++ x :: m.
Proof.
  revert l. induction pre as [|p pre IH]; intros l H N; simpl in H.
  - destruct l as [|y l]; simpl in H.
    + subst r. exfalso. apply N. now left.
    + injection H as -> _. now exists l.
  - destruct l as [|y l]; simpl in H.
    + subst r. exfalso. apply N. right. apply in_or_app. right. now left.
    + injection H as -> H. destruct (IH l H N) as [m ->]. now exists m.
Qed.

Lemma split_past_left {A} (pre post l r : list A) x :
  pre ++ x :: post = l ++ r -> ~ In x l -> exists m, pre = l ++ m.
Proof.
  revert pre. induction l as [|y l IH]; intros pre H N; simpl in H.
  - now exists pre.
  - destruct pre as [|p pre]; simpl in H.
    + injection H as -> _. exfalso. apply N. now left.
    + injection H as -> H.
      destruct (IH pre H) as [m ->]; [intros ?; apply N; now right|].
      now exists m.
Qed.

Lemma split_before_last {A} (pre post l : list A) x z :
  pre ++ x :: post = l ++ [z] -> x <> z ->
  exists post', post = post' ++ [z] /\ l = pre ++ x :: post'.
Proof.
  intros H N. destruct (@split_in_left _ pre post l [z] x H) as [m Hm].
  - intros [E|[]]. now apply N.
  - subst l. rewrite <- app_assoc in H. simpl in H.
    apply app_inv_head in H. injection H as H. now exists m.
Qed.

(** ** The stores along a call sequence *)

Lemma exec_ok_cons c cs R :
  fst (exec (c :: cs) R) = true ->
  faults R (List.length (history R)) = false /\
  fst (exec cs (snd (serve c R))) = true.
Proof. simpl. destruct (faults R _); [discriminate | auto]. Qed.

Lemma exec_ok_app cs1 cs2 R :
  fst (exec (cs1 ++ cs2) R) = true ->
  fst (exec cs1 R) = true /\ fst (exec cs2 (snd (exec cs1 R))) = true.
Proof. rewrite exec_app. destruct (fst (exec cs1 R)); [auto | discriminate]. Qed.

Lemma exec_keeps_trunk cs R t :
  In t (inbound_trunks R) ->
  ~ In (DeleteSIPTrunkRequest (sip_trunk_id t)) cs ->
  In t (inbound_trunks (snd (exec cs R))).
Proof.
  revert R. induction cs as [|c cs IH]; intros R H N; simpl; [assumption|].
  assert (Hc : In t (inbound_trunks (snd (serve c R)))).
  { destruct (serve_trunks_cases c R) as [E|E]; rewrite E; clear E; [assumption|].
    destruct c; simpl; try assumption.
    - apply filter_In. split; [assumption|].
      destruct (String.eqb id (sip_trunk_id t)) eqn:E; [|reflexivity].
      apply String.eqb_eq in E. subst id. exfalso. apply N. now left.
    - apply in_or_app. now left. }
  destruct (faults R _); simpl; [assumption|].
  apply IH; [assumption|]. intros ?. apply N. now right.
Qed.

Lemma exec_keeps_rule cs R r :
  In r (dispatch_rules R) ->
  ~ In (DeleteSIPDispatchRuleRequest (sip_dispatch_rule_id r)) cs ->
  In r (dispatch_rules (snd (exec cs R))).
Proof.
  revert R. induction cs as [|c cs IH]; intros R H N; simpl; [assumption|].
  assert (Hc : In r (dispatch_rules (snd (serve c R)))).
  { destruct (serve_rules_cases c R) as [E|E]; rewrite E; clear E; [assumption|].
    destruct c; simpl; try assumption.
    - apply filter_In. split; [assumption|].
      destruct (String.eqb id (sip_dispatch_rule_id r)) eqn:E; [|reflexivity].
      apply String.eqb_eq in E. subst id. exfalso. apply N. now left.
    - apply in_or_app. now left. }
  destruct (faults R _); simpl; [assumption|].
  apply IH; [assumption|]. intros ?. apply N. now right.
Qed.

Lemma filter_all {A} (l : list A) : filter (fun _ => true) l = l.
Proof. induction l; simpl; congruence. Qed.

Lemma filter_drop_ids {A} (key : A -> string) id ids (l : list A) :
  filter (fun x => negb (Py.contains ids (key x)))
         (filter (fun x => negb (String.eqb id (key x))) l)
  = filter (fun x => negb (Py.contains (id :: ids) (key x))) l.
Proof.
  induction l as [|x l IH]; cbn [filter]; [reflexivity|].
  rewrite contains_cons.
  destruct (String.eqb id (key x)); cbn [negb orb]; [assumption|].
  cbn [filter]. destruct (Py.contains ids (key x)); cbn [negb]; congruence.
Qed.

Lemma exec_delete_rules ids R :
  fst (exec (map DeleteSIPDispatchRuleRequest ids) R) = true ->
  let R' := snd (exec (map DeleteSIPDispatchRuleRequest ids) R) in
  inbound_trunks R' = inbound_trunks R /\
  dispatch_rules R'
  = filter (fun r => negb (Py.contains ids (sip_dispatch_rule_id r)))
           (dispatch_rules R).
Proof.
  revert R. induction ids as [|id ids IH]; intros R H.
  - simpl. split; [reflexivity|]. now rewrite filter_all.
  - apply exec_ok_cons in H. destruct H as [F H].
    specialize (IH _ H). cbv zeta in *. cbn [map exec].
    rewrite F. destruct IH as [IH1 IH2].
    rewrite IH1, IH2, serve_trunks, serve_rules, F.
    cbn [trunks_after rules_after].
    split; [reflexivity|].
    apply filter_drop_ids.
Qed.

Lemma exec_delete_trunks ids R :
  fst (exec (map DeleteSIPTrunkRequest ids) R) = true ->
  let R' := snd (exec (map DeleteSIPTrunkRequest ids) R) in
  dispatch_rules R' = dispatch_rules R /\
  inbound_trunks R'
  = filter (fun t => negb (Py.contains ids (sip_trunk_id t)))
           (inbound_trunks R).
Proof.
  revert R. induction ids as [|id ids IH]; intros R H.
  - simpl. split; [reflexivity|]. now rewrite filter_all.
  - apply exec_ok_cons in H. destruct H as [F H].
    specialize (IH _ H). cbv zeta in *. cbn [map exec].
    rewrite F. destruct IH as [IH1 IH2].
    rewrite IH1, IH2, serve_trunks, serve_rules, F.
    cbn [trunks_after rules_after].
    split; [reflexivity|].
    apply filter_drop_ids.
Qed.

(** ** The stores after a run whose calls all returned *)

Lemma linked_rule_ids_nil rules : linked_rule_ids [] rules = [].
Proof.
  unfold linked_rule_ids. induction rules as [|r rules IH]; simpl; auto.
Qed.

Lemma discovery_ok_stores number R :
  fst (exec (discovery_calls number R) R) = true ->
  let R' := snd (exec (discovery_calls number R) R) in
  let tds := conflicts number (inbound_trunks R) in
  inbound_trunks R'
  = filter (fun t => negb (Py.contains tds (sip_trunk_id t))) (inbound_trunks R) /\
  dispatch_rules R'
  = filter (fun r => negb (Py.contains (linked_rule_ids tds (dispatch_rules R))
                                       (sip_dispatch_rule_id r)))
           (dispatch_rules R).
Proof.
  intros H R' tds. subst R'. unfold discovery_calls in *. fold tds in H |- *.
  apply exec_ok_cons in H. destruct H as [F H]. cbn [exec]. rewrite F.
  destruct (serve_list_trunks_stores R) as [Ht Hr].
  set (R2 := snd (serve ListSIPInboundTrunkRequest R)) in *.
  unfold cleanup_calls in *. destruct tds as [|id tds'] eqn:E; cbn [Py.truthy] in *.
  - cbn [exec snd]. rewrite Ht, Hr. split.
    + now rewrite filter_all.
    + rewrite linked_rule_ids_nil. cbn [Py.contains existsb negb].
      now rewrite filter_all.
  - rewrite <- E in *. clear E.
    apply exec_ok_cons in H. destruct H as [F2 H]. cbn [exec]. rewrite F2.
    assert (Ht3 : inbound_trunks (snd (serve ListSIPDispatchRuleRequest R2))
                  = inbound_trunks R).
    { rewrite serve_trunks, F2. exact Ht. }
    assert (Hr3 : dispatch_rules (snd (serve ListSIPDispatchRuleRequest R2))
                  = dispatch_rules R).
    { rewrite serve_rules, F2. exact Hr. }
    set (R3 := snd (serve ListSIPDispatchRuleRequest R2)) in *.
    apply exec_ok_app in H. destruct H as [H1 H2].
    rewrite exec_app, H1.
    destruct (exec_delete_rules _ _ H1) as [Ht4 Hr4].
    destruct (exec_delete_trunks _ _ H2) as [Hr5 Ht5].
    rewrite Ht5, Hr5, Ht4, Hr4, Ht3, Hr3. split; reflexivity.
Qed.

Lemma discovery_ok_position number R :
  fst (exec (discovery_calls number R) R) = true ->
  let R' := snd (exec (discovery_calls number R) R) in
  assigned R' (List.length (history R')) = new_trunk_id number R /\
  assigned R' (S (List.length (history R'))) = new_rule_id number R.
Proof.
  intros H R'. subst R'. unfold new_trunk_id, new_rule_id.
  rewrite exec_assigned, exec_history, length_app, (exec_ok_length _ _ H).
  split; reflexivity.
Qed.

Lemma reconciled_ok_stores number R :
  fst (reconciled number R) = true ->
  let R' := snd (reconciled number R) in
  let tds := conflicts number (inbound_trunks R) in
  inbound_trunks R'
  = filter (fun t => negb (Py.contains tds (sip_trunk_id t))) (inbound_trunks R)
    ++ [with_trunk_id (new_trunk_id number (connected R)) (new_trunk number)] /\
  dispatch_rules R'
  = filter (fun r => negb (Py.contains (linked_rule_ids tds (dispatch_rules R))
                                       (sip_dispatch_rule_id r)))
           (dispatch_rules R)
    ++ [with_rule_id (new_rule_id number (connected R))
          (new_dispatch_rule (new_trunk_id number (connected R)))].
Proof.
  intros H R' tds. subst R' tds. unfold reconciled, plan in *.
  apply exec_ok_app in H. destruct H as [Hd Hc].
  rewrite exec_app, Hd.
  destruct (discovery_ok_stores _ _ Hd) as [Ht Hr].
  destruct (discovery_ok_position _ _ Hd) as [Pt Pr].
  rewrite !connected_trunks in Ht.
  rewrite !connected_trunks, !connected_rules in Hr.
  set (Rd := snd (exec (discovery_calls number (connected R)) (connected R))) in *.
  unfold creation_calls in *.
  apply exec_ok_cons in Hc. destruct Hc as [F1 Hc].
  apply exec_ok_cons in Hc. destruct Hc as [F2 _].
  cbn [exec]. rewrite F1, F2. cbn [snd].
  rewrite serve_trunks, serve_rules, F2. cbn [trunks_after rules_after].
  rewrite serve_trunks, serve_rules, F1. cbn [trunks_after rules_after].
  rewrite serve_assigned, serve_history, length_app, Nat.add_1_r.
  rewrite Pt, Pr, Ht, Hr. split; reflexivity.
Qed.

Lemma released_stores number R :
  inbound_trunks (released number R) = inbound_trunks (snd (reconciled number R)) /\
  dispatch_rules (released number R) = dispatch_rules (snd (reconciled number R)).
Proof.
  unfold released. split.
  - destruct (serve_trunks_cases Aclose (snd (reconciled number R))); assumption.
  - destruct (serve_rules_cases Aclose (snd (reconciled number R))); assumption.
Qed.

(** ** Shape of a run *)

Lemma events_app cs1 cs2 R :
  events (cs1 ++ cs2) R
  = events cs1 R
    ++ (if fst (exec cs1 R) then events cs2 (snd (exec cs1 R)) else []).
Proof.
  revert R. induction cs1 as [|c cs1 IH]; intros R; simpl; [reflexivity|].
  destruct (faults R _); simpl; [reflexivity|]. now rewrite IH.
Qed.

Lemma main_remote_cases g w :
  remote (snd (main g w)) = refused LiveKitAPI_init (remote w) \/
  remote (snd (main g w)) = connected (remote w) \/
  exists u, LIVEKIT_URL g = Some u /\
            faults (remote w) (List.length (history (remote w))) = false /\
            remote (snd (main g w)) = released (VOBIZ_INBOUND_NUMBER g) (remote w).
Proof.
  destruct (LIVEKIT_URL g) as [u|] eqn:U.
  - right.
    destruct (faults (remote w) (List.length (history (remote w)))) eqn:F.
    + left. now rewrite (main_without_client g w U F).
    + right. exists u. repeat split. now apply (main_with_url g w U F).
  - left. now rewrite (main_without_url g w U).
Qed.

Lemma main_ok g w :
  fst (main g w) = Ok tt ->
  exists u, LIVEKIT_URL g = Some u /\
    faults (remote w) (List.length (history (remote w))) = false /\
    fst (reconciled (VOBIZ_INBOUND_NUMBER g) (remote w)) = true /\
    fst (serve Aclose (snd (reconciled (VOBIZ_INBOUND_NUMBER g) (remote w)))) = Done /\
    remote (snd (main g w)) = released (VOBIZ_INBOUND_NUMBER g) (remote w).
Proof.
  intros H.
  destruct (LIVEKIT_URL g) as [u|] eqn:U.
  - destruct (faults (remote w) (List.length (history (remote w)))) eqn:F.
    + rewrite (main_without_client g w U F) in H. discriminate.
    + exists u. destruct (main_with_url g w U F) as [Hr Hv].
      rewrite Hv in H. rewrite serve_reply.
      destruct (fst (reconciled _ _)); [|discriminate].
      destruct (faults _ _); [discriminate|]. auto.
  - rewrite (main_without_url g w U) in H. discriminate.
Qed.

Lemma main_quiet g w u :
  LIVEKIT_URL g = Some u -> quiet (remote w) -> fst (main g w) = Ok tt.
Proof.
  intros U Q. destruct (main_with_url g w U (Q _)) as [_ Hv]. rewrite Hv.
  unfold reconciled. rewrite exec_quiet.
  - rewrite exec_faults. unfold connected. rewrite serve_faults, Q. reflexivity.
  - intros k. unfold connected. rewrite serve_faults. apply Q.
Qed.

Lemma main_script g w :
  faults (remote (snd (main g w))) = faults (remote w) /\
  assigned (remote (snd (main g w))) = assigned (remote w).
Proof.
  destruct (main_remote_cases g w) as [E | [E | (u & _ & _ & E)]]; rewrite E.
  - split; reflexivity.
  - unfold connected. now rewrite serve_faults, serve_assigned.
  - unfold released, reconciled, connected.
    now rewrite !serve_faults, !serve_assigned, exec_faults, exec_assigned,
      serve_faults, serve_assigned.
Qed.

(** An event of a run that is neither the construction of the client
    nor its release belongs to the body of the [try]. *)
Lemma run_events_inner g w pre e post :
  run_events g w = pre ++ e :: post ->
  ev_call e <> LiveKitAPI_init -> ev_call e <> Aclose ->
  exists u pre' post' rep,
    LIVEKIT_URL g = Some u /\
    faults (remote w) (List.length (history (remote w))) = false /\
    pre = {| ev_call := LiveKitAPI_init; ev_reply := Done |} :: pre' /\
    post = post' ++ [{| ev_call := Aclose; ev_reply := rep |}] /\
    events (plan (VOBIZ_INBOUND_NUMBER g) (connected (remote w)))
           (connected (remote w)) = pre' ++ e :: post'.
Proof.
  intros H N1 N2.
  assert (single : forall x : Event, [x] = pre ++ e :: post -> e = x).
  { intros x Hx. destruct pre as [|p [|q pre]]; simpl in Hx; congruence. }
  destruct (LIVEKIT_URL g) as [u|] eqn:U.
  - destruct (faults (remote w) (List.length (history (remote w)))) eqn:F.
    + rewrite (run_events_without_client g w U F) in H.
      apply single in H. subst e. now elim N1.
    + rewrite (run_events_with_url g w U F) in H.
      remember (events (plan (VOBIZ_INBOUND_NUMBER g) (connected (remote w)))
                       (connected (remote w))) as body eqn:Eb.
      clear Eb.
      destruct pre as [|p pre]; cbn [app] in H; injection H as H1 H2.
      * subst e. now elim N1.
      * symmetry in H2. apply split_before_last in H2.
        -- destruct H2 as (post' & -> & H2). subst p.
           exists u, pre, post'. eexists. repeat split. exact H2.
        -- intros ->. now elim N2.
  - rewrite (run_events_without_url g w U) in H.
    apply single in H. subst e. now elim N1.
Qed.

(** The calls of a run: the construction, then a prefix of the plan
    and the release. *)
Lemma run_calls_shape g w :
  run_calls g w = [LiveKitAPI_init] \/
  exists body rest,
    run_calls g w = LiveKitAPI_init :: body ++ [Aclose] /\
    plan (VOBIZ_INBOUND_NUMBER g) (connected (remote w)) = body ++ rest.
Proof.
  unfold run_calls.
  destruct (LIVEKIT_URL g) as [u|] eqn:U.
  - destruct (faults (remote w) (List.length (history (remote w)))) eqn:F.
    + left. now rewrite (run_events_without_client g w U F).
    + right. rewrite (run_events_with_url g w U F).
      destruct (events_calls (plan (VOBIZ_INBOUND_NUMBER g) (connected (remote w)))
                  (connected (remote w))) as [rest Hrest].
      eexists _, rest. split; [|exact Hrest].
      simpl. now rewrite map_app.
  - left. now rewrite (run_events_without_url g w U).
Qed.

(** The events of a run that returns. *)
Lemma run_events_ok g w :
  fst (main g w) = Ok tt ->
  let number := VOBIZ_INBOUND_NUMBER g in
  let R1 := connected (remote w) in
  let tid := new_trunk_id number R1 in
  let rid := new_rule_id number R1 in
  fst (exec (discovery_calls number R1) R1) = true /\
  run_events g w
  = {| ev_call := LiveKitAPI_init; ev_reply := Done |}
      :: events (discovery_calls number R1) R1
      ++ [ {| ev_call := CreateSIPInboundTrunkRequest (new_trunk number);
              ev_reply := TrunkCreated (with_trunk_id tid (new_trunk number)) |};
           {| ev_call := CreateSIPDispatchRuleRequest (new_dispatch_rule tid);
              ev_reply := RuleCreated (with_rule_id rid (new_dispatch_rule tid)) |};
           {| ev_call := Aclose; ev_reply := Done |} ].
Proof.
  intros H number R1 tid rid.
  destruct (main_ok g w H) as (u & U & F & Hrec & Hacl & _).
  rewrite (run_events_with_url g w U F). fold number R1. fold number in Hrec, Hacl.
  rewrite Hacl. unfold reconciled in Hrec. fold R1 in Hrec.
  unfold plan in *. apply exec_ok_app in Hrec. destruct Hrec as [Hd Hc].
  split; [exact Hd|].
  rewrite events_app, Hd, <- app_assoc.
  destruct (discovery_ok_position _ _ Hd) as [Pt Pr].
  set (Rd := snd (exec (discovery_calls number R1) R1)) in *.
  unfold creation_calls in *.
  apply exec_ok_cons in Hc. destruct Hc as [F1 Hc].
  apply exec_ok_cons in Hc. destruct Hc as [F2 _].
  cbn [events]. rewrite F1, F2, !serve_reply, F1, F2. cbn [answer].
  rewrite serve_assigned, serve_history, length_app, Nat.add_1_r.
  rewrite Pt, Pr. reflexivity.
Qed.

(** ** The calls of the plan *)

Lemma discovery_calls_In number R c :
  In c (discovery_calls number R) ->
  let tds := conflicts number (inbound_trunks R) in
  c = ListSIPInboundTrunkRequest \/
  c = ListSIPDispatchRuleRequest \/
  (exists id, c = DeleteSIPDispatchRuleRequest id /\
              In id (linked_rule_ids tds (dispatch_rules R))) \/
  (exists id, c = DeleteSIPTrunkRequest id /\ In id tds).
Proof.
  intros H tds. unfold discovery_calls, cleanup_calls in H. fold tds in H.
  destruct H as [<- | H]; [now left|].
  destruct (Py.truthy tds); [|easy].
  destruct H as [<- | H]; [now right; left|].
  apply in_app_or in H. destruct H as [H | H]; apply in_map_iff in H;
    destruct H as (id & <- & H); right; right; [left | right]; eauto.
Qed.

Lemma trunk_requests_app cs1 cs2 :
  trunk_requests (cs1 ++ cs2) = trunk_requests cs1 ++ trunk_requests cs2.
Proof. apply flat_map_app. Qed.

Lemma rule_requests_app cs1 cs2 :
  rule_requests (cs1 ++ cs2) = rule_requests cs1 ++ rule_requests cs2.
Proof. apply flat_map_app. Qed.

Lemma trunk_requests_none cs :
  (forall c, In c cs -> forall t, c <> CreateSIPInboundTrunkRequest t) ->
  trunk_requests cs = [].
Proof.
  induction cs as [|c cs IH]; intros H; simpl; [reflexivity|].
  rewrite IH by (intros; apply H; now right).
  destruct c; try reflexivity. exfalso. eapply H; [now left | reflexivity].
Qed.

Lemma rule_requests_none cs :
  (forall c, In c cs -> forall r, c <> CreateSIPDispatchRuleRequest r) ->
  rule_requests cs = [].
Proof.
  induction cs as [|c cs IH]; intros H; simpl; [reflexivity|].
  rewrite IH by (intros; apply H; now right).
  destruct c; try reflexivity. exfalso. eapply H; [now left | reflexivity].
Qed.

Lemma discovery_creates_nothing number R :
  trunk_requests (discovery_calls number R) = [] /\
  rule_requests (discovery_calls number R) = [].
Proof.
  split; [apply trunk_requests_none | apply rule_requests_none];
    intros c H x; apply discovery_calls_In in H;
    destruct H as [-> | [-> | [(id & -> & _) | (id & -> & _)]]]; discriminate.
Qed.

Lemma carries_In number t : carries number t = true <-> In number (numbers t).
Proof. unfold carries. destruct (in_dec _ _ _); split; auto; discriminate. Qed.

Lemma carries_uses number t : carries number t = uses_number number t.
Proof.
  destruct (uses_number number t) eqn:E.
  - now apply carries_In, uses_number_In.
  - destruct (carries number t) eqn:E'; [|reflexivity].
    apply carries_In, uses_number_In in E'. congruence.
Qed.

(** C3 -- Conflict discovery collects the identifier of a listed trunk
    exactly when the trunk's numbers contain the target number: the
    loop returns the identifiers of the listed trunks that carry the
    number, in listing order, makes no call, and an identifier is
    collected if and only if some listed trunk with that identifier
    has the target number among its numbers. *)
Theorem C3_conflict_discovery number items w :
  let trunks_to_delete := map sip_trunk_id (filter (carries number) items) in
  fst (find_conflicts number items w) = Ok trunks_to_delete /\
  remote (snd (find_conflicts number items w)) = remote w /\
  (forall id, In id trunks_to_delete <->
              exists t, In t items /\ sip_trunk_id t = id /\ In number (numbers t)).
Proof.
  intros tds.
  assert (E : tds = conflicts number items).
  { unfold tds, conflicts. f_equal. apply filter_ext. apply carries_uses. }
  destruct (runs_find_conflicts number items w) as [Hr Hv]. simpl in Hr, Hv.
  rewrite E. repeat split; try assumption; apply conflicts_In.
Qed.

(** C9 -- With the project URL unset, the run ends with the
    [ValueError] of the client's constructor (line 18), which reads the
    same environment variable: the endpoint derivation of line 20 is
    never evaluated.  The only call on record is the refused
    construction, so no list, delete or create call is issued; nothing
    is printed and the stores are untouched. *)
Theorem C9_missing_url_crashes_in_constructor g w :
  LIVEKIT_URL g = None ->
  fst (main g w) = Raise ValueError /\
  run_events g w = [{| ev_call := LiveKitAPI_init; ev_reply := Fault |}] /\
  stdout (snd (main g w)) = stdout w /\
  inbound_trunks (remote (snd (main g w))) = inbound_trunks (remote w) /\
  dispatch_rules (remote (snd (main g w))) = dispatch_rules (remote w).
Proof.
  intros U. rewrite (run_events_without_url g w U), (main_without_url g w U).
  repeat split.
Qed.

Lemma C9_missing_url_crashes_in_constructor_witness :
  fst (main Sample.g_no_url (Sample.quiet [Sample.old_trunk] [])) = Raise ValueError /\
  run_events Sample.g_no_url (Sample.quiet [Sample.old_trunk] [])
  = [{| ev_call := LiveKitAPI_init; ev_reply := Fault |}].
Proof.
  destruct (@C9_missing_url_crashes_in_constructor Sample.g_no_url
              (Sample.quiet [Sample.old_trunk] []) eq_refl) as (H1 & H2 & _).
  split; [exact H1 | exact H2].
Defined.

(** C9, as first stated, fails: with the variable unset the run does not
    end with the error of the endpoint derivation.  Evaluated on [None]
    the derivation raises [AttributeError]; the run raises [ValueError],
    and no client was constructed for line 20 to follow. *)
Lemma C9_crash_is_not_the_derivation :
  let g := Sample.g_no_url in
  let w := Sample.quiet [Sample.old_trunk] [] in
  LIVEKIT_URL g = None /\
  fst (derive_project_id (LIVEKIT_URL g) w) = Raise AttributeError /\
  fst (main g w) = Raise ValueError /\
  fst (main g w) <> Raise AttributeError /\
  ~ In {| ev_call := LiveKitAPI_init; ev_reply := Done |} (run_events g w).
Proof.
  vm_compute. repeat split; try discriminate.
  intros [H|[]]. discriminate.
Qed.

(** ** Aborted and completed runs *)

Lemma events_in_not_fault cs R pre e post :
  events cs R = pre ++ e :: post -> post <> [] -> ev_reply e <> Fault.
Proof.
  intros H N E. apply N. eapply events_fault_last; eauto.
Qed.

(** C7 -- If a deletion call raises, the run aborts there: the run ends
    by raising the client's error, the only call after the failed
    deletion is [aclose], and no create request is issued at any point
    of the run. *)
Theorem C7_failed_deletion_aborts g w pre e post :
  run_events g w = pre ++ e :: post ->
  is_deletion (ev_call e) = true ->
  ev_reply e = Fault ->
  fst (main g w) = Raise ClientError /\
  (exists rep, post = [{| ev_call := Aclose; ev_reply := rep |}]) /\
  trunk_requests (run_calls g w) = [] /\
  rule_requests (run_calls g w) = [].
Proof.
  intros H D E.
  destruct (run_events_inner g w pre e post H) as (u & pre' & post' & rep & U & F & -> & -> & Hev).
  { intros C. rewrite C in D. discriminate. }
  { intros C. rewrite C in D. discriminate. }
  pose proof (events_fault_last _ _ _ _ _ Hev E) as ->.
  set (number := VOBIZ_INBOUND_NUMBER g) in *.
  set (R1 := connected (remote w)) in *.
  split; [|split; [now exists rep|]].
  - destruct (main_with_url g w U F) as [_ Hv]. rewrite Hv.
    destruct (fst (reconciled (VOBIZ_INBOUND_NUMBER g) (remote w))) eqn:Hok;
      [|reflexivity].
    exfalso. apply events_ok in Hok. destruct Hok as [_ Hall].
    fold number R1 in Hall. rewrite Hev in Hall.
    apply Forall_app in Hall. destruct Hall as [_ Hall].
    inversion Hall; subst. contradiction.
  - destruct (events_calls (plan number R1) R1) as [rest Hrest].
    rewrite Hev, map_app in Hrest. cbn [map] in Hrest.
    rewrite <- app_assoc in Hrest. cbn [app] in Hrest.
    unfold plan in Hrest at 1. symmetry in Hrest.
    apply split_in_left in Hrest.
    + destruct Hrest as [m Hm].
      destruct (discovery_creates_nothing number R1) as [Ht Hr].
      rewrite Hm, trunk_requests_app in Ht. rewrite Hm, rule_requests_app in Hr.
      apply app_eq_nil in Ht. apply app_eq_nil in Hr.
      destruct Ht as [Ht _]. destruct Hr as [Hr _].
      unfold run_calls. rewrite H. cbn [map]. rewrite !map_app.
      cbn [map app ev_call].
      assert (Het : trunk_requests [ev_call e; Aclose] = []
                    /\ rule_requests [ev_call e; Aclose] = []).
      { destruct (ev_call e); try discriminate; split; reflexivity. }
      change (LiveKitAPI_init :: map ev_call pre' ++ [ev_call e; Aclose])
        with ([LiveKitAPI_init] ++ map ev_call pre' ++ [ev_call e; Aclose]).
      rewrite !trunk_requests_app, !rule_requests_app, Ht, Hr.
      destruct Het as [-> ->]. split; reflexivity.
    + unfold creation_calls. intros [C | [C | []]]; rewrite <- C in D; discriminate.
Qed.

Lemma C7_failed_deletion_aborts_witness :
  let w := Sample.failing_at 3
             (Sample.quiet [Sample.old_trunk; Sample.other_trunk]
                [Sample.a_rule "R1" ["ST_old"; "ST_other"];
                 Sample.a_rule "R2" ["ST_other"]]) in
  fst (main Sample.g w) = Raise ClientError /\
  trunk_requests (run_calls Sample.g w) = [] /\
  rule_requests (run_calls Sample.g w) = [].
Proof.
  intros w.
  destruct (@C7_failed_deletion_aborts Sample.g w
              (firstn 3 (run_events Sample.g w))
              {| ev_call := DeleteSIPDispatchRuleRequest "R1"; ev_reply := Fault |}
              [{| ev_call := Aclose; ev_reply := Done |}]
              eq_refl eq_refl eq_refl) as (H1 & _ & H3 & H4).
  repeat split; assumption.
Defined.

Lemma plan_requests number R :
  trunk_requests (plan number R) = [new_trunk number] /\
  rule_requests (plan number R) = [new_dispatch_rule (new_trunk_id number R)].
Proof.
  unfold plan. rewrite trunk_requests_app, rule_requests_app.
  destruct (discovery_creates_nothing number R) as [-> ->].
  split; reflexivity.
Qed.

Lemma requests_of_bracketed body :
  trunk_requests (LiveKitAPI_init :: body ++ [Aclose]) = trunk_requests body /\
  rule_requests (LiveKitAPI_init :: body ++ [Aclose]) = rule_requests body.
Proof.
  change (LiveKitAPI_init :: body ++ [Aclose])
    with ([LiveKitAPI_init] ++ body ++ [Aclose]).
  rewrite !trunk_requests_app, !rule_requests_app. simpl.
  now rewrite !app_nil_r.
Qed.

(** The requests of any run: none, or the ones of the plan. *)
Lemma run_requests g w :
  let number := VOBIZ_INBOUND_NUMBER g in
  (trunk_requests (run_calls g w) = [] \/
   trunk_requests (run_calls g w) = [new_trunk number]) /\
  (rule_requests (run_calls g w) = [] \/
   rule_requests (run_calls g w)
   = [new_dispatch_rule (new_trunk_id number (connected (remote w)))]).
Proof.
  intros number.
  destruct (run_calls_shape g w) as [-> | (body & rest & -> & Hp)].
  - split; left; reflexivity.
  - destruct (requests_of_bracketed body) as [-> ->].
    destruct (plan_requests number (connected (remote w))) as [Ht Hr].
    fold number in Hp. rewrite Hp, trunk_requests_app in Ht.
    rewrite Hp, rule_requests_app in Hr.
    apply app_eq_unit in Ht. apply app_eq_unit in Hr.
    split.
    + destruct Ht as [[-> _] | [-> _]]; auto.
    + destruct Hr as [[-> _] | [-> _]]; auto.
Qed.

Lemma run_calls_ok g w :
  fst (main g w) = Ok tt ->
  let number := VOBIZ_INBOUND_NUMBER g in
  let R1 := connected (remote w) in
  run_calls g w
  = LiveKitAPI_init
      :: discovery_calls number R1
      ++ [CreateSIPInboundTrunkRequest (new_trunk number);
          CreateSIPDispatchRuleRequest (new_dispatch_rule (new_trunk_id number R1));
          Aclose].
Proof.
  intros H number R1. unfold run_calls.
  destruct (run_events_ok g w H) as [Hd ->]. fold number R1 in Hd |- *.
  cbn [map]. rewrite map_app. cbn [map ev_call].
  apply events_ok in Hd. destruct Hd as [-> _]. reflexivity.
Qed.

Lemma main_ok_stores g w :
  fst (main g w) = Ok tt ->
  let number := VOBIZ_INBOUND_NUMBER g in
  let R := remote w in
  let tds := conflicts number (inbound_trunks R) in
  inbound_trunks (remote (snd (main g w)))
  = filter (fun t => negb (Py.contains tds (sip_trunk_id t))) (inbound_trunks R)
    ++ [with_trunk_id (new_trunk_id number (connected R)) (new_trunk number)] /\
  dispatch_rules (remote (snd (main g w)))
  = filter (fun r => negb (Py.contains (linked_rule_ids tds (dispatch_rules R))
                                       (sip_dispatch_rule_id r)))
           (dispatch_rules R)
    ++ [with_rule_id (new_rule_id number (connected R))
          (new_dispatch_rule (new_trunk_id number (connected R)))].
Proof.
  intros H number R tds. subst number R tds.
  destruct (main_ok g w H) as (u & U & F & Hrec & _ & ->).
  destruct (released_stores (VOBIZ_INBOUND_NUMBER g) (remote w)) as [-> ->].
  apply (reconciled_ok_stores _ _ Hrec).
Qed.

Lemma run_requests_ok g w :
  fst (main g w) = Ok tt ->
  let number := VOBIZ_INBOUND_NUMBER g in
  trunk_requests (run_calls g w) = [new_trunk number] /\
  rule_requests (run_calls g w)
  = [new_dispatch_rule (new_trunk_id number (connected (remote w)))].
Proof.
  intros H number. rewrite (run_calls_ok g w H). fold number.
  set (R1 := connected (remote w)).
  change (LiveKitAPI_init
            :: discovery_calls number R1
            ++ [CreateSIPInboundTrunkRequest (new_trunk number);
                CreateSIPDispatchRuleRequest (new_dispatch_rule (new_trunk_id number R1));
                Aclose])
    with (LiveKitAPI_init
            :: discovery_calls number R1
            ++ creation_calls number R1 ++ [Aclose]).
  rewrite app_assoc. fold (plan number R1).
  destruct (requests_of_bracketed (plan number R1)) as [-> ->].
  apply plan_requests.
Qed.

(** C5 -- Trunk creation: no run issues more than one create-trunk
    request and the message is always the same one, with the target
    number as its only number, the allowed address 0.0.0.0/0 and noise
    suppression on; a run that returns issues exactly one, the reply
    carries the identifier the service assigned, the trunk is stored
    under it, and that identifier is the one the dispatch rule request
    then refers to. *)
Theorem C5_trunk_creation g w :
  let number := VOBIZ_INBOUND_NUMBER g in
  (trunk_requests (run_calls g w) = [] \/
   trunk_requests (run_calls g w) = [new_trunk number]) /\
  numbers (new_trunk number) = [number] /\
  allowed_addresses (new_trunk number) = ["0.0.0.0/0"] /\
  krisp_enabled (new_trunk number) = true /\
  (fst (main g w) = Ok tt ->
   trunk_requests (run_calls g w) = [new_trunk number] /\
   exists tid,
     In {| ev_call := CreateSIPInboundTrunkRequest (new_trunk number);
           ev_reply := TrunkCreated (with_trunk_id tid (new_trunk number)) |}
        (run_events g w) /\
     In (with_trunk_id tid (new_trunk number))
        (inbound_trunks (remote (snd (main g w)))) /\
     rule_requests (run_calls g w) = [new_dispatch_rule tid] /\
     trunk_ids (new_dispatch_rule tid) = [tid]).
Proof.
  intros number. split; [apply run_requests|].
  split; [reflexivity|]. split; [reflexivity|]. split; [reflexivity|].
  intros H. destruct (run_requests_ok g w H) as [Ht Hr]. fold number in Ht, Hr.
  split; [exact Ht|].
  exists (new_trunk_id number (connected (remote w))).
  destruct (run_events_ok g w H) as [_ Hev]. fold number in Hev.
  destruct (main_ok_stores g w H) as [Hs _]. fold number in Hs.
  repeat split.
  - rewrite Hev. right. apply in_or_app. right. now left.
  - rewrite Hs. apply in_or_app. right. now left.
  - exact Hr.
Qed.

Lemma C5_trunk_creation_witness :
  let w := Sample.quiet [Sample.old_trunk; Sample.other_trunk]
             [Sample.a_rule "R1" ["ST_old"]] in
  trunk_requests (run_calls Sample.g w) = [new_trunk "+912271264190"].
Proof.
  intros w.
  destruct (@C5_trunk_creation Sample.g w) as (_ & _ & _ & _ & H).
  destruct (H eq_refl) as [Ht _]. exact Ht.
Defined.

(** C6 -- Dispatch rule creation: no run issues more than one
    create-rule request; a run that returns issues exactly one, whose
    rule refers only to the identifier of the trunk just created, is of
    the individual variant with room prefix "call-", and dispatches the
    single agent "voice-assistant".  When no trunk was stored before,
    such a run makes the calls list, create trunk, create rule between
    constructing and closing the client, and leaves exactly the new
    trunk and, after the rules already stored, the new rule. *)
Theorem C6_rule_creation g w :
  let number := VOBIZ_INBOUND_NUMBER g in
  (rule_requests (run_calls g w) = [] \/
   exists tid, rule_requests (run_calls g w) = [new_dispatch_rule tid]) /\
  (forall tid,
     trunk_ids (new_dispatch_rule tid) = [tid] /\
     rule (new_dispatch_rule tid)
     = dispatch_rule_individual {| room_prefix := "call-" |} /\
     room_config (new_dispatch_rule tid)
     = {| agents := [ {| agent_name := "voice-assistant" |} ] |}) /\
  (fst (main g w) = Ok tt ->
   exists tid rid,
     In {| ev_call := CreateSIPInboundTrunkRequest (new_trunk number);
           ev_reply := TrunkCreated (with_trunk_id tid (new_trunk number)) |}
        (run_events g w) /\
     rule_requests (run_calls g w) = [new_dispatch_rule tid] /\
     In (with_rule_id rid (new_dispatch_rule tid))
        (dispatch_rules (remote (snd (main g w)))) /\
     (inbound_trunks (remote w) = [] ->
      run_calls g w
      = [LiveKitAPI_init; ListSIPInboundTrunkRequest;
         CreateSIPInboundTrunkRequest (new_trunk number);
         CreateSIPDispatchRuleRequest (new_dispatch_rule tid);
         Aclose] /\
      inbound_trunks (remote (snd (main g w)))
      = [with_trunk_id tid (new_trunk number)] /\
      dispatch_rules (remote (snd (main g w)))
      = dispatch_rules (remote w) ++ [with_rule_id rid (new_dispatch_rule tid)])).
Proof.
  intros number. split; [|split].
  - destruct (run_requests g w) as [_ [H | H]]; [now left | right; eauto].
  - intros tid. repeat split.
  - intros H. destruct (run_requests_ok g w H) as [_ Hr]. fold number in Hr.
    exists (new_trunk_id number (connected (remote w))),
           (new_rule_id number (connected (remote w))).
    destruct (run_events_ok g w H) as [_ Hev]. fold number in Hev.
    destruct (main_ok_stores g w H) as [Hst Hsr]. fold number in Hst, Hsr.
    split; [|split; [exact Hr | split]].
    + rewrite Hev. right. apply in_or_app. right. now left.
    + rewrite Hsr. apply in_or_app. right. now left.
    + intros Hnone. rewrite (run_calls_ok g w H). fold number.
      rewrite Hst, Hsr. unfold discovery_calls.
      rewrite connected_trunks, Hnone. cbn [conflicts filter map cleanup_calls Py.truthy app].
      rewrite linked_rule_ids_nil. cbn [Py.contains existsb negb].
      now rewrite filter_all.
Qed.

Lemma C6_rule_creation_witness :
  let w := Sample.quiet [] [Sample.a_rule "R0" ["ST_gone"]] in
  exists tid rid,
    run_calls Sample.g w
    = [LiveKitAPI_init; ListSIPInboundTrunkRequest;
       CreateSIPInboundTrunkRequest (new_trunk "+912271264190");
       CreateSIPDispatchRuleRequest (new_dispatch_rule tid);
       Aclose] /\
    inbound_trunks (remote (snd (main Sample.g w)))
    = [with_trunk_id tid (new_trunk "+912271264190")] /\
    dispatch_rules (remote (snd (main Sample.g w)))
    = [Sample.a_rule "R0" ["ST_gone"]; with_rule_id rid (new_dispatch_rule tid)].
Proof.
  intros w.
  destruct (@C6_rule_creation Sample.g w) as (_ & _ & H).
  destruct (H eq_refl) as (tid & rid & _ & _ & _ & Hnone).
  exists tid, rid. exact (Hnone eq_refl).
Defined.

(** ** Order of the cascade *)

(** A run that reaches a trunk deletion has listed the trunks and the
    rules and has been answered. *)
Lemma events_reach_trunk_deletion number R pre e post tid :
  events (plan number R) R = pre ++ e :: post ->
  ev_call e = DeleteSIPTrunkRequest tid ->
  let tds := conflicts number (inbound_trunks R) in
  In tid tds /\
  exists pre',
    pre = {| ev_call := ListSIPInboundTrunkRequest;
             ev_reply := TrunkItems (inbound_trunks R) |}
          :: {| ev_call := ListSIPDispatchRuleRequest;
                ev_reply := RuleItems (dispatch_rules R) |}
          :: pre' /\
    exists m, map ev_call pre'
              = map DeleteSIPDispatchRuleRequest
                    (linked_rule_ids tds (dispatch_rules R)) ++ m.
Proof.
  intros Hev Hc tds.
  destruct (events_calls (plan number R) R) as [rest Hrest].
  rewrite Hev, map_app in Hrest. cbn [map] in Hrest. rewrite Hc in Hrest.
  rewrite <- app_assoc in Hrest. cbn [app] in Hrest.
  assert (Hin : In (DeleteSIPTrunkRequest tid) (plan number R)).
  { rewrite Hrest. apply in_or_app. right. now left. }
  unfold plan in Hin. apply in_app_or in Hin. destruct Hin as [Hin | Hin].
  2:{ destruct Hin as [C | [C | []]]; discriminate. }
  apply discovery_calls_In in Hin. fold tds in Hin.
  destruct Hin as [C | [C | [(id & C & _) | (id & C & Hid)]]]; try discriminate.
  injection C as <-. split; [exact Hid|].
  assert (Htr : Py.truthy tds = true) by (destruct tds; [easy | reflexivity]).
  unfold plan, discovery_calls, cleanup_calls in Hev, Hrest.
  fold tds in Hev, Hrest. rewrite Htr in Hev, Hrest.
  destruct (serve_list_trunks_stores R) as [_ Hr].
  destruct pre as [|p [|q pre]]; cbn [map app] in Hrest; try discriminate.
  cbn [app events] in Hev. rewrite !serve_reply in Hev.
  destruct (faults R _) eqn:F1; [discriminate|].
  set (R2 := snd (serve ListSIPInboundTrunkRequest R)) in *.
  destruct (faults R2 _) eqn:F2; [destruct pre; discriminate|].
  cbn [answer] in Hev. rewrite Hr in Hev.
  injection Hev as <- <- Hev. exists pre. split; [reflexivity|].
  cbn [ev_call] in Hrest. injection Hrest as Hrest.
  rewrite <- !app_assoc in Hrest. symmetry in Hrest.
  apply split_past_left in Hrest; [exact Hrest|].
  intros C. apply in_map_iff in C. destruct C as (x & C & _). discriminate.
Qed.

(** C2 -- Rules before trunks: when a run issues the deletion of a
    trunk, that trunk is one of the conflicting ones, the dispatch rules
    have been listed, and every listed rule that refers to a conflicting
    trunk (this one in particular) has already been deleted, the
    deletion having returned. *)
Theorem C2_rules_deleted_before_trunks g w pre e post tid :
  run_events g w = pre ++ e :: post ->
  ev_call e = DeleteSIPTrunkRequest tid ->
  let number := VOBIZ_INBOUND_NUMBER g in
  let tds := conflicts number (inbound_trunks (remote w)) in
  In tid tds /\
  In {| ev_call := ListSIPDispatchRuleRequest;
        ev_reply := RuleItems (dispatch_rules (remote w)) |} pre /\
  (forall r tid',
     In r (dispatch_rules (remote w)) ->
     In tid' tds -> In tid' (trunk_ids r) ->
     In {| ev_call := DeleteSIPDispatchRuleRequest (sip_dispatch_rule_id r);
           ev_reply := Done |} pre).
Proof.
  intros H Hc number tds.
  destruct (run_events_inner g w pre e post H)
    as (u & pre' & post' & rep & U & F & -> & -> & Hev);
    try (rewrite Hc; discriminate).
  fold number in Hev.
  destruct (events_reach_trunk_deletion pre' e post' Hev Hc) as (Hin & pre'' & -> & m & Hm).
  rewrite connected_trunks, connected_rules in *. fold tds in Hin, Hm.
  split; [exact Hin|]. split; [right; right; now left|].
  intros r tid' Hr Ht' Hrt.
  assert (Hd : In (DeleteSIPDispatchRuleRequest (sip_dispatch_rule_id r))
                  (map ev_call pre'')).
  { rewrite Hm. apply in_or_app. left. apply in_map.
    apply linked_rule_ids_In. exists r. repeat split; [assumption|].
    apply linked_iff. eauto. }
  apply in_map_iff in Hd. destruct Hd as (e' & Hc' & He').
  right. right. right.
  replace {| ev_call := DeleteSIPDispatchRuleRequest (sip_dispatch_rule_id r);
             ev_reply := Done |} with e'; [exact He'|].
  apply in_split in He'. destruct He' as (l1 & l2 & ->).
  assert (Hnf : ev_reply e' <> Fault).
  { eapply (@events_in_not_fault _ _ (_ :: _ :: l1) e' (l2 ++ e :: post')).
    - rewrite Hev. cbn [app]. rewrite <- app_assoc. reflexivity.
    - now destruct l2. }
  assert (He : In e' (events (plan number (connected (remote w))) (connected (remote w)))).
  { rewrite Hev. right. right. apply in_or_app. left.
    apply in_or_app. right. now left. }
  apply events_reply in He. destruct He as [He | [R' He]]; [contradiction|].
  destruct e' as [c' rp']. simpl in *. subst c'. simpl in He. now subst rp'.
Qed.

Lemma C2_rules_deleted_before_trunks_witness :
  let w := Sample.quiet [Sample.old_trunk; Sample.other_trunk]
             [Sample.a_rule "R1" ["ST_old"; "ST_other"];
              Sample.a_rule "R2" ["ST_other"]] in
  In {| ev_call := DeleteSIPDispatchRuleRequest "R1"; ev_reply := Done |}
     (firstn 4 (run_events Sample.g w)).
Proof.
  intros w.
  destruct (@C2_rules_deleted_before_trunks Sample.g w
              (firstn 4 (run_events Sample.g w))
              {| ev_call := DeleteSIPTrunkRequest "ST_old"; ev_reply := Done |}
              (skipn 5 (run_events Sample.g w))
              "ST_old" eq_refl eq_refl) as (_ & _ & H).
  apply (H (Sample.a_rule "R1" ["ST_old"; "ST_other"]) "ST_old").
  - left. reflexivity.
  - left. reflexivity.
  - left. reflexivity.
Defined.

(** ** What is deleted and what is kept *)

Lemma plan_deletions number R c :
  In c (plan number R) ->
  let tds := conflicts number (inbound_trunks R) in
  (forall id, c = DeleteSIPTrunkRequest id -> In id tds) /\
  (forall id, c = DeleteSIPDispatchRuleRequest id ->
              In id (linked_rule_ids tds (dispatch_rules R))).
Proof.
  intros H tds. unfold plan in H. apply in_app_or in H. destruct H as [H | H].
  - apply discovery_calls_In in H. fold tds in H.
    destruct H as [-> | [-> | [(id & -> & Hid) | (id & -> & Hid)]]];
      split; intros id' E; try discriminate; injection E as <-; assumption.
  - destruct H as [<- | [<- | []]]; split; intros id' E; discriminate.
Qed.

Lemma run_calls_deletions g w c :
  In c (run_calls g w) ->
  let tds := conflicts (VOBIZ_INBOUND_NUMBER g) (inbound_trunks (remote w)) in
  (forall id, c = DeleteSIPTrunkRequest id -> In id tds) /\
  (forall id, c = DeleteSIPDispatchRuleRequest id ->
              In id (linked_rule_ids tds (dispatch_rules (remote w)))).
Proof.
  intros H tds.
  destruct (run_calls_shape g w) as [E | (body & rest & E & Hp)]; rewrite E in H.
  - destruct H as [<- | []]. split; intros; discriminate.
  - destruct H as [<- | H]; [split; intros; discriminate|].
    apply in_app_or in H. destruct H as [H | [<- | []]];
      [|split; intros; discriminate].
    assert (Hin : In c (plan (VOBIZ_INBOUND_NUMBER g) (connected (remote w)))).
    { rewrite Hp. apply in_or_app. now left. }
    apply plan_deletions in Hin.
    now rewrite connected_trunks, connected_rules in Hin.
Qed.

Lemma NoDup_map_injective {A B} (f : A -> B) (l : list A) x y :
  NoDup (map f l) -> In x l -> In y l -> f x = f y -> x = y.
Proof.
  induction l as [|a l IH]; intros N Hx Hy E; [easy|].
  simpl in N. inversion N as [|? ? Hn N']; subst.
  destruct Hx as [-> | Hx], Hy as [-> | Hy]; auto.
  - exfalso. apply Hn. rewrite E. now apply in_map.
  - exfalso. apply Hn. rewrite <- E. now apply in_map.
Qed.

Lemma main_keeps_trunk g w t :
  In t (inbound_trunks (remote w)) ->
  ~ In (DeleteSIPTrunkRequest (sip_trunk_id t))
       (plan (VOBIZ_INBOUND_NUMBER g) (connected (remote w))) ->
  In t (inbound_trunks (remote (snd (main g w)))).
Proof.
  intros H N.
  destruct (main_remote_cases g w) as [E | [E | (u & _ & _ & E)]]; rewrite E.
  - assumption.
  - now rewrite connected_trunks.
  - destruct (released_stores (VOBIZ_INBOUND_NUMBER g) (remote w)) as [-> _].
    unfold reconciled. apply exec_keeps_trunk; [|assumption].
    now rewrite connected_trunks.
Qed.

Lemma main_keeps_rule g w r :
  In r (dispatch_rules (remote w)) ->
  ~ In (DeleteSIPDispatchRuleRequest (sip_dispatch_rule_id r))
       (plan (VOBIZ_INBOUND_NUMBER g) (connected (remote w))) ->
  In r (dispatch_rules (remote (snd (main g w)))).
Proof.
  intros H N.
  destruct (main_remote_cases g w) as [E | [E | (u & _ & _ & E)]]; rewrite E.
  - assumption.
  - now rewrite connected_rules.
  - destruct (released_stores (VOBIZ_INBOUND_NUMBER g) (remote w)) as [_ ->].
    unfold reconciled. apply exec_keeps_rule; [|assumption].
    now rewrite connected_rules.
Qed.

(** C4 -- No interference across numbers.  With trunk identifiers and
    rule identifiers each distinct in the stores: a trunk that does not
    carry the target number is never the object of a delete call and is
    still stored, as it was, after the run; so is a dispatch rule none
    of whose trunk identifiers is that of a stored trunk carrying the
    number; and a run that returns has stored a new trunk whose only
    number is the target next to them.  The first two hold for every
    run, aborted ones included.  When the project URL is set and no
    call raises, the run does return: its create-trunk request is
    answered with the new trunk, and that trunk is stored next to the
    trunks of the other numbers. *)
Theorem C4_other_numbers_untouched g w :
  NoDup (map sip_trunk_id (inbound_trunks (remote w))) ->
  NoDup (map sip_dispatch_rule_id (dispatch_rules (remote w))) ->
  let number := VOBIZ_INBOUND_NUMBER g in
  let w' := snd (main g w) in
  (forall t,
     In t (inbound_trunks (remote w)) -> ~ In number (numbers t) ->
     ~ In (DeleteSIPTrunkRequest (sip_trunk_id t)) (run_calls g w) /\
     In t (inbound_trunks (remote w'))) /\
  (forall r,
     In r (dispatch_rules (remote w)) ->
     (forall t, In t (inbound_trunks (remote w)) ->
                In (sip_trunk_id t) (trunk_ids r) ->
                ~ In number (numbers t)) ->
     ~ In (DeleteSIPDispatchRuleRequest (sip_dispatch_rule_id r)) (run_calls g w) /\
     In r (dispatch_rules (remote w'))) /\
  (fst (main g w) = Ok tt ->
   exists tid,
     In (with_trunk_id tid (new_trunk number)) (inbound_trunks (remote w')) /\
     numbers (with_trunk_id tid (new_trunk number)) = [number]) /\
  (forall u,
     LIVEKIT_URL g = Some u -> quiet (remote w) ->
     fst (main g w) = Ok tt /\
     exists tid,
       In {| ev_call := CreateSIPInboundTrunkRequest (new_trunk number);
             ev_reply := TrunkCreated (with_trunk_id tid (new_trunk number)) |}
          (run_events g w) /\
       In (with_trunk_id tid (new_trunk number)) (inbound_trunks (remote w')) /\
       numbers (with_trunk_id tid (new_trunk number)) = [number]).
Proof.
  intros Nt Nr number w'.
  set (tds := conflicts number (inbound_trunks (remote w))).
  assert (Ht : forall t, In t (inbound_trunks (remote w)) ->
                         ~ In number (numbers t) -> ~ In (sip_trunk_id t) tds).
  { intros t Hin Hn Hc. apply conflicts_In in Hc.
    destruct Hc as (t' & Hin' & E & Hn').
    assert (t' = t) by (eapply NoDup_map_injective; eauto).
    subst t'. contradiction. }
  assert (Hr : forall r, In r (dispatch_rules (remote w)) ->
                 (forall t, In t (inbound_trunks (remote w)) ->
                            In (sip_trunk_id t) (trunk_ids r) ->
                            ~ In number (numbers t)) ->
                 ~ In (sip_dispatch_rule_id r)
                      (linked_rule_ids tds (dispatch_rules (remote w)))).
  { intros r Hin Hfree Hc. apply linked_rule_ids_In in Hc.
    destruct Hc as (r' & Hin' & E & Hl).
    assert (r' = r) by (eapply NoDup_map_injective; eauto).
    subst r'. apply linked_iff in Hl. destruct Hl as (tid & Htid & Hrt).
    apply conflicts_In in Htid. destruct Htid as (t & Hti & <- & Hn).
    exact (Hfree t Hti Hrt Hn). }
  split; [|split; [|split]].
  - intros t Hin Hn. split.
    + intros Hc. apply run_calls_deletions in Hc. destruct Hc as [Hc _].
      exact (Ht t Hin Hn (Hc _ eq_refl)).
    + apply main_keeps_trunk; [assumption|]. intros Hc.
      apply plan_deletions in Hc. destruct Hc as [Hc _].
      specialize (Hc _ eq_refl). rewrite connected_trunks in Hc.
      exact (Ht t Hin Hn Hc).
  - intros r Hin Hfree. split.
    + intros Hc. apply run_calls_deletions in Hc. destruct Hc as [_ Hc].
      exact (Hr r Hin Hfree (Hc _ eq_refl)).
    + apply main_keeps_rule; [assumption|]. intros Hc.
      apply plan_deletions in Hc. destruct Hc as [_ Hc].
      specialize (Hc _ eq_refl). rewrite connected_trunks, connected_rules in Hc.
      exact (Hr r Hin Hfree Hc).
  - intros H. exists (new_trunk_id number (connected (remote w))).
    destruct (main_ok_stores g w H) as [Hs _]. fold number in Hs.
    split; [|reflexivity]. unfold w'. rewrite Hs.
    apply in_or_app. right. now left.
  - intros u U Q. pose proof (main_quiet g w U Q) as H. split; [exact H|].
    exists (new_trunk_id number (connected (remote w))).
    destruct (main_ok_stores g w H) as [Hs _]. fold number in Hs.
    destruct (run_events_ok g w H) as [_ Hev]. fold number in Hev.
    split; [|split; [|reflexivity]].
    + rewrite Hev. right. apply in_or_app. right. now left.
    + unfold w'. rewrite Hs. apply in_or_app. right. now left.
Qed.

Lemma C4_other_numbers_untouched_witness :
  let w := Sample.quiet [Sample.old_trunk; Sample.other_trunk]
             [Sample.a_rule "R1" ["ST_old"; "ST_other"];
              Sample.a_rule "R2" ["ST_other"]] in
  In Sample.other_trunk (inbound_trunks (remote (snd (main Sample.g w)))) /\
  In (Sample.a_rule "R2" ["ST_other"])
     (dispatch_rules (remote (snd (main Sample.g w)))) /\
  fst (main Sample.g w) = Ok tt /\
  exists tid,
    In {| ev_call := CreateSIPInboundTrunkRequest (new_trunk "+912271264190");
          ev_reply := TrunkCreated (with_trunk_id tid (new_trunk "+912271264190")) |}
       (run_events Sample.g w) /\
    In (with_trunk_id tid (new_trunk "+912271264190"))
       (inbound_trunks (remote (snd (main Sample.g w)))).
Proof.
  intros w.
  assert (Nt : NoDup (map sip_trunk_id (inbound_trunks (remote w)))).
  { repeat constructor; simpl; intuition discriminate. }
  assert (Nr : NoDup (map sip_dispatch_rule_id (dispatch_rules (remote w)))).
  { repeat constructor; simpl; intuition discriminate. }
  destruct (@C4_other_numbers_untouched Sample.g w Nt Nr) as (Ht & Hr & _ & Hnew).
  destruct (Hnew "wss://demo-x1.livekit.cloud" eq_refl (fun _ => eq_refl))
    as (Hok & tid & Hev & Hin & _).
  split; [|split; [|split]].
  - apply (Ht Sample.other_trunk).
    + right. left. reflexivity.
    + simpl. intuition discriminate.
  - apply (Hr (Sample.a_rule "R2" ["ST_other"])).
    + right. left. reflexivity.
    + intros t [<- | [<- | []]]; simpl; intuition discriminate.
  - exact Hok.
  - exists tid. split; [exact Hev | exact Hin].
Defined.

(** C10 -- A rule that refers to at least one conflicting trunk is
    deleted as a whole, whatever else it refers to: in a run that
    returns, its deletion is called and returns, and the stored rules
    afterwards are rules that were stored before, none of them with this
    rule's identifier, followed by the one newly created rule. *)
Theorem C10_mixed_rule_deleted_whole g w r tid :
  fst (main g w) = Ok tt ->
  In r (dispatch_rules (remote w)) ->
  In tid (trunk_ids r) ->
  In tid (conflicts (VOBIZ_INBOUND_NUMBER g) (inbound_trunks (remote w))) ->
  In {| ev_call := DeleteSIPDispatchRuleRequest (sip_dispatch_rule_id r);
        ev_reply := Done |} (run_events g w) /\
  exists kept new_id new_rule_id,
    dispatch_rules (remote (snd (main g w)))
    = kept ++ [with_rule_id new_rule_id (new_dispatch_rule new_id)] /\
    forall x, In x kept ->
              In x (dispatch_rules (remote w)) /\
              sip_dispatch_rule_id x <> sip_dispatch_rule_id r.
Proof.
  intros H Hr Hrt Hc.
  set (number := VOBIZ_INBOUND_NUMBER g) in *.
  set (tds := conflicts number (inbound_trunks (remote w))) in *.
  assert (Hl : In (sip_dispatch_rule_id r)
                  (linked_rule_ids tds (dispatch_rules (remote w)))).
  { apply linked_rule_ids_In. exists r. repeat split; [assumption|].
    apply linked_iff. eauto. }
  split.
  - destruct (run_events_ok g w H) as [Hd Hev]. fold number in Hd, Hev.
    set (R1 := connected (remote w)) in *.
    destruct (events_ok _ _ Hd) as [Hcalls Hall].
    assert (Hin : In (DeleteSIPDispatchRuleRequest (sip_dispatch_rule_id r))
                     (map ev_call (events (discovery_calls number R1) R1))).
    { rewrite Hcalls. unfold discovery_calls, cleanup_calls, R1.
      rewrite connected_trunks, connected_rules. fold tds.
      destruct tds; [easy|]. cbn [Py.truthy].
      right. right. apply in_or_app. left. now apply in_map. }
    apply in_map_iff in Hin. destruct Hin as (e' & Hc' & He').
    rewrite Hev. right. apply in_or_app. left.
    replace {| ev_call := DeleteSIPDispatchRuleRequest (sip_dispatch_rule_id r);
               ev_reply := Done |} with e'; [exact He'|].
    pose proof (proj1 (Forall_forall _ _) Hall e' He') as Hnf.
    apply events_reply in He'. destruct He' as [He' | [R' He']]; [contradiction|].
    destruct e' as [c' rp']. simpl in *. subst c'. simpl in He'. now subst rp'.
  - destruct (main_ok_stores g w H) as [_ Hs]. fold number tds in Hs.
    eexists _, _, _. split; [exact Hs|].
    intros x Hx. apply filter_In in Hx. destruct Hx as [Hx1 Hx2].
    split; [assumption|]. intros E. rewrite E in Hx2.
    apply contains_In in Hl. rewrite Hl in Hx2. discriminate.
Qed.

Lemma C10_mixed_rule_deleted_whole_witness :
  let w := Sample.quiet [Sample.old_trunk; Sample.other_trunk]
             [Sample.a_rule "R1" ["ST_old"; "ST_other"];
              Sample.a_rule "R2" ["ST_other"]] in
  In {| ev_call := DeleteSIPDispatchRuleRequest "R1"; ev_reply := Done |}
     (run_events Sample.g w).
Proof.
  intros w.
  destruct (@C10_mixed_rule_deleted_whole Sample.g w
              (Sample.a_rule "R1" ["ST_old"; "ST_other"]) "ST_old" eq_refl)
    as [H _].
  - left. reflexivity.
  - left. reflexivity.
  - left. reflexivity.
  - exact H.
Defined.

(** ** Convergence *)

Lemma filter_none {A} (f : A -> bool) (l : list A) :
  (forall x, In x l -> f x = false) -> filter f l = [].
Proof.
  induction l as [|x l IH]; intros H; simpl; [reflexivity|].
  rewrite (H x) by now left. apply IH. intros y Hy. apply H. now right.
Qed.

Lemma routes_linked number trunks r :
  routes number trunks r = linked (conflicts number trunks) r.
Proof.
  apply Bool.eq_iff_eq_true. unfold routes.
  rewrite existsb_exists, linked_iff. split.
  - intros (t & Ht & Hb). apply andb_true_iff in Hb. destruct Hb as [Hc Hi].
    destruct (in_dec string_dec (sip_trunk_id t) (trunk_ids r)); [|discriminate].
    exists (sip_trunk_id t). split; [|assumption].
    apply conflicts_In. exists t. repeat split; [assumption|].
    now apply carries_In.
  - intros (tid & Hc & Hi). apply conflicts_In in Hc.
    destruct Hc as (t & Ht & <- & Hn). exists t. split; [assumption|].
    apply andb_true_iff. split; [now apply carries_In|].
    now destruct (in_dec string_dec (sip_trunk_id t) (trunk_ids r)).
Qed.

Lemma new_trunk_id_assigned number R :
  exists k, new_trunk_id number (connected R) = assigned R k.
Proof.
  unfold new_trunk_id, connected. rewrite serve_assigned. eauto.
Qed.

(** After a run that returns, the only trunk carrying the number is the
    new one, and the only rule referring to it is the new one, provided
    no rule that survives refers to the new trunk's identifier. *)
Lemma converged_after_run g w :
  fst (main g w) = Ok tt ->
  let number := VOBIZ_INBOUND_NUMBER g in
  let R := remote w in
  let R' := remote (snd (main g w)) in
  let tds := conflicts number (inbound_trunks R) in
  let tid := new_trunk_id number (connected R) in
  let rid := new_rule_id number (connected R) in
  (forall r, In r (dispatch_rules R) -> linked tds r = false ->
             ~ In tid (trunk_ids r)) ->
  filter (carries number) (inbound_trunks R')
  = [with_trunk_id tid (new_trunk number)] /\
  conflicts number (inbound_trunks R') = [tid] /\
  filter (routes number (inbound_trunks R')) (dispatch_rules R')
  = [with_rule_id rid (new_dispatch_rule tid)] /\
  exists kept,
    dispatch_rules R' = kept ++ [with_rule_id rid (new_dispatch_rule tid)] /\
    forall x, In x kept -> In x (dispatch_rules R) /\ linked tds x = false.
Proof.
  intros H number R R' tds tid rid Hfresh.
  destruct (main_ok_stores g w H) as [Ht Hr].
  fold number R tds tid rid R' in Ht, Hr.
  assert (Huses : filter (uses_number number) (inbound_trunks R')
                  = [with_trunk_id tid (new_trunk number)]).
  { rewrite Ht, filter_app. rewrite filter_none.
    - simpl. unfold uses_number. simpl. now rewrite String.eqb_refl.
    - intros t Hin. apply filter_In in Hin. destruct Hin as [Hin Hc].
      destruct (uses_number number t) eqn:E; [|reflexivity].
      assert (Hid : In (sip_trunk_id t) tds).
      { apply conflicts_In. exists t. repeat split; [assumption|].
        now apply uses_number_In. }
      apply contains_In in Hid. rewrite Hid in Hc. discriminate. }
  assert (Hconf : conflicts number (inbound_trunks R') = [tid]).
  { unfold conflicts. now rewrite Huses. }
  assert (Hkept : forall x,
             In x (filter (fun r => negb (Py.contains
                                            (linked_rule_ids tds (dispatch_rules R))
                                            (sip_dispatch_rule_id r)))
                          (dispatch_rules R)) ->
             In x (dispatch_rules R) /\ linked tds x = false).
  { intros x Hx. apply filter_In in Hx. destruct Hx as [Hx Hc].
    split; [assumption|].
    destruct (linked tds x) eqn:E; [|reflexivity].
    assert (Hid : In (sip_dispatch_rule_id x)
                     (linked_rule_ids tds (dispatch_rules R))).
    { apply linked_rule_ids_In. now exists x. }
    apply contains_In in Hid. rewrite Hid in Hc. discriminate. }
  split; [|split; [exact Hconf|split]].
  - rewrite <- Huses. apply filter_ext. apply carries_uses.
  - rewrite (filter_ext _ _ (routes_linked number (inbound_trunks R'))).
    rewrite Hconf, Hr, filter_app. rewrite filter_none.
    + simpl. unfold linked, Py.any, Py.contains. simpl.
      now rewrite String.eqb_refl.
    + intros x Hx. destruct (Hkept x Hx) as [Hin Hl].
      destruct (linked [tid] x) eqn:E; [|reflexivity].
      apply linked_iff in E. destruct E as (tid' & [<- | []] & Hi).
      now elim (Hfresh x Hin Hl).
  - eexists. split; [exact Hr | exact Hkept].
Qed.

(** C1 -- Two runs in a row with the same target number, no call
    failing, from any stores in which no rule already refers to an
    identifier the service is going to assign: both runs return, and
    after the first as after the second exactly one stored trunk
    carries the number and exactly one stored rule refers to such a
    trunk, namely the trunk and the rule the latest run created. *)
Theorem C1_two_runs_leave_one_pair g w u :
  LIVEKIT_URL g = Some u ->
  quiet (remote w) ->
  (forall k r, In r (dispatch_rules (remote w)) ->
               ~ In (assigned (remote w) k) (trunk_ids r)) ->
  let number := VOBIZ_INBOUND_NUMBER g in
  let w1 := snd (main g w) in
  let w2 := snd (main g w1) in
  fst (main g w) = Ok tt /\
  fst (main g w1) = Ok tt /\
  (exists t1 r1,
     filter (carries number) (inbound_trunks (remote w1)) = [t1] /\
     filter (routes number (inbound_trunks (remote w1)))
            (dispatch_rules (remote w1)) = [r1]) /\
  (exists t2 r2,
     filter (carries number) (inbound_trunks (remote w2)) = [t2] /\
     filter (routes number (inbound_trunks (remote w2)))
            (dispatch_rules (remote w2)) = [r2] /\
     numbers t2 = [number] /\
     trunk_ids r2 = [sip_trunk_id t2]).
Proof.
  intros U Q Hfresh number w1 w2.
  pose proof (main_quiet g w U Q) as Ok1.
  destruct (main_script g w) as [Hf Ha]. fold w1 in Hf, Ha.
  assert (Q1 : quiet (remote w1)) by (intros k; rewrite Hf; apply Q).
  pose proof (main_quiet g w1 U Q1) as Ok2.
  destruct (converged_after_run g w Ok1) as (Hc1 & Hconf1 & Hr1 & kept & Hk & Hkept).
  { intros r Hr _. destruct (new_trunk_id_assigned (VOBIZ_INBOUND_NUMBER g) (remote w))
      as [k ->]. now apply Hfresh. }
  fold number w1 in Hc1, Hconf1, Hr1, Hk.
  destruct (converged_after_run g w1 Ok2) as (Hc2 & _ & Hr2 & _).
  { fold number. rewrite Hconf1, Hk. intros r Hr Hl.
    destruct (new_trunk_id_assigned number (remote w1)) as [k ->]. rewrite Ha.
    apply in_app_or in Hr. destruct Hr as [Hr | [<- | []]].
    - apply Hfresh. now apply Hkept.
    - exfalso. unfold linked, Py.any, Py.contains in Hl. simpl in Hl.
      rewrite String.eqb_refl in Hl. discriminate. }
  fold number w2 in Hc2, Hr2.
  split; [exact Ok1|]. split; [exact Ok2|]. split.
  - eexists _, _. split; [exact Hc1 | exact Hr1].
  - eexists _, _. split; [exact Hc2|]. split; [exact Hr2|]. split; reflexivity.
Qed.

Lemma C1_two_runs_leave_one_pair_witness :
  let w := Sample.quiet [Sample.old_trunk; Sample.other_trunk]
             [Sample.a_rule "R1" ["ST_old"; "ST_other"];
              Sample.a_rule "R2" ["ST_other"]] in
  let w2 := snd (main Sample.g (snd (main Sample.g w))) in
  List.length (filter (carries (VOBIZ_INBOUND_NUMBER Sample.g)) (inbound_trunks (remote w2))) = 1 /\
  List.length (filter (routes (VOBIZ_INBOUND_NUMBER Sample.g) (inbound_trunks (remote w2)))
                 (dispatch_rules (remote w2))) = 1.
Proof.
  intros w w2.
  destruct (@C1_two_runs_leave_one_pair Sample.g w "wss://demo-x1.livekit.cloud"
              eq_refl (fun _ => eq_refl)) as (_ & _ & _ & t2 & r2 & Ht & Hr & _).
  - intros k r Hr Hin.
    destruct Hr as [<- | [<- | []]]; simpl in Hin;
      repeat (destruct Hin as [Hin | Hin]; [discriminate Hin|]); exact Hin.
  - fold w2 in Ht, Hr. rewrite Ht, Hr. split; reflexivity.
Defined.

(** ** The release of the client *)




(** ** Sample runs, evaluated *)

Example project_id_of_sample_url :
  fst (derive_project_id (LIVEKIT_URL Sample.g) (Sample.quiet [] []))
  = Ok "demo-x1".
Proof. reflexivity. Qed.

Example default_number : VOBIZ_INBOUND_NUMBER (load_globals []) = "+912271264190".
Proof. reflexivity. Qed.

(** Scenario B: the old trunk and the rule on it go before the new pair
    is created. *)
Example scenario_B_calls :
  Sample.calls
    (snd (main Sample.g
            (Sample.quiet [Sample.old_trunk] [Sample.a_rule "R1" ["ST_old"]])))
  = [LiveKitAPI_init; ListSIPInboundTrunkRequest; ListSIPDispatchRuleRequest;
     DeleteSIPDispatchRuleRequest "R1"; DeleteSIPTrunkRequest "ST_old";
     CreateSIPInboundTrunkRequest (new_trunk "+912271264190");
     CreateSIPDispatchRuleRequest (new_dispatch_rule "NEW_iiiii");
     Aclose].
Proof. vm_compute. reflexivity. Qed.

(** Scenario D: the rule deletion raises; nothing but [aclose] follows. *)
Example scenario_D_calls :
  let w := snd (main Sample.g
                  (Sample.failing_at 3
                     (Sample.quiet [Sample.old_trunk]
                        [Sample.a_rule "R1" ["ST_old"]]))) in
  Sample.calls w
  = [LiveKitAPI_init; ListSIPInboundTrunkRequest; ListSIPDispatchRuleRequest;
     DeleteSIPDispatchRuleRequest "R1"; Aclose]
  /\ inbound_trunks (remote w) = [Sample.old_trunk].
Proof. vm_compute. split; reflexivity. Qed.

(** ** Which runs return *)

(** X1 -- [main] returns normally exactly when the project URL is set
    and none of the calls it made raised. *)
Theorem main_returns_iff g w :
  fst (main g w) = Ok tt <->
  LIVEKIT_URL g <> None /\
  Forall (fun e => ev_reply e <> Fault) (run_events g w).
Proof.
  split.
  - intros H. destruct (main_ok g w H) as (u & U & _). split; [congruence|].
    destruct (run_events_ok g w H) as [Hd ->].
    constructor; [discriminate|]. apply Forall_app. split.
    + now apply events_ok.
    + repeat constructor; discriminate.
  - intros [U Hall]. destruct (LIVEKIT_URL g) as [u|] eqn:Eu; [clear U | congruence].
    destruct (faults (remote w) (List.length (history (remote w)))) eqn:F.
    + rewrite (run_events_without_client g w Eu F) in Hall.
      apply Forall_inv in Hall. now elim Hall.
    + rewrite (run_events_with_url g w Eu F) in Hall.
      apply Forall_inv_tail in Hall. apply Forall_app in Hall.
      destruct Hall as [Hbody Hacl].
      destruct (main_with_url g w Eu F) as [_ ->].
      destruct (fst (reconciled (VOBIZ_INBOUND_NUMBER g) (remote w))) eqn:Hok.
      * apply Forall_inv in Hacl. rename Hacl into Hx. cbn [ev_reply] in Hx.
        rewrite serve_reply in Hx. destruct (faults _ _); [now elim Hx | reflexivity].
      * exfalso. apply events_failed in Hok. destruct Hok as (pre & c & E).
        unfold reconciled in E. rewrite E in Hbody.
        apply Forall_app in Hbody. destruct Hbody as [_ Hb].
        apply Forall_inv in Hb. now elim Hb.
Qed.

(** X2 -- Whatever call raises inside the [try] (a listing, a deletion
    or a creation), the run raises the client's error and the only call
    made after it is [aclose]. *)
Theorem any_fault_in_try_aborts g w pre e post :
  run_events g w = pre ++ e :: post ->
  ev_reply e = Fault ->
  ev_call e <> LiveKitAPI_init -> ev_call e <> Aclose ->
  fst (main g w) = Raise ClientError /\
  exists rep, post = [{| ev_call := Aclose; ev_reply := rep |}].
Proof.
  intros H E N1 N2.
  destruct (run_events_inner g w pre e post H N1 N2)
    as (u & pre' & post' & rep & U & F & -> & -> & Hev).
  pose proof (events_fault_last _ _ _ _ _ Hev E) as ->.
  split; [|now exists rep].
  destruct (main_with_url g w U F) as [_ ->].
  destruct (fst (reconciled (VOBIZ_INBOUND_NUMBER g) (remote w))) eqn:Hok;
    [|reflexivity].
  exfalso. apply events_ok in Hok. destruct Hok as [_ Hall].
  rewrite Hev in Hall. apply Forall_app in Hall. destruct Hall as [_ Hall].
  inversion Hall; subst. contradiction.
Qed.

Lemma any_fault_in_try_aborts_witness :
  let w := Sample.failing_at 1 (Sample.quiet [Sample.old_trunk] []) in
  fst (main Sample.g w) = Raise ClientError.
Proof.
  intros w.
  destruct (@any_fault_in_try_aborts Sample.g w
              [{| ev_call := LiveKitAPI_init; ev_reply := Done |}]
              {| ev_call := ListSIPInboundTrunkRequest; ev_reply := Fault |}
              [{| ev_call := Aclose; ev_reply := Done |}]
              eq_refl eq_refl) as [H _].
  - discriminate.
  - discriminate.
  - exact H.
Defined.

(** X3 -- The calls of a run that returns, in order: construct the
    client, list the trunks; if some trunk carries the number, list the
    rules, delete the linked rules in listing order, then delete the
    conflicting trunks in listing order; create the trunk, create the
    rule on the identifier just assigned, close the client.  The
    identifier in the rule request is the one the service returned in
    its reply to the create-trunk request of this run. *)
Theorem calls_of_returning_run g w :
  fst (main g w) = Ok tt ->
  let number := VOBIZ_INBOUND_NUMBER g in
  let tds := map sip_trunk_id (filter (carries number) (inbound_trunks (remote w))) in
  exists tid,
    In {| ev_call := CreateSIPInboundTrunkRequest (new_trunk number);
          ev_reply := TrunkCreated (with_trunk_id tid (new_trunk number)) |}
       (run_events g w) /\
    run_calls g w
    = [LiveKitAPI_init; ListSIPInboundTrunkRequest]
      ++ match tds with
         | [] => []
         | _ :: _ =>
             ListSIPDispatchRuleRequest
               :: map (fun r => DeleteSIPDispatchRuleRequest (sip_dispatch_rule_id r))
                      (filter (linked tds) (dispatch_rules (remote w)))
               ++ map DeleteSIPTrunkRequest tds
         end
      ++ [CreateSIPInboundTrunkRequest (new_trunk number);
          CreateSIPDispatchRuleRequest (new_dispatch_rule tid);
          Aclose].
Proof.
  intros H number tds.
  exists (new_trunk_id number (connected (remote w))). split.
  { destruct (run_events_ok g w H) as [_ Hev]. fold number in Hev.
    rewrite Hev. right. apply in_or_app. right. now left. }
  rewrite (run_calls_ok g w H). fold number.
  unfold discovery_calls, cleanup_calls, linked_rule_ids.
  rewrite connected_trunks, connected_rules.
  replace (conflicts number (inbound_trunks (remote w))) with tds
    by (unfold tds, conflicts; f_equal; apply filter_ext, carries_uses).
  rewrite map_map. destruct tds; reflexivity.
Qed.

Lemma calls_of_returning_run_witness :
  let w := Sample.quiet [Sample.old_trunk; Sample.other_trunk]
             [Sample.a_rule "R1" ["ST_old"]; Sample.a_rule "R2" ["ST_other"]] in
  exists tid,
    In {| ev_call := CreateSIPInboundTrunkRequest
                       (new_trunk (VOBIZ_INBOUND_NUMBER Sample.g));
          ev_reply := TrunkCreated
                        (with_trunk_id tid
                           (new_trunk (VOBIZ_INBOUND_NUMBER Sample.g))) |}
       (run_events Sample.g w) /\
    run_calls Sample.g w
    = [LiveKitAPI_init; ListSIPInboundTrunkRequest; ListSIPDispatchRuleRequest;
       DeleteSIPDispatchRuleRequest "R1"; DeleteSIPTrunkRequest "ST_old";
       CreateSIPInboundTrunkRequest (new_trunk (VOBIZ_INBOUND_NUMBER Sample.g));
       CreateSIPDispatchRuleRequest (new_dispatch_rule tid);
       Aclose].
Proof.
  intros w.
  destruct (@calls_of_returning_run Sample.g w eq_refl) as (tid & Hev & H).
  exists tid. split; [exact Hev | exact H].
Defined.

(** ** What a returning run leaves behind *)

Lemma kept_trunks_do_not_carry number trunks x :
  In x (filter (fun t => negb (Py.contains (conflicts number trunks) (sip_trunk_id t)))
               trunks) ->
  In x trunks /\ ~ In number (numbers x).
Proof.
  intros Hx. apply filter_In in Hx. destruct Hx as [Hin Hc].
  split; [assumption|]. intros Hn.
  assert (Hid : In (sip_trunk_id x) (conflicts number trunks)).
  { apply conflicts_In. now exists x. }
  apply contains_In in Hid. rewrite Hid in Hc. discriminate.
Qed.

Lemma carries_new_trunk number tid n' :
  carries n' (with_trunk_id tid (new_trunk number)) = true <-> n' = number.
Proof.
  rewrite carries_In. simpl. split; [intros [H | []]; now symmetry | now left].
Qed.

(** X4 -- A run that returns, from any stores and whatever identifiers
    the service assigns, leaves exactly one trunk carrying the number:
    the stored trunks are trunks stored before that do not carry it,
    followed by the new trunk; and the new rule, referring to the new
    trunk only, is stored last. *)
Theorem returning_run_postcondition g w :
  fst (main g w) = Ok tt ->
  let number := VOBIZ_INBOUND_NUMBER g in
  let R' := remote (snd (main g w)) in
  exists tid rid kept_trunks kept_rules,
    inbound_trunks R' = kept_trunks ++ [with_trunk_id tid (new_trunk number)] /\
    (forall x, In x kept_trunks ->
               In x (inbound_trunks (remote w)) /\ ~ In number (numbers x)) /\
    filter (carries number) (inbound_trunks R')
    = [with_trunk_id tid (new_trunk number)] /\
    dispatch_rules R' = kept_rules ++ [with_rule_id rid (new_dispatch_rule tid)] /\
    (forall x, In x kept_rules -> In x (dispatch_rules (remote w))) /\
    routes number (inbound_trunks R') (with_rule_id rid (new_dispatch_rule tid)) = true.
Proof.
  intros H number R'.
  destruct (main_ok_stores g w H) as [Ht Hr]. fold number R' in Ht, Hr.
  eexists _, _, _, _. split; [exact Ht|].
  assert (Hk := kept_trunks_do_not_carry number (inbound_trunks (remote w))).
  split; [exact Hk|].
  assert (Hf : filter (carries number) (inbound_trunks R')
               = [with_trunk_id (new_trunk_id number (connected (remote w)))
                    (new_trunk number)]).
  { rewrite Ht, filter_app, filter_none.
    - cbn [filter app].
      now rewrite (proj2 (carries_new_trunk number _ number) eq_refl).
    - intros x Hx. destruct (Hk x Hx) as [_ Hn].
      destruct (carries number x) eqn:E; [|reflexivity].
      now apply carries_In in E. }
  split; [exact Hf|]. split; [exact Hr|]. split.
  - intros x Hx. apply filter_In in Hx. now destruct Hx.
  - rewrite routes_linked. unfold conflicts.
    rewrite <- (filter_ext _ _ (carries_uses number)), Hf.
    apply linked_iff. eexists. split; now left.
Qed.

Lemma returning_run_postcondition_witness :
  let w := Sample.quiet [Sample.old_trunk; Sample.other_trunk; Sample.old_trunk]
             [Sample.a_rule "R1" ["ST_old"]] in
  List.length (filter (carries (VOBIZ_INBOUND_NUMBER Sample.g))
                 (inbound_trunks (remote (snd (main Sample.g w))))) = 1.
Proof.
  intros w.
  destruct (@returning_run_postcondition Sample.g w eq_refl)
    as (tid & rid & kt & kr & _ & _ & H & _).
  rewrite H. reflexivity.
Defined.

(** X5 -- A conflicting trunk is deleted with all its numbers: after a
    run that returns, a number other than the target that was carried
    only by trunks also carrying the target is carried by no stored
    trunk. *)
Theorem shared_trunk_numbers_are_dropped g w other :
  fst (main g w) = Ok tt ->
  other <> VOBIZ_INBOUND_NUMBER g ->
  (forall t, In t (inbound_trunks (remote w)) ->
             In other (numbers t) -> In (VOBIZ_INBOUND_NUMBER g) (numbers t)) ->
  filter (carries other) (inbound_trunks (remote (snd (main g w)))) = [].
Proof.
  intros H Hneq Hshared.
  destruct (main_ok_stores g w H) as [-> _].
  apply filter_none. intros x Hx.
  destruct (carries other x) eqn:E; [|reflexivity]. exfalso.
  apply in_app_or in Hx. destruct Hx as [Hx | [<- | []]].
  - destruct (kept_trunks_do_not_carry _ _ _ Hx) as [Hin Hn].
    apply carries_In in E. auto.
  - apply carries_new_trunk in E. contradiction.
Qed.

Lemma shared_trunk_numbers_are_dropped_witness :
  let shared := {| sip_trunk_id := "ST_two"; name := "Two";
                   numbers := ["+15550100"; "+912271264190"];
                   allowed_addresses := []; krisp_enabled := false |} in
  let w := Sample.quiet [shared] [] in
  filter (carries "+15550100") (inbound_trunks (remote (snd (main Sample.g w)))) = [].
Proof.
  intros shared w.
  apply (@shared_trunk_numbers_are_dropped Sample.g w "+15550100" eq_refl).
  - discriminate.
  - intros t [<- | []] _. right. left. reflexivity.
Defined.

(** X6 -- With no stored trunk carrying the number, no run lists the
    dispatch rules or deletes anything, and a run that returns only
    adds: the stores are the old ones followed by the new trunk and the
    new rule. *)
Theorem no_conflict_no_cleanup g w :
  (forall t, In t (inbound_trunks (remote w)) ->
             ~ In (VOBIZ_INBOUND_NUMBER g) (numbers t)) ->
  let number := VOBIZ_INBOUND_NUMBER g in
  let R' := remote (snd (main g w)) in
  (forall c, In c (run_calls g w) ->
             c <> ListSIPDispatchRuleRequest /\ is_deletion c = false) /\
  (fst (main g w) = Ok tt ->
   exists tid rid,
     inbound_trunks R'
     = inbound_trunks (remote w) ++ [with_trunk_id tid (new_trunk number)] /\
     dispatch_rules R'
     = dispatch_rules (remote w) ++ [with_rule_id rid (new_dispatch_rule tid)]).
Proof.
  intros Hnone number R'.
  assert (Hc : conflicts number (inbound_trunks (remote w)) = []).
  { unfold conflicts. rewrite filter_none; [reflexivity|].
    intros x Hx. destruct (uses_number number x) eqn:E; [|reflexivity].
    apply uses_number_In in E. now elim (Hnone x Hx). }
  split.
  - intros c Hin.
    destruct (run_calls_shape g w) as [E | (body & rest & E & Hp)]; rewrite E in Hin.
    + destruct Hin as [<- | []]. split; [discriminate | reflexivity].
    + fold number in Hp. unfold plan, discovery_calls in Hp.
      rewrite connected_trunks, Hc in Hp. cbn [cleanup_calls Py.truthy app] in Hp.
      destruct Hin as [<- | Hin]; [split; [discriminate | reflexivity]|].
      apply in_app_or in Hin. destruct Hin as [Hin | [<- | []]];
        [|split; [discriminate | reflexivity]].
      assert (Hp' : In c (body ++ rest)) by (apply in_or_app; now left).
      rewrite <- Hp in Hp'.
      destruct Hp' as [<- | [<- | [<- | []]]]; split; try discriminate; reflexivity.
  - intros H. destruct (main_ok_stores g w H) as [Ht Hr].
    fold number R' in Ht, Hr. rewrite Hc in Ht, Hr.
    rewrite linked_rule_ids_nil in Hr. cbn [Py.contains existsb negb] in Ht, Hr.
    rewrite filter_all in Ht. rewrite filter_all in Hr. eauto.
Qed.

Lemma no_conflict_no_cleanup_witness :
  let w := Sample.quiet [Sample.other_trunk] [Sample.a_rule "R2" ["ST_other"]] in
  exists tid rid,
    inbound_trunks (remote (snd (main Sample.g w)))
    = [Sample.other_trunk;
       with_trunk_id tid (new_trunk (VOBIZ_INBOUND_NUMBER Sample.g))] /\
    dispatch_rules (remote (snd (main Sample.g w)))
    = [Sample.a_rule "R2" ["ST_other"]; with_rule_id rid (new_dispatch_rule tid)].
Proof.
  intros w.
  assert (Hnone : forall t, In t (inbound_trunks (remote w)) ->
                            ~ In (VOBIZ_INBOUND_NUMBER Sample.g) (numbers t)).
  { intros t [<- | []] [H | []]. discriminate H. }
  destruct (@no_conflict_no_cleanup Sample.g w Hnone) as [_ H].
  exact (H eq_refl).
Defined.

(** X7 -- Running again replaces the pair: when two consecutive runs
    both return, the second one deletes the trunk and the rule the
    first one created. *)
Theorem rerun_deletes_previous_pair g w :
  fst (main g w) = Ok tt ->
  fst (main g (snd (main g w))) = Ok tt ->
  let number := VOBIZ_INBOUND_NUMBER g in
  exists tid rid,
    In {| ev_call := CreateSIPInboundTrunkRequest (new_trunk number);
          ev_reply := TrunkCreated (with_trunk_id tid (new_trunk number)) |}
       (run_events g w) /\
    In {| ev_call := CreateSIPDispatchRuleRequest (new_dispatch_rule tid);
          ev_reply := RuleCreated (with_rule_id rid (new_dispatch_rule tid)) |}
       (run_events g w) /\
    In (DeleteSIPDispatchRuleRequest rid) (run_calls g (snd (main g w))) /\
    In (DeleteSIPTrunkRequest tid) (run_calls g (snd (main g w))).
Proof.
  intros H1 H2 number.
  set (tid := new_trunk_id number (connected (remote w))).
  set (rid := new_rule_id number (connected (remote w))).
  exists tid, rid.
  destruct (run_events_ok g w H1) as [_ Hev]. fold number tid rid in Hev.
  destruct (main_ok_stores g w H1) as [Ht Hr]. fold number tid rid in Ht, Hr.
  assert (Hconf : conflicts number (inbound_trunks (remote (snd (main g w)))) = [tid]).
  { unfold conflicts. rewrite <- (filter_ext _ _ (carries_uses number)), Ht, filter_app.
    rewrite filter_none.
    - cbn [filter app].
      now rewrite (proj2 (carries_new_trunk number tid number) eq_refl).
    - intros x Hx.
      destruct (kept_trunks_do_not_carry number (inbound_trunks (remote w)) x Hx)
        as [_ Hn].
      destruct (carries number x) eqn:E; [|reflexivity]. now apply carries_In in E. }
  split; [|split; [|split]].
  - rewrite Hev. right. apply in_or_app. right. now left.
  - rewrite Hev. right. apply in_or_app. right. right. now left.
  - rewrite (run_calls_ok g (snd (main g w)) H2). fold number.
    right. apply in_or_app. left. unfold discovery_calls.
    rewrite connected_trunks, connected_rules, Hconf. cbn [cleanup_calls Py.truthy].
    right. right. apply in_or_app. left. apply in_map.
    apply linked_rule_ids_In. exists (with_rule_id rid (new_dispatch_rule tid)).
    split; [|split; [reflexivity|]].
    + rewrite Hr. apply in_or_app. right. now left.
    + apply linked_iff. exists tid. split; now left.
  - rewrite (run_calls_ok g (snd (main g w)) H2). fold number.
    right. apply in_or_app. left. unfold discovery_calls.
    rewrite connected_trunks, connected_rules, Hconf. cbn [cleanup_calls Py.truthy].
    right. right. apply in_or_app. right. now left.
Qed.

Lemma rerun_deletes_previous_pair_witness :
  let w := Sample.quiet [] [] in
  exists tid, In (DeleteSIPTrunkRequest tid) (run_calls Sample.g (snd (main Sample.g w))).
Proof.
  intros w.
  destruct (@rerun_deletes_previous_pair Sample.g w eq_refl eq_refl)
    as (tid & rid & _ & _ & _ & H).
  exists tid. exact H.
Defined.

(** ** The stores after an aborted run *)

(** The stores after a sequence cut short by a fault are those after
    the calls that returned, with or without the effect of the call that
    raised. *)
Lemma exec_until_fault cs R pre e :
  events cs R = pre ++ [e] -> ev_reply e = Fault ->
  fst (exec (map ev_call pre) R) = true /\
  exists landed : bool,
    inbound_trunks (snd (exec cs R))
    = (if landed then trunks_after (ev_call e) (snd (exec (map ev_call pre) R))
       else inbound_trunks (snd (exec (map ev_call pre) R))) /\
    dispatch_rules (snd (exec cs R))
    = (if landed then rules_after (ev_call e) (snd (exec (map ev_call pre) R))
       else dispatch_rules (snd (exec (map ev_call pre) R))).
Proof.
  revert R pre. induction cs as [|c cs IH]; intros R pre H E.
  - now destruct pre.
  - cbn [events] in H. destruct pre as [|p pre]; cbn [app] in H.
    + injection H as He Hrest. subst e. cbn [ev_reply] in E.
      rewrite serve_reply in E. cbn [map exec ev_call].
      destruct (faults R _) eqn:F; [|now apply answer_not_Fault in E].
      cbn [fst snd]. rewrite serve_trunks, serve_rules, F.
      split; [reflexivity|]. exists (applied R (List.length (history R))).
      destruct (applied R _); split; reflexivity.
    + injection H as Hp Hrest. subst p. cbn [map ev_call exec].
      destruct (faults R _) eqn:F; [now destruct pre|].
      apply IH; assumption.
Qed.

(** The events before the call that raised are the events of the calls
    that returned. *)
Lemma events_before_fault cs R pre e :
  events cs R = pre ++ [e] -> ev_reply e = Fault ->
  events (map ev_call pre) R = pre.
Proof.
  revert R pre. induction cs as [|c cs IH]; intros R pre H E.
  - now destruct pre.
  - cbn [events] in H. destruct pre as [|p pre]; cbn [app] in H; [reflexivity|].
    injection H as Hp Hrest. subst p. cbn [map ev_call events].
    destruct (faults R _) eqn:F; [now destruct pre|].
    f_equal. apply IH; assumption.
Qed.

Lemma exec_no_trunk_calls cs R :
  (forall c, In c cs ->
             (forall id, c <> DeleteSIPTrunkRequest id) /\
             (forall t, c <> CreateSIPInboundTrunkRequest t)) ->
  inbound_trunks (snd (exec cs R)) = inbound_trunks R.
Proof.
  revert R. induction cs as [|c cs IH]; intros R H; [reflexivity|].
  cbn [exec].
  assert (Hc : inbound_trunks (snd (serve c R)) = inbound_trunks R).
  { destruct (serve_trunks_cases c R) as [Es|Es]; rewrite Es; [reflexivity|].
    destruct (H c (or_introl eq_refl)) as [H1 H2].
    destruct c; try reflexivity; [now elim (H1 id) | now elim (H2 trunk)]. }
  destruct (faults R _); cbn [snd]; [assumption|].
  rewrite IH; [assumption|]. intros c' Hc'. apply H. now right.
Qed.

Lemma exec_no_rule_calls cs R :
  (forall c, In c cs ->
             (forall id, c <> DeleteSIPDispatchRuleRequest id) /\
             (forall r, c <> CreateSIPDispatchRuleRequest r)) ->
  dispatch_rules (snd (exec cs R)) = dispatch_rules R.
Proof.
  revert R. induction cs as [|c cs IH]; intros R H; [reflexivity|].
  cbn [exec].
  assert (Hc : dispatch_rules (snd (serve c R)) = dispatch_rules R).
  { destruct (serve_rules_cases c R) as [Es|Es]; rewrite Es; [reflexivity|].
    destruct (H c (or_introl eq_refl)) as [H1 H2].
    destruct c; try reflexivity; [now elim (H1 id) | now elim (H2 dispatch_rule)]. }
  destruct (faults R _); cbn [snd]; [assumption|].
  rewrite IH; [assumption|]. intros c' Hc'. apply H. now right.
Qed.

(** The run up to the call that raised inside the [try]. *)
Lemma run_until_fault g w pre e post :
  run_events g w = pre ++ e :: post ->
  ev_reply e = Fault ->
  ev_call e <> LiveKitAPI_init -> ev_call e <> Aclose ->
  let number := VOBIZ_INBOUND_NUMBER g in
  let R1 := connected (remote w) in
  exists pre' rest (landed : bool),
    pre = {| ev_call := LiveKitAPI_init; ev_reply := Done |} :: pre' /\
    plan number R1 = map ev_call pre' ++ ev_call e :: rest /\
    fst (exec (map ev_call pre') R1) = true /\
    inbound_trunks (remote (snd (main g w)))
    = (if landed then trunks_after (ev_call e) (snd (exec (map ev_call pre') R1))
       else inbound_trunks (snd (exec (map ev_call pre') R1))) /\
    dispatch_rules (remote (snd (main g w)))
    = (if landed then rules_after (ev_call e) (snd (exec (map ev_call pre') R1))
       else dispatch_rules (snd (exec (map ev_call pre') R1))).
Proof.
  intros H E N1 N2 number R1.
  destruct (run_events_inner g w pre e post H N1 N2)
    as (u & pre' & post' & rep & U & F & -> & -> & Hev).
  fold number R1 in Hev.
  pose proof (events_fault_last _ _ _ _ _ Hev E) as ->.
  destruct (events_calls (plan number R1) R1) as [rest Hrest].
  rewrite Hev, map_app, <- app_assoc in Hrest. cbn [map app] in Hrest.
  destruct (@exec_until_fault _ _ _ _ Hev E) as (Hok & landed & Ht & Hr).
  destruct (main_with_url g w U F) as [-> _].
  destruct (released_stores (VOBIZ_INBOUND_NUMBER g) (remote w)) as [-> ->].
  unfold reconciled. fold number R1.
  exists pre', rest, landed. repeat split; assumption.
Qed.

(** The plan: listings and rule deletions, then trunk deletions, then
    the two creations. *)
Lemma plan_phases number R :
  let tds := conflicts number (inbound_trunks R) in
  exists front,
    plan number R
    = front ++ map DeleteSIPTrunkRequest tds ++ creation_calls number R /\
    discovery_calls number R = front ++ map DeleteSIPTrunkRequest tds /\
    forall c, In c front ->
              c = ListSIPInboundTrunkRequest \/ c = ListSIPDispatchRuleRequest \/
              exists id, c = DeleteSIPDispatchRuleRequest id.
Proof.
  intros tds. unfold plan, discovery_calls, cleanup_calls. fold tds.
  destruct tds as [|t tds'] eqn:E; cbn [Py.truthy].
  - exists [ListSIPInboundTrunkRequest]. repeat split.
    intros c [<- | []]. now left.
  - exists (ListSIPInboundTrunkRequest :: ListSIPDispatchRuleRequest
              :: map DeleteSIPDispatchRuleRequest
                   (linked_rule_ids (t :: tds') (dispatch_rules R))).
    split; [|split].
    + cbn [app]. now rewrite <- app_assoc.
    + reflexivity.
    + intros c [<- | [<- | Hc]]; [now left | now right; left |].
      apply in_map_iff in Hc. destruct Hc as (id & <- & _). right. right. eauto.
Qed.

Lemma plan_listings number R :
  exists listings tail,
    plan number R = listings ++ tail /\
    (forall c, In c listings ->
               c = ListSIPInboundTrunkRequest \/ c = ListSIPDispatchRuleRequest) /\
    (forall c, In c tail ->
               c <> ListSIPInboundTrunkRequest /\ c <> ListSIPDispatchRuleRequest).
Proof.
  unfold plan, discovery_calls, cleanup_calls.
  destruct (Py.truthy _).
  - exists [ListSIPInboundTrunkRequest; ListSIPDispatchRuleRequest]. eexists.
    split; [reflexivity|]. split.
    + intros c [<- | [<- | []]]; auto.
    + intros c Hc.
      apply in_app_or in Hc. destruct Hc as [Hc | [<- | [<- | []]]];
        try (split; discriminate).
      apply in_app_or in Hc. destruct Hc as [Hc | Hc];
        apply in_map_iff in Hc; destruct Hc as (? & <- & _); split; discriminate.
  - exists [ListSIPInboundTrunkRequest]. eexists. split; [reflexivity|]. split.
    + intros c [<- | []]. auto.
    + intros c [<- | [<- | []]]; split; discriminate.
Qed.

Lemma exec_no_rule_creation cs R x :
  (forall c, In c cs -> forall r, c <> CreateSIPDispatchRuleRequest r) ->
  In x (dispatch_rules (snd (exec cs R))) -> In x (dispatch_rules R).
Proof.
  revert R. induction cs as [|c cs IH]; intros R H Hin; [exact Hin|].
  cbn [exec] in Hin.
  assert (Hstep : In x (dispatch_rules (snd (serve c R))) -> In x (dispatch_rules R)).
  { destruct (serve_rules_cases c R) as [Es|Es]; rewrite Es; [auto|].
    destruct c; cbn; auto.
    - intros Hf. apply filter_In in Hf. now destruct Hf.
    - now elim (H _ (or_introl eq_refl) dispatch_rule). }
  destruct (faults R _); cbn [snd] in Hin; [auto|].
  apply Hstep. apply IH; [|exact Hin]. intros c' Hc'. apply H. now right.
Qed.

Lemma exec_no_trunk_creation cs R x :
  (forall c, In c cs -> forall t, c <> CreateSIPInboundTrunkRequest t) ->
  In x (inbound_trunks (snd (exec cs R))) -> In x (inbound_trunks R).
Proof.
  revert R. induction cs as [|c cs IH]; intros R H Hin; [exact Hin|].
  cbn [exec] in Hin.
  assert (Hstep : In x (inbound_trunks (snd (serve c R))) -> In x (inbound_trunks R)).
  { destruct (serve_trunks_cases c R) as [Es|Es]; rewrite Es; [auto|].
    destruct c; cbn; auto.
    - intros Hf. apply filter_In in Hf. now destruct Hf.
    - now elim (H _ (or_introl eq_refl) trunk). }
  destruct (faults R _); cbn [snd] in Hin; [auto|].
  apply Hstep. apply IH; [|exact Hin]. intros c' Hc'. apply H. now right.
Qed.

(** X8 -- If a listing raises, the run has changed nothing: both stores
    are as they were before the run. *)
Theorem listing_fault_changes_nothing g w pre e post :
  run_events g w = pre ++ e :: post ->
  ev_reply e = Fault ->
  ev_call e = ListSIPInboundTrunkRequest \/ ev_call e = ListSIPDispatchRuleRequest ->
  inbound_trunks (remote (snd (main g w))) = inbound_trunks (remote w) /\
  dispatch_rules (remote (snd (main g w))) = dispatch_rules (remote w).
Proof.
  intros H E Hkind.
  destruct (run_until_fault g w pre e post H E)
    as (pre' & rest & landed & -> & Hplan & Hok & -> & ->).
  { destruct Hkind as [C | C]; rewrite C; discriminate. }
  { destruct Hkind as [C | C]; rewrite C; discriminate. }
  assert (Hsame : forall R, trunks_after (ev_call e) R = inbound_trunks R /\
                            rules_after (ev_call e) R = dispatch_rules R).
  { intros R. destruct Hkind as [C | C]; rewrite C; split; reflexivity. }
  destruct (Hsame (snd (exec (map ev_call pre')
                          (connected (remote w))))) as [Est Esr].
  rewrite Est, Esr. clear Hsame Est Esr.
  replace (if landed then _ else _)
    with (inbound_trunks (snd (exec (map ev_call pre') (connected (remote w)))))
    by now destruct landed.
  replace (if landed then _ else _)
    with (dispatch_rules (snd (exec (map ev_call pre') (connected (remote w)))))
    by now destruct landed.
  set (number := VOBIZ_INBOUND_NUMBER g) in *.
  set (R1 := connected (remote w)) in *.
  destruct (plan_listings number R1) as (listings & tail & Hp & Hl & Htail).
  rewrite Hp in Hplan. symmetry in Hplan. apply split_in_left in Hplan.
  2:{ intros Hin. apply Htail in Hin. destruct Hin as [N1 N2].
      destruct Hkind; contradiction. }
  destruct Hplan as [m Hm].
  assert (Hpre : forall c, In c (map ev_call pre') ->
                   c = ListSIPInboundTrunkRequest \/ c = ListSIPDispatchRuleRequest).
  { intros c Hc. apply Hl. rewrite Hm. apply in_or_app. now left. }
  split.
  - rewrite exec_no_trunk_calls; [apply connected_trunks|].
    intros c Hc. destruct (Hpre c Hc) as [-> | ->]; split; intros; discriminate.
  - rewrite exec_no_rule_calls; [apply connected_rules|].
    intros c Hc. destruct (Hpre c Hc) as [-> | ->]; split; intros; discriminate.
Qed.

Lemma listing_fault_changes_nothing_witness :
  let w := Sample.failing_at 2
             (Sample.quiet [Sample.old_trunk] [Sample.a_rule "R1" ["ST_old"]]) in
  inbound_trunks (remote (snd (main Sample.g w))) = [Sample.old_trunk] /\
  dispatch_rules (remote (snd (main Sample.g w))) = [Sample.a_rule "R1" ["ST_old"]].
Proof.
  intros w.
  apply (@listing_fault_changes_nothing Sample.g w
           (firstn 2 (run_events Sample.g w))
           {| ev_call := ListSIPDispatchRuleRequest; ev_reply := Fault |}
           [{| ev_call := Aclose; ev_reply := Done |}] eq_refl eq_refl).
  right. reflexivity.
Defined.

(** X9 -- If a rule deletion raises, no trunk has been deleted or
    created (the trunk store is as before the run) and no rule has been
    added. *)
Theorem rule_deletion_fault_leaves_trunks g w pre e post id :
  run_events g w = pre ++ e :: post ->
  ev_reply e = Fault ->
  ev_call e = DeleteSIPDispatchRuleRequest id ->
  inbound_trunks (remote (snd (main g w))) = inbound_trunks (remote w) /\
  (forall r, In r (dispatch_rules (remote (snd (main g w)))) ->
             In r (dispatch_rules (remote w))).
Proof.
  intros H E Hkind.
  destruct (run_until_fault g w pre e post H E)
    as (pre' & rest & landed & -> & Hplan & Hok & -> & ->);
    try (rewrite Hkind; discriminate).
  rewrite Hkind. cbn [trunks_after rules_after].
  replace (if landed then _ else _)
    with (inbound_trunks (snd (exec (map ev_call pre') (connected (remote w)))))
    by now destruct landed.
  set (number := VOBIZ_INBOUND_NUMBER g) in *.
  set (R1 := connected (remote w)) in *.
  destruct (plan_phases number R1) as (front & Hp & _ & Hfront).
  rewrite Hp, Hkind in Hplan. symmetry in Hplan. apply split_in_left in Hplan.
  2:{ intros Hin. apply in_app_or in Hin. destruct Hin as [Hin | Hin].
      - apply in_map_iff in Hin. destruct Hin as (x & Hx & _). discriminate.
      - destruct Hin as [Hx | [Hx | []]]; discriminate. }
  destruct Hplan as [m Hm].
  assert (Hpre : forall c, In c (map ev_call pre') ->
                   c = ListSIPInboundTrunkRequest \/ c = ListSIPDispatchRuleRequest \/
                   exists id, c = DeleteSIPDispatchRuleRequest id).
  { intros c Hc. apply Hfront. rewrite Hm. apply in_or_app. now left. }
  split.
  - rewrite exec_no_trunk_calls; [apply connected_trunks|].
    intros c Hc. destruct (Hpre c Hc) as [-> | [-> | [id' ->]]];
      split; intros; discriminate.
  - intros r Hin. rewrite <- (connected_rules (remote w)). fold R1.
    assert (Hin' : In r (dispatch_rules (snd (exec (map ev_call pre') R1)))).
    { destruct landed; [|exact Hin]. apply filter_In in Hin. now destruct Hin. }
    eapply exec_no_rule_creation; [|exact Hin'].
    intros c Hc. destruct (Hpre c Hc) as [-> | [-> | [id' ->]]]; discriminate.
Qed.

Lemma rule_deletion_fault_leaves_trunks_witness :
  let w := Sample.failing_at 3
             (Sample.quiet [Sample.old_trunk] [Sample.a_rule "R1" ["ST_old"]]) in
  inbound_trunks (remote (snd (main Sample.g w))) = [Sample.old_trunk].
Proof.
  intros w.
  apply (@rule_deletion_fault_leaves_trunks Sample.g w
           (firstn 3 (run_events Sample.g w))
           {| ev_call := DeleteSIPDispatchRuleRequest "R1"; ev_reply := Fault |}
           [{| ev_call := Aclose; ev_reply := Done |}] "R1" eq_refl eq_refl eq_refl).
Defined.

Lemma kept_rules_not_linked tds rules x :
  In x (filter (fun r => negb (Py.contains (linked_rule_ids tds rules)
                                           (sip_dispatch_rule_id r))) rules) ->
  In x rules /\ linked tds x = false.
Proof.
  intros Hx. apply filter_In in Hx. destruct Hx as [Hx Hc].
  split; [assumption|].
  destruct (linked tds x) eqn:E; [|reflexivity].
  assert (Hid : In (sip_dispatch_rule_id x) (linked_rule_ids tds rules)).
  { apply linked_rule_ids_In. now exists x. }
  apply contains_In in Hid. rewrite Hid in Hc. discriminate.
Qed.

Lemma discovery_has_no_creation number R c :
  In c (discovery_calls number R) ->
  (forall t, c <> CreateSIPInboundTrunkRequest t) /\
  (forall r, c <> CreateSIPDispatchRuleRequest r).
Proof.
  intros H. apply discovery_calls_In in H.
  destruct H as [-> | [-> | [(id & -> & _) | (id & -> & _)]]];
    split; intros; discriminate.
Qed.

(** X10 -- No rollback after a failed trunk creation: if the create
    trunk call raises, the conflicting trunks and their rules are
    already deleted and are not restored.  Whether or not the service
    carried the failed request out, every stored trunk is a trunk stored
    before that does not carry the number, or the trunk of the failed
    request; every stored rule is a rule stored before that referred to
    no conflicting trunk. *)
Theorem failed_trunk_creation_restores_nothing g w pre e post t :
  run_events g w = pre ++ e :: post ->
  ev_reply e = Fault ->
  ev_call e = CreateSIPInboundTrunkRequest t ->
  let number := VOBIZ_INBOUND_NUMBER g in
  let R' := remote (snd (main g w)) in
  t = new_trunk number /\
  (forall x, In x (inbound_trunks R') ->
             (In x (inbound_trunks (remote w)) /\ ~ In number (numbers x)) \/
             exists tid, x = with_trunk_id tid t) /\
  (forall r, In r (dispatch_rules R') ->
             In r (dispatch_rules (remote w)) /\
             routes number (inbound_trunks (remote w)) r = false).
Proof.
  intros H E Hkind number R'.
  destruct (run_until_fault g w pre e post H E)
    as (pre' & rest & landed & -> & Hplan & Hok & Ht & Hr);
    try (rewrite Hkind; discriminate).
  fold number in Hplan, Hok, Ht, Hr.
  set (R1 := connected (remote w)) in *.
  rewrite Hkind in Ht, Hr. cbn [trunks_after rules_after] in Ht, Hr.
  replace (if landed then _ else _)
    with (dispatch_rules (snd (exec (map ev_call pre') R1))) in Hr
    by now destruct landed.
  unfold plan in Hplan. rewrite Hkind in Hplan. symmetry in Hplan.
  pose proof Hplan as Hplan'. apply split_past_left in Hplan'.
  2:{ intros Hin. apply discovery_has_no_creation in Hin.
      destruct Hin as [Hin _]. now elim (Hin t). }
  destruct Hplan' as [m Hm]. rewrite Hm, <- app_assoc in Hplan.
  apply app_inv_head in Hplan. unfold creation_calls in Hplan.
  destruct m as [|c1 [|c2 m]]; cbn [app] in Hplan.
  2:{ injection Hplan as _ Hplan. discriminate. }
  2:{ injection Hplan as _ _ Hplan. now destruct m. }
  injection Hplan as Hplan _.
  rewrite app_nil_r in Hm. rewrite Hm in Hok, Ht, Hr.
  destruct (discovery_ok_stores _ _ Hok) as [Hts Hrs].
  unfold R'. rewrite Ht, Hr, Hts, Hrs. unfold R1.
  rewrite !connected_trunks, !connected_rules. split; [exact Hplan|split].
  - intros x Hx.
    assert (Hcases : In x (filter (fun t0 => negb (Py.contains
                              (conflicts number (inbound_trunks (remote w)))
                              (sip_trunk_id t0))) (inbound_trunks (remote w))) \/
                     exists tid, x = with_trunk_id tid t).
    { destruct landed; [|now left]. apply in_app_or in Hx.
      destruct Hx as [Hx | [<- | []]]; [now left | right; eauto]. }
    destruct Hcases as [Hk | Hnew]; [left | now right].
    exact (kept_trunks_do_not_carry _ _ _ Hk).
  - intros r Hx. rewrite routes_linked. now apply kept_rules_not_linked.
Qed.

Lemma failed_trunk_creation_restores_nothing_witness :
  let w := Sample.landing_at 5
             (Sample.quiet [Sample.old_trunk; Sample.other_trunk]
                           [Sample.a_rule "R1" ["ST_old"]]) in
  (forall x, In x (inbound_trunks (remote (snd (main Sample.g w)))) ->
             (In x [Sample.old_trunk; Sample.other_trunk] /\
              ~ In (VOBIZ_INBOUND_NUMBER Sample.g) (numbers x)) \/
             exists tid,
               x = with_trunk_id tid (new_trunk (VOBIZ_INBOUND_NUMBER Sample.g))) /\
  (forall r, In r (dispatch_rules (remote (snd (main Sample.g w)))) ->
             In r [Sample.a_rule "R1" ["ST_old"]] /\
             routes (VOBIZ_INBOUND_NUMBER Sample.g)
                    [Sample.old_trunk; Sample.other_trunk] r = false).
Proof.
  intros w.
  destruct (@failed_trunk_creation_restores_nothing Sample.g w
              (firstn 5 (run_events Sample.g w))
              {| ev_call := CreateSIPInboundTrunkRequest
                              (new_trunk (VOBIZ_INBOUND_NUMBER Sample.g));
                 ev_reply := Fault |}
              [{| ev_call := Aclose; ev_reply := Done |}]
              (new_trunk (VOBIZ_INBOUND_NUMBER Sample.g))
              eq_refl eq_refl eq_refl) as (_ & Ht & Hr).
  split; [exact Ht | exact Hr].
Defined.

(** The two outcomes of a create-trunk call that raises: the service
    refused it, or stored the trunk all the same.  Either way the old
    trunk and its rule are gone. *)
Example trunk_creation_refused :
  let w := Sample.failing_at 5
             (Sample.quiet [Sample.old_trunk] [Sample.a_rule "R1" ["ST_old"]]) in
  fst (main Sample.g w) = Raise ClientError /\
  inbound_trunks (remote (snd (main Sample.g w))) = [] /\
  dispatch_rules (remote (snd (main Sample.g w))) = [].
Proof. vm_compute. repeat split. Qed.

Example trunk_creation_landed :
  let w := Sample.landing_at 5
             (Sample.quiet [Sample.old_trunk] [Sample.a_rule "R1" ["ST_old"]]) in
  fst (main Sample.g w) = Raise ClientError /\
  inbound_trunks (remote (snd (main Sample.g w)))
  = [with_trunk_id "NEW_iiiii" (new_trunk "+912271264190")] /\
  dispatch_rules (remote (snd (main Sample.g w))) = [].
Proof. vm_compute. repeat split. Qed.

(** X11 -- If the create rule call raises, the new trunk is already
    stored and is the only trunk carrying the number.  Whether or not
    the service carried the failed request out, every stored rule is a
    rule stored before that referred to no conflicting trunk, or the
    rule of the failed request, which refers to the new trunk. *)
Theorem failed_rule_creation_keeps_new_trunk g w pre e post r :
  run_events g w = pre ++ e :: post ->
  ev_reply e = Fault ->
  ev_call e = CreateSIPDispatchRuleRequest r ->
  let number := VOBIZ_INBOUND_NUMBER g in
  let R' := remote (snd (main g w)) in
  (exists tid,
     r = new_dispatch_rule tid /\
     In {| ev_call := CreateSIPInboundTrunkRequest (new_trunk number);
           ev_reply := TrunkCreated (with_trunk_id tid (new_trunk number)) |} pre /\
     filter (carries number) (inbound_trunks R')
     = [with_trunk_id tid (new_trunk number)]) /\
  (forall x, In x (dispatch_rules R') ->
             (In x (dispatch_rules (remote w)) /\
              routes number (inbound_trunks (remote w)) x = false) \/
             exists rid, x = with_rule_id rid r).
Proof.
  intros H E Hkind number R'.
  destruct (run_until_fault g w pre e post H E)
    as (pre' & rest & landed & -> & Hplan & Hok & Ht & Hr);
    try (rewrite Hkind; discriminate).
  fold number in Hplan, Hok, Ht, Hr.
  set (R1 := connected (remote w)) in *.
  rewrite Hkind in Ht, Hr. cbn [trunks_after rules_after] in Ht, Hr.
  replace (if landed then _ else _)
    with (inbound_trunks (snd (exec (map ev_call pre') R1))) in Ht
    by now destruct landed.
  unfold plan in Hplan. rewrite Hkind in Hplan. symmetry in Hplan.
  pose proof Hplan as Hplan'. apply split_past_left in Hplan'.
  2:{ intros Hin. apply discovery_has_no_creation in Hin.
      destruct Hin as [_ Hin]. now elim (Hin r). }
  destruct Hplan' as [m Hm]. rewrite Hm, <- app_assoc in Hplan.
  apply app_inv_head in Hplan. unfold creation_calls in Hplan.
  destruct m as [|c1 [|c2 m]]; cbn [app] in Hplan.
  1:{ injection Hplan as Hplan _. discriminate. }
  2:{ injection Hplan as _ _ Hplan. now destruct m. }
  injection Hplan as -> -> _.
  assert (Hpre : In {| ev_call := CreateSIPInboundTrunkRequest (new_trunk number);
                       ev_reply := TrunkCreated
                                     (with_trunk_id (new_trunk_id number R1)
                                        (new_trunk number)) |} pre').
  { destruct (run_events_inner g w _ e post H) as
        (u & pre2 & post2 & rep & U & F & Hp2 & _ & Hev);
      try (rewrite Hkind; discriminate).
    injection Hp2 as <-. fold number R1 in Hev.
    pose proof (events_fault_last _ _ _ _ _ Hev E) as ->.
    pose proof (@events_before_fault _ _ _ _ Hev E) as Hb.
    rewrite Hm in Hb. pose proof Hok as Hok2. rewrite Hm in Hok2.
    apply exec_ok_app in Hok2. destruct Hok2 as [Hd Hc].
    rewrite events_app, Hd in Hb.
    destruct (discovery_ok_position _ _ Hd) as [Pt _].
    apply exec_ok_cons in Hc. destruct Hc as [F1 _].
    cbn [events] in Hb. rewrite F1, serve_reply, F1 in Hb.
    cbn [answer] in Hb. rewrite Pt in Hb.
    rewrite <- Hb. apply in_or_app. right. now left. }
  rewrite Hm in Hok, Ht, Hr. apply exec_ok_app in Hok. destruct Hok as [Hd Hc].
  rewrite exec_app, Hd in Ht, Hr.
  destruct (discovery_ok_stores _ _ Hd) as [Hts Hrs].
  destruct (discovery_ok_position _ _ Hd) as [Pt _].
  set (Rd := snd (exec (discovery_calls number R1) R1)) in *.
  apply exec_ok_cons in Hc. destruct Hc as [F1 _].
  cbn [exec snd] in Ht, Hr. rewrite F1 in Ht, Hr. cbn [snd] in Ht, Hr.
  rewrite serve_trunks, F1 in Ht. rewrite serve_rules, F1 in Hr.
  cbn [trunks_after rules_after] in Ht, Hr. rewrite Pt, Hts in Ht. rewrite Hrs in Hr.
  unfold R'. rewrite Ht, Hr. unfold R1.
  rewrite !connected_trunks, !connected_rules. split.
  - exists (new_trunk_id number (connected (remote w))).
    split; [reflexivity|]. split; [now right|].
    rewrite filter_app, filter_none.
    + cbn [filter app].
      now rewrite (proj2 (carries_new_trunk number _ number) eq_refl).
    + intros x Hx. destruct (kept_trunks_do_not_carry _ _ _ Hx) as [_ Hn].
      destruct (carries number x) eqn:C; [|reflexivity]. now apply carries_In in C.
  - intros x Hx.
    assert (Hcases :
              In x (filter (fun r0 => negb (Py.contains
                        (linked_rule_ids (conflicts number (inbound_trunks (remote w)))
                           (dispatch_rules (remote w)))
                        (sip_dispatch_rule_id r0))) (dispatch_rules (remote w))) \/
              exists rid,
                x = with_rule_id rid
                      (new_dispatch_rule (new_trunk_id number (connected (remote w))))).
    { destruct landed; [|now left]. apply in_app_or in Hx.
      destruct Hx as [Hx | [<- | []]]; [now left | right; eauto]. }
    destruct Hcases as [Hk | Hnew]; [left | now right].
    rewrite routes_linked. now apply kept_rules_not_linked.
Qed.

Lemma failed_rule_creation_keeps_new_trunk_witness :
  let w := Sample.failing_at 6
             (Sample.quiet [Sample.old_trunk] [Sample.a_rule "R1" ["ST_old"]]) in
  exists tid,
    filter (carries (VOBIZ_INBOUND_NUMBER Sample.g))
           (inbound_trunks (remote (snd (main Sample.g w))))
    = [with_trunk_id tid (new_trunk (VOBIZ_INBOUND_NUMBER Sample.g))].
Proof.
  intros w.
  destruct (@failed_rule_creation_keeps_new_trunk Sample.g w
              (firstn 6 (run_events Sample.g w))
              {| ev_call := CreateSIPDispatchRuleRequest (new_dispatch_rule "NEW_iiiii");
                 ev_reply := Fault |}
              [{| ev_call := Aclose; ev_reply := Done |}]
              (new_dispatch_rule "NEW_iiiii")
              eq_refl eq_refl eq_refl) as ((tid & _ & _ & H) & _).
  exists tid. exact H.
Defined.

(** X12 -- A trunk deletion that raises comes after the whole rule
    cascade: the trunk was a stored trunk carrying the number, every
    rule that referred to a conflicting trunk has already been deleted
    and is not restored, and nothing has been created, whether or not
    the service carried the failed deletion out. *)
Theorem failed_trunk_deletion_after_rules_gone g w pre e post tid :
  run_events g w = pre ++ e :: post ->
  ev_reply e = Fault ->
  ev_call e = DeleteSIPTrunkRequest tid ->
  let number := VOBIZ_INBOUND_NUMBER g in
  let R' := remote (snd (main g w)) in
  (exists t, In t (inbound_trunks (remote w)) /\ sip_trunk_id t = tid /\
             In number (numbers t)) /\
  (forall r, In r (dispatch_rules R') ->
             In r (dispatch_rules (remote w)) /\
             routes number (inbound_trunks (remote w)) r = false) /\
  (forall x, In x (inbound_trunks R') -> In x (inbound_trunks (remote w))).
Proof.
  intros H E Hkind number R'.
  destruct (run_until_fault g w pre e post H E)
    as (pre' & rest & landed & -> & Hplan & Hok & Ht & Hr);
    try (rewrite Hkind; discriminate).
  fold number in Hplan, Hok, Ht, Hr. rewrite Hkind in Hplan, Ht, Hr.
  cbn [trunks_after rules_after] in Ht, Hr.
  set (R1 := connected (remote w)) in *.
  replace (if landed then _ else _)
    with (dispatch_rules (snd (exec (map ev_call pre') R1))) in Hr
    by now destruct landed.
  set (tds := conflicts number (inbound_trunks (remote w))).
  assert (Htid : In tid tds).
  { assert (Hin : In (DeleteSIPTrunkRequest tid) (plan number R1))
      by (rewrite Hplan; apply in_or_app; right; now left).
    apply plan_deletions in Hin. destruct Hin as [Hin _].
    specialize (Hin _ eq_refl). unfold R1 in Hin.
    now rewrite connected_trunks in Hin. }
  assert (Htr : Py.truthy tds = true) by (destruct tds; [easy | reflexivity]).
  set (dels := linked_rule_ids tds (dispatch_rules (remote w))).
  set (front := ListSIPInboundTrunkRequest :: ListSIPDispatchRuleRequest
                  :: map DeleteSIPDispatchRuleRequest dels).
  assert (Hp : plan number R1
               = front ++ map DeleteSIPTrunkRequest tds ++ creation_calls number R1).
  { unfold plan, discovery_calls, cleanup_calls, R1.
    rewrite connected_trunks, connected_rules. fold tds dels. rewrite Htr.
    unfold front. cbn [app]. now rewrite <- app_assoc. }
  assert (Hfront : forall c, In c front -> forall id, c <> DeleteSIPTrunkRequest id).
  { intros c [<- | [<- | Hc]] id; try discriminate.
    apply in_map_iff in Hc. destruct Hc as (? & <- & _). discriminate. }
  rewrite Hp in Hplan. symmetry in Hplan.
  pose proof Hplan as Hplan'. apply split_past_left in Hplan'.
  2:{ intros Hin. now elim (Hfront _ Hin tid). }
  destruct Hplan' as [m Hm]. rewrite Hm, <- app_assoc in Hplan.
  apply app_inv_head in Hplan. apply split_in_left in Hplan.
  2:{ intros [C | [C | []]]; discriminate. }
  destruct Hplan as [m' Hdts].
  apply map_eq_app in Hdts. destruct Hdts as (t1 & t2 & Htds & Hm1 & Hm2).
  assert (Hnocreate : forall c, In c (map ev_call pre') ->
            (forall t, c <> CreateSIPInboundTrunkRequest t) /\
            (forall r, c <> CreateSIPDispatchRuleRequest r)).
  { intros c Hc. rewrite Hm in Hc. apply in_app_or in Hc.
    destruct Hc as [[<- | [<- | Hc]] | Hc]; try (split; intros; discriminate).
    - apply in_map_iff in Hc. destruct Hc as (? & <- & _). split; intros; discriminate.
    - rewrite <- Hm1 in Hc. apply in_map_iff in Hc.
      destruct Hc as (? & <- & _). split; intros; discriminate. }
  unfold R'. rewrite Ht, Hr. split; [|split].
  - apply conflicts_In in Htid. destruct Htid as (t & Hin & Hid & Hn).
    exists t. repeat split; assumption.
  - intros r Hin. rewrite routes_linked. fold tds.
    apply (@kept_rules_not_linked tds (dispatch_rules (remote w)) r).
    fold dels. rewrite Hm in Hok, Hin.
    apply exec_ok_app in Hok. destruct Hok as [Hf Hmok].
    rewrite exec_app, Hf in Hin.
    rewrite exec_no_rule_calls in Hin.
    2:{ intros c Hc. rewrite <- Hm1 in Hc. apply in_map_iff in Hc.
        destruct Hc as (? & <- & _). split; intros; discriminate. }
    unfold front in Hf, Hin.
    apply exec_ok_cons in Hf. destruct Hf as [F1 Hf].
    apply exec_ok_cons in Hf. destruct Hf as [F2 Hf].
    cbn [exec] in Hin. rewrite F1, F2 in Hin.
    destruct (exec_delete_rules _ _ Hf) as [_ Hrs]. rewrite Hrs in Hin.
    rewrite serve_rules, F2 in Hin. cbn [rules_after] in Hin.
    rewrite serve_rules, F1 in Hin. cbn [rules_after] in Hin.
    unfold R1 in Hin. now rewrite connected_rules in Hin.
  - intros x Hin. rewrite <- (connected_trunks (remote w)). fold R1.
    assert (Hin' : In x (inbound_trunks (snd (exec (map ev_call pre') R1)))).
    { destruct landed; [|exact Hin]. apply filter_In in Hin. now destruct Hin. }
    eapply exec_no_trunk_creation; [|exact Hin'].
    intros c Hc. now apply Hnocreate.
Qed.

Lemma failed_trunk_deletion_after_rules_gone_witness :
  let w := Sample.failing_at 4
             (Sample.quiet [Sample.old_trunk] [Sample.a_rule "R1" ["ST_old"]]) in
  (exists t, In t [Sample.old_trunk] /\ sip_trunk_id t = "ST_old") /\
  (forall r, In r (dispatch_rules (remote (snd (main Sample.g w)))) ->
             routes (VOBIZ_INBOUND_NUMBER Sample.g) [Sample.old_trunk] r = false).
Proof.
  intros w.
  destruct (@failed_trunk_deletion_after_rules_gone Sample.g w
              (firstn 4 (run_events Sample.g w))
              {| ev_call := DeleteSIPTrunkRequest "ST_old"; ev_reply := Fault |}
              [{| ev_call := Aclose; ev_reply := Done |}] "ST_old"
              eq_refl eq_refl eq_refl) as ((t & Hin & Hid & _) & Hr & _).
  split.
  - exists t. split; [exact Hin | exact Hid].
  - intros r Hx. exact (proj2 (Hr r Hx)).
Defined.

(** X13 -- [aclose] raising turns a completed reconciliation into a
    failed run: when every call before it returned and [aclose] raises,
    [main] raises the client's error although the new trunk is stored
    as the only trunk carrying the number and the new rule is stored. *)
Theorem aclose_fault_after_completion g w pre :
  run_events g w = pre ++ [{| ev_call := Aclose; ev_reply := Fault |}] ->
  Forall (fun e => ev_reply e <> Fault) pre ->
  let number := VOBIZ_INBOUND_NUMBER g in
  let R' := remote (snd (main g w)) in
  fst (main g w) = Raise ClientError /\
  exists tid rid,
    filter (carries number) (inbound_trunks R')
    = [with_trunk_id tid (new_trunk number)] /\
    In (with_rule_id rid (new_dispatch_rule tid)) (dispatch_rules R').
Proof.
  intros H Hall number R'.
  destruct (LIVEKIT_URL g) as [u|] eqn:U.
  2:{ rewrite (run_events_without_url g w U) in H.
      destruct pre as [|p [|q pre]]; discriminate. }
  destruct (faults (remote w) (List.length (history (remote w)))) eqn:F.
  { rewrite (run_events_without_client g w U F) in H.
    destruct pre as [|p [|q pre]]; discriminate. }
  rewrite (run_events_with_url g w U F) in H. fold number in H.
  rewrite app_comm_cons in H. apply app_inj_tail in H. destruct H as [<- Hrep].
  apply Forall_inv_tail in Hall.
  assert (Hok : fst (reconciled number (remote w)) = true).
  { destruct (fst (reconciled number (remote w))) eqn:Hok; [reflexivity|].
    exfalso. apply events_failed in Hok. destruct Hok as (pre & c & Ev).
    rewrite Ev in Hall. apply Forall_app in Hall. destruct Hall as [_ Hb].
    apply Forall_inv in Hb. now elim Hb. }
  injection Hrep as Hrep. rewrite serve_reply in Hrep.
  destruct (main_with_url g w U F) as [Hr Hv]. fold number in Hr, Hv.
  split.
  - rewrite Hv, Hok. destruct (faults _ _); [reflexivity|].
    now apply answer_not_Fault in Hrep.
  - unfold R'. rewrite Hr.
    destruct (released_stores number (remote w)) as [-> ->].
    destruct (reconciled_ok_stores _ _ Hok) as [-> ->].
    eexists _, _. split.
    + rewrite filter_app, filter_none.
      * cbn [filter app].
        now rewrite (proj2 (carries_new_trunk number _ number) eq_refl).
      * intros x Hx. destruct (kept_trunks_do_not_carry _ _ _ Hx) as [_ Hn].
        destruct (carries number x) eqn:C; [|reflexivity]. now apply carries_In in C.
    + apply in_or_app. right. now left.
Qed.

Lemma aclose_fault_after_completion_witness :
  let w := Sample.failing_at 4 (Sample.quiet [] []) in
  fst (main Sample.g w) = Raise ClientError /\
  List.length (inbound_trunks (remote (snd (main Sample.g w)))) = 1.
Proof.
  intros w.
  assert (Hall : Forall (fun e => ev_reply e <> Fault) (firstn 4 (run_events Sample.g w))).
  { vm_compute. repeat constructor; discriminate. }
  destruct (@aclose_fault_after_completion Sample.g w
              (firstn 4 (run_events Sample.g w)) eq_refl Hall) as [H _].
  split; [exact H | vm_compute; reflexivity].
Defined.

(** ** The project identifier (line 20) *)

Lemma prefix_cons_false old a c s :
  a <> c -> String.prefix (String a old) (String c s) = false.
Proof. intros N. simpl. destruct (ascii_dec a c); [contradiction | reflexivity]. Qed.

Lemma prefix_dot_dot s : String.prefix "." (String "." s) = true.
Proof. cbn. destruct (ascii_dec "." "."); [now destruct s | contradiction]. Qed.

Lemma occurs_cons_false c a s :
  occurs c (String a s) = false -> a <> c /\ occurs c s = false.
Proof.
  simpl. intros H. apply orb_false_iff in H. destruct H as [H1 H2].
  split; [|assumption]. now apply Ascii.eqb_neq.
Qed.

(** Neither scheme starts inside a label that has no colon and either
    ends the string or is followed by a dot. *)
Lemma scheme_does_not_start_in_label old a p tail :
  old = "wss://" \/ old = "ws://" ->
  tail = "" \/ (exists rest, tail = String "." rest) ->
  occurs ":" (String a p) = false ->
  String.prefix old (String a p ++ tail) = false.
Proof.
  intros Hold Htail Hc.
  apply occurs_cons_false in Hc. destruct Hc as [Na Hc].
  assert (Hend : forall c o, c <> "."%char ->
                             String.prefix (String c o) tail = false).
  { intros c o N. destruct Htail as [-> | [rest ->]];
      [reflexivity | now apply prefix_cons_false]. }
  destruct Hold as [-> | ->]; cbn [append].
  - destruct (ascii_dec "w" a) as [<- | N]; [|now apply prefix_cons_false].
    cbn [String.prefix]. destruct (ascii_dec "w" "w"); [|reflexivity].
    destruct p as [|b p]; cbn [append]; [now apply Hend|].
    apply occurs_cons_false in Hc. destruct Hc as [Nb Hc].
    destruct (ascii_dec "s" b) as [<- | N]; [|now apply prefix_cons_false].
    cbn [String.prefix]. destruct (ascii_dec "s" "s"); [|reflexivity].
    destruct p as [|c p]; cbn [append]; [now apply Hend|].
    apply occurs_cons_false in Hc. destruct Hc as [Nc Hc].
    destruct (ascii_dec "s" c) as [<- | N]; [|now apply prefix_cons_false].
    cbn [String.prefix]. destruct (ascii_dec "s" "s"); [|reflexivity].
    destruct p as [|d p]; cbn [append]; [now apply Hend|].
    apply occurs_cons_false in Hc. destruct Hc as [Nd Hc].
    apply prefix_cons_false. congruence.
  - destruct (ascii_dec "w" a) as [<- | N]; [|now apply prefix_cons_false].
    cbn [String.prefix]. destruct (ascii_dec "w" "w"); [|reflexivity].
    destruct p as [|b p]; cbn [append]; [now apply Hend|].
    apply occurs_cons_false in Hc. destruct Hc as [Nb Hc].
    destruct (ascii_dec "s" b) as [<- | N]; [|now apply prefix_cons_false].
    cbn [String.prefix]. destruct (ascii_dec "s" "s"); [|reflexivity].
    destruct p as [|c p]; cbn [append]; [now apply Hend|].
    apply occurs_cons_false in Hc. destruct Hc as [Nc Hc].
    apply prefix_cons_false. congruence.
Qed.

Lemma prefix_append old t : String.prefix old (old ++ t) = true.
Proof.
  induction old as [|a old IH]; cbn [append].
  - now destruct t.
  - cbn [String.prefix]. destruct (ascii_dec a a); [exact IH | contradiction].
Qed.

Lemma replace_from_skip old new o t :
  Py.replace_from old new (String.length o) (o ++ t) = Py.replace_from old new 0 t.
Proof.
  induction o as [|a o IH]; cbn [append String.length].
  - now destruct t.
  - cbn [Py.replace_from]. exact IH.
Qed.

(** An occurrence at the front is removed. *)
Lemma replace_strip_front a old t :
  Py.replace (String a old ++ t) (String a old) "" = Py.replace t (String a old) "".
Proof.
  unfold Py.replace. cbn [append Py.replace_from].
  pose proof (prefix_append (String a old) t) as Hp. cbn [append] in Hp.
  rewrite Hp. cbn [String.length]. rewrite Nat.sub_1_r. cbn [Nat.pred append].
  apply replace_from_skip.
Qed.

Lemma replace_scheme_in_label old p tail :
  old = "wss://" \/ old = "ws://" ->
  tail = "" \/ (exists rest, tail = String "." rest) ->
  occurs ":" p = false ->
  Py.replace (p ++ tail) old "" = (p ++ Py.replace tail old "")%string.
Proof.
  intros Hold Htail. unfold Py.replace.
  induction p as [|a p IH]; intros Hc; [reflexivity|].
  pose proof (scheme_does_not_start_in_label a p Hold Htail Hc) as Hp.
  cbn [append] in Hp |- *. cbn [Py.replace_from].
  rewrite Hp. f_equal. apply IH.
  now apply occurs_cons_false in Hc.
Qed.

(** Removing a scheme leaves the end of a label the end of a label. *)
Lemma replace_label_end old tail :
  old = "wss://" \/ old = "ws://" ->
  tail = "" \/ (exists rest, tail = String "." rest) ->
  Py.replace tail old "" = "" \/
  exists rest, Py.replace tail old "" = String "." rest.
Proof.
  intros Hold [-> | [rest ->]]; [now left | right].
  exists (Py.replace rest old ""). unfold Py.replace. cbn [Py.replace_from].
  replace (String.prefix old (String "." rest)) with false; [reflexivity|].
  symmetry. destruct Hold as [-> | ->]; now apply prefix_cons_false.
Qed.

Lemma split_label p tail :
  occurs "." p = false ->
  tail = "" \/ (exists rest, tail = String "." rest) ->
  exists xs, Py.split (p ++ tail) "." = p :: xs.
Proof.
  unfold Py.split. intros Hd Htail. induction p as [|a p IH].
  - cbn [append]. destruct Htail as [-> | [rest ->]].
    + now exists [].
    + cbn [Py.split_from]. rewrite prefix_dot_dot. eexists. reflexivity.
  - apply occurs_cons_false in Hd. destruct Hd as [Na Hd].
    cbn [append Py.split_from].
    rewrite prefix_cons_false by congruence.
    destruct (IH Hd) as [xs ->]. now exists xs.
Qed.

(** X14 -- For a URL made of an optional [wss://] or [ws://] scheme and
    a host whose first label contains neither a dot nor a colon, the
    derived project identifier is that first label, whether the host is
    that label alone or the label is followed by a dot and anything. *)
Theorem project_id_is_first_label (scheme label tail : string) w :
  scheme = "wss://" \/ scheme = "ws://" \/ scheme = "" ->
  tail = "" \/ (exists rest, tail = String "." rest) ->
  occurs "." label = false ->
  occurs ":" label = false ->
  derive_project_id (Some (scheme ++ label ++ tail)%string) w
  = (Ok label, w).
Proof.
  intros Hs Htail Hd Hc. unfold derive_project_id.
  assert (Htail1 := replace_label_end (or_introl eq_refl) Htail).
  assert (Htail2 := replace_label_end (or_intror eq_refl) Htail1).
  assert (E : Py.replace (Py.replace (scheme ++ label ++ tail)%string "wss://" "")
                         "ws://" ""
              = (label ++ Py.replace (Py.replace tail "wss://" "") "ws://" "")%string).
  { pose proof (replace_scheme_in_label label (or_introl eq_refl) Htail Hc) as E1.
    pose proof (replace_scheme_in_label label (or_intror eq_refl) Htail1 Hc) as E2.
    destruct Hs as [-> | [-> | ->]].
    - rewrite replace_strip_front. now rewrite E1, E2.
    - change (Py.replace ("ws://" ++ label ++ tail) "wss://" "")
        with ("ws://" ++ Py.replace (label ++ tail) "wss://" "")%string.
      rewrite E1, replace_strip_front. exact E2.
    - change ("" ++ label ++ tail)%string with (label ++ tail)%string.
      now rewrite E1, E2. }
  rewrite E. destruct (split_label label Hd Htail2) as [xs ->]. reflexivity.
Qed.

Lemma project_id_is_first_label_witness :
  derive_project_id (Some "ws://localhost") (Sample.quiet [] [])
  = (Ok "localhost", Sample.quiet [] []) /\
  derive_project_id (Some "wss://my-proj_7.livekit.cloud") (Sample.quiet [] [])
  = (Ok "my-proj_7", Sample.quiet [] []).
Proof.
  split.
  - apply (@project_id_is_first_label "ws://" "localhost" "").
    + right. left. reflexivity.
    + left. reflexivity.
    + reflexivity.
    + reflexivity.
  - apply (@project_id_is_first_label "wss://" "my-proj_7" ".livekit.cloud").
    + left. reflexivity.
    + right. exists "livekit.cloud". reflexivity.
    + reflexivity.
    + reflexivity.
Defined.

Lemma split_head_has_no_dot s :
  exists x xs, Py.split s "." = x :: xs /\ occurs "." x = false.
Proof.
  unfold Py.split. induction s as [|a s IH].
  - exists EmptyString, []. split; reflexivity.
  - cbn [Py.split_from]. destruct (ascii_dec "." a) as [<- | N].
    + exists EmptyString. eexists. split; [|reflexivity].
      now rewrite prefix_dot_dot.
    + rewrite prefix_cons_false by assumption.
      destruct IH as (x & xs & -> & Hx).
      exists (String a x), xs. split; [reflexivity|].
      simpl. rewrite Hx. apply orb_false_iff. split; [|reflexivity].
      apply Ascii.eqb_neq. congruence.
Qed.

(** X15 -- A set URL never makes the derivation raise, however
    malformed: for every string the derivation returns, without any
    effect, an identifier that contains no dot. *)
Theorem derivation_never_raises_on_a_string url w :
  exists project_id,
    derive_project_id (Some url) w = (Ok project_id, w) /\
    occurs "." project_id = false.
Proof.
  unfold derive_project_id.
  destruct (split_head_has_no_dot
              (Py.replace (Py.replace url "wss://" "") "ws://" ""))
    as (x & xs & -> & Hx).
  exists x. split; [reflexivity | exact Hx].
Qed.

(** ** The report (lines 101-116) *)

Lemma bind_ok_inv {A B} (m : M A) (k : A -> M B) w b w' :
  bind m k w = (Ok b, w') ->
  exists a w1, m w = (Ok a, w1) /\ k a w1 = (Ok b, w').
Proof.
  unfold bind. destruct (m w) as [[a | e] w1]; intros H; [eauto | discriminate].
Qed.

Lemma runs_ok_inv {A} (m : M A) w cs v a w' :
  runs m w cs v -> m w = (Ok a, w') ->
  a = v /\ fst (exec cs (remote w)) = true /\ remote w' = snd (exec cs (remote w)).
Proof.
  intros [Hr Hv] E. rewrite E in Hr, Hv. cbn [fst snd] in Hr, Hv.
  destruct (fst (exec cs (remote w))); [|discriminate].
  injection Hv as ->. auto.
Qed.

Lemma print_inv s w r w' :
  print s w = (r, w') -> remote w' = remote w /\ stdout w' = stdout w ++ [s].
Proof. unfold print. intros H. injection H as _ <-. split; reflexivity. Qed.

Lemma reconcile_ok_output number sip_endpoint w w' :
  reconcile number sip_endpoint w = (Ok tt, w') ->
  exists lines,
    stdout w'
    = lines ++ [summary_text (new_trunk_id number (remote w)) number
                             (new_rule_id number (remote w)) sip_endpoint].
Proof.
  unfold reconcile. intros H.
  apply bind_ok_inv in H. destruct H as (u1 & w1 & E1 & H).
  apply bind_ok_inv in H. destruct H as (trunks & w2 & E2 & H).
  apply bind_ok_inv in H. destruct H as (tds & w3 & E3 & H).
  apply bind_ok_inv in H. destruct H as (u4 & w4 & E4 & H).
  apply bind_ok_inv in H. destruct H as (u5 & w5 & E5 & H).
  apply bind_ok_inv in H. destruct H as (trunk & w6 & E6 & H).
  apply bind_ok_inv in H. destruct H as (u7 & w7 & E7 & H).
  apply bind_ok_inv in H. destruct H as (u8 & w8 & E8 & H).
  apply bind_ok_inv in H. destruct H as (result & w9 & E9 & H).
  apply bind_ok_inv in H. destruct H as (u10 & w10 & E10 & H).
  apply bind_ok_inv in H. destruct H as (u11 & w11 & E11 & H).
  apply bind_ok_inv in H. destruct H as (u12 & w12 & E12 & H).
  apply bind_ok_inv in H. destruct H as (u13 & w13 & E13 & H).
  apply print_inv in E1. destruct E1 as [R1 _].
  destruct (runs_ok_inv (runs_list_sip_inbound_trunk w1) E2) as (-> & Ok2 & R2).
  destruct (runs_ok_inv (runs_find_conflicts number _ w2) E3) as (-> & _ & R3).
  destruct (runs_ok_inv (runs_resolve_conflicts _ w3) E4) as (_ & Ok4 & R4).
  apply print_inv in E5. destruct E5 as [R5 _].
  destruct (runs_ok_inv (runs_create_sip_inbound_trunk _ w5) E6) as (-> & Ok6 & R6).
  apply print_inv in E7. destruct E7 as [R7 _].
  apply print_inv in E8. destruct E8 as [R8 _].
  destruct (runs_ok_inv (runs_create_sip_dispatch_rule _ w8) E9) as (-> & _ & _).
  apply print_inv in H. destruct H as [_ Hout].
  exists (stdout w13). rewrite Hout. f_equal. f_equal.
  cbn [sip_trunk_id sip_dispatch_rule_id with_trunk_id with_rule_id].
  cbn [exec remote] in R2, R3, R6, Ok2, Ok6.
  rewrite R1 in *.
  destruct (faults (remote w) (List.length (history (remote w)))) eqn:F1;
    [discriminate|].
  cbn [snd] in R2, R3.
  destruct (serve_list_trunks_stores (remote w)) as [_ Hrules].
  assert (Hd : remote w5 = snd (exec (discovery_calls number (remote w)) (remote w))
               /\ fst (exec (discovery_calls number (remote w)) (remote w)) = true).
  { unfold discovery_calls. cbn [exec]. rewrite F1.
    rewrite R5, R4, R3, R2 in *. rewrite Hrules in Ok4 |- *. auto. }
  destruct Hd as [Hd Hdok].
  destruct (discovery_ok_position _ _ Hdok) as [Pt Pr].
  rewrite <- Hd in Pt, Pr. rewrite Pt.
  destruct (faults (remote w5) (List.length (history (remote w5)))) eqn:F6;
    [discriminate|].
  cbn [snd] in R6.
  rewrite R8, R7, R6, serve_assigned, serve_history, length_app, Nat.add_1_r, Pr.
  reflexivity.
Qed.

Lemma derive_project_id_pure url w w0 :
  fst (derive_project_id url w) = fst (derive_project_id url w0) /\
  snd (derive_project_id url w) = w.
Proof.
  unfold derive_project_id. destruct url as [u|]; [|split; reflexivity].
  destruct (Py.split _ _); split; reflexivity.
Qed.

Lemma main_enters_try_at g w u :
  LIVEKIT_URL g = Some u ->
  faults (remote w) (List.length (history (remote w))) = false ->
  exists project_id w1,
    fst (derive_project_id (LIVEKIT_URL g) w) = Ok project_id /\
    remote w1 = connected (remote w) /\
    main g w
    = try_finally
        (reconcile (VOBIZ_INBOUND_NUMBER g) (project_id ++ ".sip.livekit.cloud"))
        aclose w1.
Proof.
  intros U F. unfold main. rewrite U. unfold bind at 1.
  destruct (runs_LiveKitAPI u w) as [Hr Hv].
  generalize dependent (LiveKitAPI (Some u) w). intros [res0 w0] Hr Hv.
  simpl in Hr, Hv. rewrite F in Hr, Hv. simpl in Hr, Hv. subst res0.
  unfold bind at 1.
  destruct (derive_project_id_some u w0) as [project_id Hd]. rewrite Hd.
  rewrite !bind_print.
  exists project_id. eexists. split; [|split; [|reflexivity]].
  - destruct (derive_project_id_pure (Some u) w w0) as [-> _]. now rewrite Hd.
  - exact Hr.
Qed.

Lemma try_finally_ok_inv {A} (body : M A) (fin : M unit) w a w' :
  try_finally body fin w = (Ok a, w') ->
  exists w1, body w = (Ok a, w1) /\ fin w1 = (Ok tt, w').
Proof.
  unfold try_finally. destruct (body w) as [res w1].
  destruct (fin w1) as [[[] | e] w2] eqn:Ef; intros H; [|discriminate].
  injection H as -> ->. exists w1. split; [reflexivity | exact Ef].
Qed.

Lemma aclose_stdout w : stdout (snd (aclose w)) = stdout w.
Proof.
  unfold aclose, bind. pose proof (await_stdout Aclose w) as H.
  destruct (await Aclose w) as [[rep | e] w1]; exact H.
Qed.

(** X16 -- The closing summary names what was stored: when a run
    returns, the last line it printed is the summary giving the
    identifier under which the new trunk is stored, the target number,
    the identifier under which the new rule (referring to that trunk)
    is stored, the agent name, and the SIP endpoint made of the derived
    project identifier followed by [.sip.livekit.cloud]. *)
Theorem summary_reports_stored_pair g w :
  fst (main g w) = Ok tt ->
  let number := VOBIZ_INBOUND_NUMBER g in
  let w' := snd (main g w) in
  exists project_id tid rid,
    fst (derive_project_id (LIVEKIT_URL g) w) = Ok project_id /\
    In (with_trunk_id tid (new_trunk number)) (inbound_trunks (remote w')) /\
    In (with_rule_id rid (new_dispatch_rule tid)) (dispatch_rules (remote w')) /\
    last (stdout w') ""
    = summary_text tid number rid (project_id ++ ".sip.livekit.cloud").
Proof.
  intros H number w'.
  destruct (main_ok g w H) as (u & U & F & _).
  destruct (main_enters_try_at g w U F) as (pid & w1 & Hpid & Hw1 & Hmain).
  destruct (main_ok_stores g w H) as [Ht Hr]. fold number w' in Ht, Hr.
  exists pid, (new_trunk_id number (connected (remote w))),
         (new_rule_id number (connected (remote w))).
  split; [exact Hpid|]. split; [|split].
  - rewrite Ht. apply in_or_app. right. now left.
  - rewrite Hr. apply in_or_app. right. now left.
  - unfold w'. destruct (main g w) as [res wf] eqn:Em. cbn [fst snd] in *. subst res.
    symmetry in Hmain. apply try_finally_ok_inv in Hmain.
    destruct Hmain as (w2 & Hbody & Hfin).
    apply reconcile_ok_output in Hbody. destruct Hbody as [lines Hout].
    pose proof (aclose_stdout w2) as Hs. rewrite Hfin in Hs. cbn [snd] in Hs.
    rewrite Hs, Hout, Hw1. fold number. apply last_last.
Qed.

Lemma summary_reports_stored_pair_witness :
  let w := Sample.quiet [Sample.old_trunk] [Sample.a_rule "R1" ["ST_old"]] in
  exists tid rid,
    last (stdout (snd (main Sample.g w))) ""
    = summary_text tid (VOBIZ_INBOUND_NUMBER Sample.g) rid "demo-x1.sip.livekit.cloud".
Proof.
  intros w.
  destruct (@summary_reports_stored_pair Sample.g w eq_refl)
    as (pid & tid & rid & Hpid & _ & _ & H).
  injection Hpid as <-. exists tid, rid. exact H.
Defined.

(** ** The completion banner *)

Lemma says_ret {A} (a : A) : says (ret a).
Proof. intros w. exists []. split; [now rewrite app_nil_r | constructor]. Qed.

Lemma says_raise {A} e : says (@raise A e).
Proof. intros w. exists []. split; [now rewrite app_nil_r | constructor]. Qed.

Lemma says_print s : not_banner s -> says (print s).
Proof. intros H w. exists [s]. split; [reflexivity | now constructor]. Qed.

Lemma says_await c : says (await c).
Proof.
  intros w. exists []. rewrite await_stdout. split; [now rewrite app_nil_r | constructor].
Qed.

Lemma says_bind {A B} (m : M A) (k : A -> M B) :
  says m -> (forall a, says (k a)) -> says (bind m k).
Proof.
  intros Hm Hk w. unfold bind. destruct (Hm w) as (l1 & E1 & P1).
  destruct (m w) as [[a | e] w1]; cbn [snd] in *.
  - destruct (Hk a w1) as (l2 & E2 & P2). exists (l1 ++ l2).
    rewrite E2, E1, app_assoc. split; [reflexivity | now apply Forall_app].
  - now exists l1.
Qed.

Lemma says_for_in {A S} (xs : list A) (body : A -> S -> M S) s :
  (forall x s', says (body x s')) -> says (for_in xs body s).
Proof.
  intros Hb. revert s. induction xs as [|x xs IH]; intros s; cbn [for_in].
  - apply says_ret.
  - apply says_bind; [apply Hb | intros s'; apply IH].
Qed.

Lemma says_on_raise_bind {A B} (m : M A) (k : A -> M B) :
  says m -> (forall a, says_on_raise (k a)) -> says_on_raise (bind m k).
Proof.
  intros Hm Hk w e. unfold bind. destruct (Hm w) as (l1 & E1 & P1).
  destruct (m w) as [[a | e'] w1]; cbn [fst snd] in *; intros Hr.
  - destruct (Hk a w1 e Hr) as (l2 & E2 & P2). exists (l1 ++ l2).
    rewrite E2, E1, app_assoc. split; [reflexivity | now apply Forall_app].
  - now exists l1.
Qed.

Ltac not_banner_line :=
  unfold not_banner, Py.newline; cbn; discriminate.

Lemma says_list_sip_inbound_trunk : says list_sip_inbound_trunk.
Proof.
  apply says_bind; [apply says_await|].
  intros []; (apply says_ret || apply says_raise).
Qed.

Lemma says_list_sip_dispatch_rule : says list_sip_dispatch_rule.
Proof.
  apply says_bind; [apply says_await|].
  intros []; (apply says_ret || apply says_raise).
Qed.

Lemma says_create_sip_inbound_trunk t : says (create_sip_inbound_trunk t).
Proof.
  apply says_bind; [apply says_await|].
  intros []; (apply says_ret || apply says_raise).
Qed.

Lemma says_create_sip_dispatch_rule r : says (create_sip_dispatch_rule r).
Proof.
  apply says_bind; [apply says_await|].
  intros []; (apply says_ret || apply says_raise).
Qed.

Lemma says_find_conflicts number items : says (find_conflicts number items).
Proof.
  apply says_for_in. intros t acc. destruct (uses_number number t).
  - apply says_bind; [apply says_print; not_banner_line | intros; apply says_ret].
  - apply says_ret.
Qed.

Lemma says_resolve_conflicts tds : says (resolve_conflicts tds).
Proof.
  unfold resolve_conflicts. destruct (Py.truthy tds).
  - apply says_bind; [apply says_print; not_banner_line | intros _].
    apply says_bind; [apply says_list_sip_dispatch_rule | intros rules].
    apply says_bind.
    { apply says_for_in. intros r _. destruct (linked tds r).
      - apply says_bind; [apply says_print; not_banner_line | intros _].
        apply says_bind; [apply says_await | intros; apply says_ret].
      - apply says_ret. }
    intros _. apply says_bind.
    { apply says_for_in. intros id _.
      apply says_bind; [apply says_print; not_banner_line | intros _].
      apply says_bind; [apply says_await | intros; apply says_ret]. }
    intros _. apply says_print. not_banner_line.
  - apply says_print. not_banner_line.
Qed.

(** A body that raises stopped before the banner. *)
Lemma says_on_raise_reconcile number sip_endpoint :
  says_on_raise (reconcile number sip_endpoint).
Proof.
  unfold reconcile.
  apply says_on_raise_bind; [apply says_print; not_banner_line | intros _].
  apply says_on_raise_bind; [apply says_list_sip_inbound_trunk | intros trunks].
  apply says_on_raise_bind; [apply says_find_conflicts | intros tds].
  apply says_on_raise_bind; [apply says_resolve_conflicts | intros _].
  apply says_on_raise_bind; [apply says_print; not_banner_line | intros _].
  apply says_on_raise_bind; [apply says_create_sip_inbound_trunk | intros trunk].
  apply says_on_raise_bind; [apply says_print; not_banner_line | intros _].
  apply says_on_raise_bind; [apply says_print; not_banner_line | intros _].
  apply says_on_raise_bind; [apply says_create_sip_dispatch_rule | intros result].
  intros w e Hr. rewrite !bind_print in Hr. discriminate Hr.
Qed.

Lemma says_step {A} (m : M A) w a w1 :
  says m -> m w = (Ok a, w1) -> exists lines, stdout w1 = stdout w ++ lines.
Proof.
  intros Hm E. destruct (Hm w) as (l & Hl & _). rewrite E in Hl. now exists l.
Qed.

Lemma print_step s w u w1 :
  print s w = (Ok u, w1) -> stdout w1 = stdout w ++ [s].
Proof. intros E. now apply print_inv in E. Qed.

(** A body that returns has printed the banner. *)
Lemma reconcile_ok_banner number sip_endpoint w w' :
  reconcile number sip_endpoint w = (Ok tt, w') ->
  exists lines, stdout w' = stdout w ++ lines /\ In "SETUP COMPLETE" lines.
Proof.
  unfold reconcile. intros H.
  apply bind_ok_inv in H. destruct H as (u1 & w1 & E1 & H).
  apply bind_ok_inv in H. destruct H as (trunks & w2 & E2 & H).
  apply bind_ok_inv in H. destruct H as (tds & w3 & E3 & H).
  apply bind_ok_inv in H. destruct H as (u4 & w4 & E4 & H).
  apply bind_ok_inv in H. destruct H as (u5 & w5 & E5 & H).
  apply bind_ok_inv in H. destruct H as (trunk & w6 & E6 & H).
  apply bind_ok_inv in H. destruct H as (u7 & w7 & E7 & H).
  apply bind_ok_inv in H. destruct H as (u8 & w8 & E8 & H).
  apply bind_ok_inv in H. destruct H as (result & w9 & E9 & H).
  apply bind_ok_inv in H. destruct H as (u10 & w10 & E10 & H).
  apply bind_ok_inv in H. destruct H as (u11 & w11 & E11 & H).
  apply bind_ok_inv in H. destruct H as (u12 & w12 & E12 & H).
  apply bind_ok_inv in H. destruct H as (u13 & w13 & E13 & H).
  apply print_step in E1, E5, E7, E8, E10, E11, E12, E13, H.
  destruct (@says_step _ _ _ _ _ says_list_sip_inbound_trunk E2) as [l2 S2].
  destruct (@says_step _ _ _ _ _ (says_find_conflicts number trunks) E3) as [l3 S3].
  destruct (@says_step _ _ _ _ _ (says_resolve_conflicts tds) E4) as [l4 S4].
  destruct (@says_step _ _ _ _ _ (says_create_sip_inbound_trunk _) E6) as [l6 S6].
  destruct (@says_step _ _ _ _ _ (says_create_sip_dispatch_rule _) E9) as [l9 S9].
  eexists. split.
  - rewrite H, E13, E12, E11, E10, S9, E8, E7, S6, E5, S4, S3, S2, E1.
    rewrite <- !app_assoc. reflexivity.
  - repeat first [ apply in_or_app; left; now left | apply in_or_app; right ].
Qed.

Lemma try_finally_aclose_stdout {A} (body : M A) w :
  stdout (snd (try_finally body aclose w)) = stdout (snd (body w)) /\
  (fst (try_finally body aclose w) = fst (body w) \/
   fst (try_finally body aclose w) = Raise ClientError).
Proof.
  unfold try_finally. destruct (body w) as [res w1]. cbn [fst snd].
  pose proof (aclose_stdout w1) as Hs.
  destruct (runs_aclose w1) as [_ Hv].
  destruct (aclose w1) as [[u | e] w2]; cbn [fst snd] in *.
  - auto.
  - split; [assumption|]. right. destruct (fst (exec _ _)); congruence.
Qed.

Lemma LiveKitAPI_stdout url w : stdout (snd (LiveKitAPI url w)) = stdout w.
Proof.
  destruct url as [u|]; [|reflexivity].
  unfold LiveKitAPI, bind. pose proof (await_stdout LiveKitAPI_init w) as H.
  destruct (await LiveKitAPI_init w) as [[rep | e] w1]; exact H.
Qed.

Lemma main_enters_try_after_header g w u :
  LIVEKIT_URL g = Some u ->
  faults (remote w) (List.length (history (remote w))) = false ->
  exists sip_endpoint w1 header,
    remote w1 = connected (remote w) /\
    stdout w1 = stdout w ++ header /\
    Forall not_banner header /\
    main g w = try_finally (reconcile (VOBIZ_INBOUND_NUMBER g) sip_endpoint) aclose w1.
Proof.
  intros U F. unfold main. rewrite U. unfold bind at 1.
  destruct (runs_LiveKitAPI u w) as [Hr Hv].
  pose proof (LiveKitAPI_stdout (Some u) w) as Hs.
  generalize dependent (LiveKitAPI (Some u) w). intros [res0 w0] Hr Hv Hs.
  simpl in Hr, Hv, Hs. rewrite F in Hr, Hv. simpl in Hr, Hv. subst res0.
  unfold bind at 1.
  destruct (derive_project_id_some u w0) as [project_id Hd]. rewrite Hd.
  rewrite !bind_print.
  match goal with
  | |- context [try_finally (reconcile _ ?ep) aclose ?w1] => exists ep, w1
  end.
  eexists. split; [exact Hr|]. split; [|split; [|reflexivity]].
  - cbn [stdout]. rewrite Hs, <- !app_assoc. cbn [app]. reflexivity.
  - repeat constructor; not_banner_line.
Qed.

Lemma rule_creation_is_last number R pre e post r :
  events (plan number R) R = pre ++ e :: post ->
  ev_call e = CreateSIPDispatchRuleRequest r ->
  post = [].
Proof.
  intros Hev Hc.
  destruct (events_calls (plan number R) R) as [rest Hrest].
  rewrite Hev, map_app in Hrest. cbn [map] in Hrest. rewrite Hc in Hrest.
  rewrite <- app_assoc in Hrest. cbn [app] in Hrest.
  unfold plan in Hrest at 1. symmetry in Hrest. pose proof Hrest as Hrest'.
  apply split_past_left in Hrest'.
  2:{ intros Hin. apply discovery_has_no_creation in Hin.
      destruct Hin as [_ Hin]. now elim (Hin r). }
  destruct Hrest' as [m Hm]. rewrite Hm, <- app_assoc in Hrest.
  apply app_inv_head in Hrest. unfold creation_calls in Hrest.
  destruct m as [|c1 [|c2 m]]; cbn [app] in Hrest.
  - injection Hrest as Hrest _. discriminate.
  - injection Hrest as _ _ Hrest.
    apply app_eq_nil in Hrest. destruct Hrest as [Hrest _].
    now destruct post.
  - injection Hrest as _ _ Hrest. now destruct m.
Qed.


Lemma rule_creation_returned number R r r' :
  In {| ev_call := CreateSIPDispatchRuleRequest r; ev_reply := RuleCreated r' |}
     (events (plan number R) R) ->
  fst (exec (plan number R) R) = true.
Proof.
  intros Hin. apply in_split in Hin. destruct Hin as (pre & post & Hev).
  pose proof (rule_creation_is_last _ _ _ Hev eq_refl) as ->.
  destruct (fst (exec (plan number R) R)) eqn:Hok; [reflexivity|].
  apply events_failed in Hok. destruct Hok as (pre2 & c & E).
  rewrite E in Hev. apply app_inj_tail in Hev. destruct Hev as [_ Hev].
  discriminate.
Qed.

Lemma events_plan_ok number R :
  fst (exec (plan number R) R) = true ->
  exists r r',
    In {| ev_call := CreateSIPDispatchRuleRequest r; ev_reply := RuleCreated r' |}
       (events (plan number R) R).
Proof.
  intros Hok. unfold plan in *. apply exec_ok_app in Hok. destruct Hok as [Hd Hc].
  rewrite events_app, Hd. unfold creation_calls in *.
  apply exec_ok_cons in Hc. destruct Hc as [F1 Hc].
  apply exec_ok_cons in Hc. destruct Hc as [F2 _].
  cbn [events]. rewrite F1, F2, !serve_reply, F1, F2. cbn [answer].
  eexists _, _. apply in_or_app. right. right. left. reflexivity.
Qed.

(** X17 -- The banner is honest about the body of the [try]: a run
    prints [SETUP COMPLETE] exactly when its create-rule call returned,
    that is, when the listing, every deletion and both creations went
    through; a run cut short never prints it. *)
Theorem banner_iff_rule_created g w :
  In "SETUP COMPLETE" (run_output g w) <->
  exists r r',
    In {| ev_call := CreateSIPDispatchRuleRequest r; ev_reply := RuleCreated r' |}
       (run_events g w).
Proof.
  unfold run_output.
  destruct (LIVEKIT_URL g) as [u|] eqn:U.
  2:{ rewrite (run_events_without_url g w U), (main_without_url g w U).
      cbn [snd stdout]. rewrite skipn_all. split; [intros [] |].
      intros (r & r' & [C | []]). discriminate. }
  destruct (faults (remote w) (List.length (history (remote w)))) eqn:F.
  { rewrite (run_events_without_client g w U F), (main_without_client g w U F).
    cbn [snd stdout]. rewrite skipn_all. split; [intros [] |].
    intros (r & r' & [C | []]). discriminate. }
  destruct (main_enters_try_after_header g w U F)
    as (ep & w1 & header & Hw1 & Hout & Hhead & ->).
  rewrite (run_events_with_url g w U F).
  set (number := VOBIZ_INBOUND_NUMBER g). set (R1 := connected (remote w)).
  destruct (try_finally_aclose_stdout (reconcile number ep) w1) as [-> _].
  destruct (runs_reconcile number ep w1) as [_ Hv]. rewrite Hw1 in Hv. fold R1 in Hv.
  destruct (fst (exec (plan number R1) R1)) eqn:Hok.
  - split.
    + intros _. destruct (events_plan_ok _ _ Hok) as (r & r' & Hin).
      exists r, r'. right. apply in_or_app. now left.
    + intros _. destruct (reconcile number ep w1) as [res w2] eqn:E.
      cbn [fst snd] in *. subst res.
      apply reconcile_ok_banner in E. destruct E as (l & -> & Hin).
      rewrite Hout, <- app_assoc, skipn_length_app.
      apply in_or_app. now right.
  - split.
    + intros Hin. exfalso.
      destruct (says_on_raise_reconcile number ep w1 Hv) as (l & Hl & Hclean).
      rewrite Hl, Hout, <- app_assoc, skipn_length_app in Hin.
      apply in_app_or in Hin. destruct Hin as [Hin | Hin].
      * now apply (proj1 (Forall_forall _ _) Hhead _ Hin).
      * now apply (proj1 (Forall_forall _ _) Hclean _ Hin).
    + intros (r & r' & Hin). exfalso.
      destruct Hin as [C | Hin]; [discriminate|].
      apply in_app_or in Hin. destruct Hin as [Hin | [C | []]]; [|discriminate].
      apply rule_creation_returned in Hin. congruence.
Qed.

Lemma banner_iff_rule_created_witness :
  let w := Sample.quiet [Sample.old_trunk] [Sample.a_rule "R1" ["ST_old"]] in
  In "SETUP COMPLETE" (run_output Sample.g w) /\
  ~ In "SETUP COMPLETE" (run_output Sample.g (Sample.failing_at 6 w)).
Proof.
  intros w. split.
  - apply (proj2 (@banner_iff_rule_created Sample.g w)).
    eexists _, _. vm_compute. do 6 right. left. reflexivity.
  - intros H. apply (proj1 (@banner_iff_rule_created Sample.g (Sample.failing_at 6 w))) in H.
    destruct H as (r & r' & H). vm_compute in H.
    repeat (destruct H as [H | H]; [discriminate H|]). exact H.
Defined.

(** ** What gets a delete call *)

(** X18 -- A run deletes nothing else: every trunk deletion it calls
    is for the identifier of a stored trunk carrying the number, and
    every rule deletion is for the identifier of a stored rule one of
    whose trunk identifiers is that of such a trunk. *)
Theorem deletion_targets g w c :
  In c (run_calls g w) ->
  let number := VOBIZ_INBOUND_NUMBER g in
  (forall id, c = DeleteSIPTrunkRequest id ->
     exists t, In t (inbound_trunks (remote w)) /\ sip_trunk_id t = id /\
               In number (numbers t)) /\
  (forall id, c = DeleteSIPDispatchRuleRequest id ->
     exists r t, In r (dispatch_rules (remote w)) /\ sip_dispatch_rule_id r = id /\
                 In t (inbound_trunks (remote w)) /\ In number (numbers t) /\
                 In (sip_trunk_id t) (trunk_ids r)).
Proof.
  intros Hin number. apply run_calls_deletions in Hin. destruct Hin as [Ht Hr].
  split.
  - intros id E. apply conflicts_In. now apply Ht.
  - intros id E. specialize (Hr id E). apply linked_rule_ids_In in Hr.
    destruct Hr as (r & Hin & Hid & Hl). apply linked_iff in Hl.
    destruct Hl as (tid & Htid & Hrt). apply conflicts_In in Htid.
    destruct Htid as (t & Hti & <- & Hn). exists r, t. auto.
Qed.

Lemma deletion_targets_witness :
  let w := Sample.quiet [Sample.old_trunk; Sample.other_trunk]
             [Sample.a_rule "R1" ["ST_old"]; Sample.a_rule "R2" ["ST_other"]] in
  exists t, In t (inbound_trunks (remote w)) /\ sip_trunk_id t = "ST_old" /\
            In (VOBIZ_INBOUND_NUMBER Sample.g) (numbers t).
Proof.
  intros w.
  assert (Hin : In (DeleteSIPTrunkRequest "ST_old") (run_calls Sample.g w)).
  { vm_compute. do 4 right. left. reflexivity. }
  exact (proj1 (@deletion_targets Sample.g w _ Hin) "ST_old" eq_refl).
Defined.



Lemma main_returns_iff_witness :
  fst (main Sample.g (Sample.quiet [Sample.old_trunk] [])) = Ok tt.
Proof.
  apply (proj2 (@main_returns_iff Sample.g (Sample.quiet [Sample.old_trunk] []))).
  split; [discriminate|]. vm_compute. repeat constructor; discriminate.
Defined.
